(** * food-logging-app: the analysis pipeline of [server.js]

    A shallow embedding of the single-file backend: the image helpers, the
    recognition call, the six nutrition provider adapters and the three
    routes, over a model of the JavaScript values they handle and of the
    outbound calls they make. *)

From Stdlib Require Import ZArith List String Ascii Bool Lia.
From Stdlib Require Import Floats.SpecFloat.
Import ListNotations.

Local Open Scope string_scope.
Local Open Scope Z_scope.

(** ** JavaScript strings

    A string is modelled by the bytes of its UTF-8 encoding.  Every
    delimiter [server.js] searches for is ASCII, so searching and slicing at
    those delimiters agree with the UTF-16 original. *)

Module Str.

Definition len (s : string) : Z := Z.of_nat (String.length s).

Fixpoint starts_with (needle s : string) : bool :=
  match needle, s with
  | EmptyString, _ => true
  | String a n', String b s' => Ascii.eqb a b && starts_with n' s'
  | String _ _, EmptyString => false
  end.

(** [s.indexOf(needle)]: position of the first occurrence, or -1. *)
Fixpoint indexOf (needle s : string) : Z :=
  if starts_with needle s then 0
  else match s with
       | EmptyString => -1
       | String _ s' =>
           let i := indexOf needle s' in
           if i <? 0 then -1 else i + 1
       end.

(** [s.lastIndexOf(needle)]: position of the last occurrence, or -1. *)
Fixpoint lastIndexOf (needle s : string) : Z :=
  match s with
  | EmptyString => if starts_with needle s then 0 else -1
  | String _ s' =>
      let i := lastIndexOf needle s' in
      if 0 <=? i then i + 1
      else if starts_with needle s then 0 else -1
  end.

Definition includes (needle s : string) : bool := 0 <=? indexOf needle s.

Fixpoint drop (n : nat) (s : string) : string :=
  match n, s with
  | O, _ => s
  | S n', String _ s' => drop n' s'
  | S _, EmptyString => EmptyString
  end.

Fixpoint take (n : nat) (s : string) : string :=
  match n, s with
  | O, _ => EmptyString
  | S n', String a s' => String a (take n' s')
  | S _, EmptyString => EmptyString
  end.

(** A relative index of [slice]: negative counts from the end, and the
    result is clamped to [0 .. len]. *)
Definition clamp (l i : Z) : Z :=
  if i <? 0 then Z.max (l + i) 0 else Z.min i l.

(** [s.slice(from, to)]. *)
Definition slice (s : string) (from to : Z) : string :=
  let l := len s in
  let a := clamp l from in
  let b := clamp l to in
  take (Z.to_nat (b - a)) (drop (Z.to_nat a) s).

(** [s.slice(from)]. *)
Definition slice_from (s : string) (from : Z) : string :=
  slice s from (len s).

Definition lower_char (c : ascii) : ascii :=
  let n := nat_of_ascii c in
  if (Nat.leb 65 n && Nat.leb n 90)%bool then ascii_of_nat (n + 32) else c.

(** [s.toLowerCase()], on the ASCII letters. *)
Fixpoint toLowerCase (s : string) : string :=
  match s with
  | EmptyString => EmptyString
  | String c s' => String (lower_char c) (toLowerCase s')
  end.

Fixpoint rev_onto (s acc : string) : string :=
  match s with
  | EmptyString => acc
  | String c s' => rev_onto s' (String c acc)
  end.

Definition rev (s : string) : string := rev_onto s EmptyString.

(** The white space and line terminators of ECMA-262, as UTF-8 byte
    sequences: TAB, LF, VT, FF, CR, SP, NBSP, U+1680, U+2000..U+200A,
    U+2028, U+2029, U+202F, U+205F, U+3000 and U+FEFF. *)
Definition ws1 (c : ascii) : bool :=
  let n := nat_of_ascii c in
  ((Nat.leb 9 n && Nat.leb n 13) || Nat.eqb n 32)%bool.

(** Length in bytes of the white space sequence at the head of [s], 0 when
    there is none. *)
Definition ws_head (s : string) : nat :=
  match s with
  | String c1 r1 =>
      if ws1 c1 then 1%nat
      else match r1 with
           | String c2 r2 =>
               let n1 := nat_of_ascii c1 in
               let n2 := nat_of_ascii c2 in
               if (Nat.eqb n1 194 && Nat.eqb n2 160)%bool then 2%nat
               else match r2 with
                    | String c3 _ =>
                        let n3 := nat_of_ascii c3 in
                        if (Nat.eqb n1 225 && Nat.eqb n2 154 && Nat.eqb n3 128)%bool then 3%nat
                        else if (Nat.eqb n1 226 && Nat.eqb n2 128
                                 && ((Nat.leb 128 n3 && Nat.leb n3 138)
                                     || Nat.eqb n3 168 || Nat.eqb n3 169 || Nat.eqb n3 175))%bool
                             then 3%nat
                        else if (Nat.eqb n1 226 && Nat.eqb n2 129 && Nat.eqb n3 159)%bool then 3%nat
                        else if (Nat.eqb n1 227 && Nat.eqb n2 128 && Nat.eqb n3 128)%bool then 3%nat
                        else if (Nat.eqb n1 239 && Nat.eqb n2 187 && Nat.eqb n3 191)%bool then 3%nat
                        else 0%nat
                    | EmptyString => 0%nat
                    end
           | EmptyString => 0%nat
           end
  | EmptyString => 0%nat
  end.

Fixpoint trimStart_fuel (fuel : nat) (s : string) : string :=
  match fuel with
  | O => s
  | S fuel' =>
      match ws_head s with
      | O => s
      | n => trimStart_fuel fuel' (drop n s)
      end
  end.

(** [s.trimStart()]: each round removes at least one byte, so the length
    of [s] is fuel enough. *)
Definition trimStart (s : string) : string :=
  trimStart_fuel (String.length s) s.

(** The same sequences read backwards, for trimming the end. *)
Definition ws_last (r : string) : nat :=
  match r with
  | String c1 r1 =>
      if ws1 c1 then 1%nat
      else match r1 with
           | String c2 r2 =>
               if Nat.eqb (ws_head (String c2 (String c1 EmptyString))) 2 then 2%nat
               else match r2 with
                    | String c3 _ =>
                        if Nat.eqb (ws_head (String c3 (String c2 (String c1 EmptyString)))) 3
                        then 3%nat else 0%nat
                    | EmptyString => 0%nat
                    end
           | EmptyString => 0%nat
           end
  | EmptyString => 0%nat
  end.

Fixpoint trimEnd_fuel (fuel : nat) (r : string) : string :=
  match fuel with
  | O => r
  | S fuel' =>
      match ws_last r with
      | O => r
      | n => trimEnd_fuel fuel' (drop n r)
      end
  end.

Definition trimEnd (s : string) : string :=
  rev (trimEnd_fuel (String.length s) (rev s)).

(** [s.trim()]. *)
Definition trim (s : string) : string := trimEnd (trimStart s).

End Str.

(** ** JavaScript numbers

    A number is an IEEE-754 binary64 value, taken from the Standard
    Library's specification of floating point ([spec_float] at precision 53
    and maximal exponent 1024).  [server.js] never computes with the
    numbers it relays; it tests them for truthiness, compares a tab number
    with [===], and converts strings to numbers and back. *)

Module Num.

Definition number : Type := spec_float.

Definition prec : Z := 53.
Definition emax : Z := 1024.

Definition nan : number := S754_nan.
Definition zero : number := S754_zero false.

(** The number denoted by an integer, rounded to nearest even. *)
Definition of_Z (z : Z) : number := binary_normalize prec emax z 0 false.

(** [x === y] on numbers: NaN differs from itself, the two zeros are equal. *)
Definition strict_eq (x y : number) : bool := SFeqb x y.

(** ToBoolean on numbers: NaN and the two zeros are falsy. *)
Definition truthy (x : number) : bool :=
  match x with
  | S754_nan | S754_zero _ => false
  | _ => true
  end.

Definition signed (neg : bool) (x : number) : number :=
  if neg then SFopp x else x.

(** The number nearest to [m * 10^e], for [0 <= m].  The two early cases
    only avoid computing a power of ten that cannot matter: above 10^330
    every non-zero value overflows, and a value below 2^-1080 rounds to
    zero. *)
Definition of_decimal (neg : bool) (m e : Z) : number :=
  match m with
  | Zpos p =>
      if 330 <? e then S754_infinity neg
      else if Z.log2 m + 1 + 3 * e <? -1080 then S754_zero neg
      else if 0 <=? e then signed neg (binary_normalize prec emax (m * 10 ^ e) 0 false)
      else match 10 ^ (- e) with
           | Zpos d => SFdiv prec emax (S754_finite neg p 0) (S754_finite false d 0)
           | _ => S754_zero neg
           end
  | _ => S754_zero neg
  end.

Definition digit_val (c : ascii) : option Z :=
  let n := Z.of_nat (nat_of_ascii c) in
  if (48 <=? n) && (n <=? 57) then Some (n - 48) else None.

(** Reads decimal digits from the head of [s] onto the accumulator [acc];
    returns the value, how many digits were read, and the rest. *)
Fixpoint scan_digits (s : string) (acc count : Z) : Z * Z * string :=
  match s with
  | String c s' =>
      match digit_val c with
      | Some d => scan_digits s' (10 * acc + d) (count + 1)
      | None => (acc, count, s)
      end
  | EmptyString => (acc, count, s)
  end.

(** An optional ExponentPart at the head of [s]: [e] or [E], an optional
    sign and at least one digit.  Without one, nothing is consumed. *)
Definition scan_exponent (s : string) : Z * string :=
  match s with
  | String c r =>
      if (Ascii.eqb c "e" || Ascii.eqb c "E")%bool then
        let '(neg, r1) :=
          match r with
          | String "-" r' => (true, r')
          | String "+" r' => (false, r')
          | _ => (false, r)
          end in
        let '(v, n, r2) := scan_digits r1 0 0 in
        if n =? 0 then (0, s) else ((if neg then - v else v), r2)
      else (0, s)
  | EmptyString => (0, s)
  end.

(** The longest StrUnsignedDecimalLiteral (other than Infinity) at the
    head of [s], as mantissa, decimal exponent and rest. *)
Definition scan_unsigned (s : string) : option (Z * Z * string) :=
  let '(m1, c1, r1) := scan_digits s 0 0 in
  match r1 with
  | String "." r1' =>
      let '(m2, c2, r2) := scan_digits r1' m1 0 in
      if (c1 =? 0) && (c2 =? 0) then None
      else let '(ex, r3) := scan_exponent r2 in Some (m2, ex - c2, r3)
  | _ =>
      if c1 =? 0 then None
      else let '(ex, r3) := scan_exponent r1 in Some (m1, ex, r3)
  end.

(** The longest StrDecimalLiteral at the head of [s]. *)
Definition scan_decimal (s : string) : option (number * string) :=
  let '(neg, r) :=
    match s with
    | String "-" r' => (true, r')
    | String "+" r' => (false, r')
    | _ => (false, s)
    end in
  if Str.starts_with "Infinity" r then Some (S754_infinity neg, Str.drop 8 r)
  else match scan_unsigned r with
       | Some (m, e, rest) => Some (of_decimal neg m e, rest)
       | None => None
       end.

(** [parseFloat] on a string: leading white space is skipped and the
    longest decimal literal is read; NaN when there is none. *)
Definition parseFloat_string (s : string) : number :=
  match scan_decimal (Str.trimStart s) with
  | Some (x, _) => x
  | None => nan
  end.

Definition radix_digit (radix : Z) (c : ascii) : option Z :=
  let n := Z.of_nat (nat_of_ascii c) in
  let v := if (48 <=? n) && (n <=? 57) then n - 48
           else if (97 <=? n) && (n <=? 102) then n - 87
           else if (65 <=? n) && (n <=? 70) then n - 55
           else 99 in
  if v <? radix then Some v else None.

Fixpoint scan_radix (radix : Z) (s : string) (acc : Z) : option Z :=
  match s with
  | String c s' =>
      match radix_digit radix c with
      | Some d => scan_radix radix s' (radix * acc + d)
      | None => None
      end
  | EmptyString => Some acc
  end.

Definition non_decimal (radix : Z) (digits : string) : number :=
  match digits with
  | EmptyString => nan
  | _ => match scan_radix radix digits 0 with
         | Some v => of_Z v
         | None => nan
         end
  end.

(** StringToNumber: white space is trimmed on both sides; the empty
    string is 0; otherwise the whole text must be one numeric literal. *)
Definition of_string (s : string) : number :=
  match Str.trim s with
  | EmptyString => zero
  | String "0" (String "x" r) | String "0" (String "X" r) => non_decimal 16 r
  | String "0" (String "o" r) | String "0" (String "O" r) => non_decimal 8 r
  | String "0" (String "b" r) | String "0" (String "B" r) => non_decimal 2 r
  | t => match scan_decimal t with
         | Some (x, EmptyString) => x
         | _ => nan
         end
  end.

(** *** Number::toString

    The decimal text of a number: the shortest digit string that reads
    back as the same number, laid out as ECMA-262 prescribes. *)

Fixpoint digits_fuel (fuel : nat) (z : Z) (acc : string) : string :=
  match fuel with
  | O => acc
  | S fuel' =>
      let acc' := String (ascii_of_nat (Z.to_nat (48 + z mod 10))) acc in
      if z <? 10 then acc' else digits_fuel fuel' (z / 10) acc'
  end.

(** The decimal digits of [0 <= z]. *)
Definition digits (z : Z) : string :=
  digits_fuel (S (Z.to_nat (Z.log2 z))) z EmptyString.

Fixpoint zeros (n : nat) : string :=
  match n with
  | O => EmptyString
  | S n' => String "0" (zeros n')
  end.

(** [num / den < 10^n]. *)
Definition below_pow10 (num den n : Z) : bool :=
  if 0 <=? n then num <? den * 10 ^ n else num * 10 ^ (- n) <? den.

Fixpoint first_above (fuel : nat) (num den n : Z) : Z :=
  match fuel with
  | O => n
  | S fuel' => if below_pow10 num den n then n else first_above fuel' num den (n + 1)
  end.

(** The [n] with [10^(n-1) <= num/den < 10^n]: the search starts below
    the estimate that the binary logarithms give and needs a few steps. *)
Definition decimal_exponent (num den : Z) : Z :=
  let l := Z.log2 num - Z.log2 den in
  first_above 8 num den ((l - 1) * 30103 / 100000 - 1).

(** The digits [s] (with [k] of them) and exponent [n] of the shortest
    decimal [s * 10^(n-k)] that reads back as [x = num/den]; of two
    candidates of one length, the nearer to [x], and the even one in a
    tie. *)
Fixpoint shortest (fuel : nat) (x : number) (num den n k : Z) : Z * Z * Z :=
  let q := k - n in
  let '(a, b) := if 0 <=? q then (num * 10 ^ q, den) else (num, den * 10 ^ (- q)) in
  let s := a / b in
  let ok c := SFeqb (of_decimal false c (n - k)) x in
  let up := if s + 1 =? 10 ^ k then (10 ^ (k - 1), k, n + 1) else (s + 1, k, n) in
  let lo_first :=
    match Z.compare (2 * (a - s * b)) b with
    | Lt => true
    | Eq => Z.even s
    | Gt => false
    end in
  match fuel with
  | O => (s, k, n)
  | S fuel' =>
      if (10 ^ (k - 1) <=? s) && ok s && (lo_first || negb (ok (s + 1))) then (s, k, n)
      else if ok (s + 1) then up
      else shortest fuel' x num den n (k + 1)
  end.

Definition layout (s k n : Z) : string :=
  let ds := digits s in
  if (k <=? n) && (n <=? 21) then ds ++ zeros (Z.to_nat (n - k))
  else if (0 <? n) && (n <=? 21) then
    Str.take (Z.to_nat n) ds ++ "." ++ Str.drop (Z.to_nat n) ds
  else if (-6 <? n) && (n <=? 0) then "0." ++ zeros (Z.to_nat (- n)) ++ ds
  else
    let ex := (if 0 <=? n - 1 then "+" else "-") ++ digits (Z.abs (n - 1)) in
    if k =? 1 then ds ++ "e" ++ ex
    else Str.take 1 ds ++ "." ++ Str.drop 1 ds ++ "e" ++ ex.

Definition to_string (x : number) : string :=
  match x with
  | S754_nan => "NaN"
  | S754_zero _ => "0"
  | S754_infinity neg => if neg then "-Infinity" else "Infinity"
  | S754_finite neg m e =>
      let '(num, den) := if 0 <=? e then (Zpos m * 2 ^ e, 1) else (Zpos m, 2 ^ (- e)) in
      let '(s, k, n) :=
        shortest 17 (S754_finite false m e) num den (decimal_exponent num den) 1 in
      (if neg then "-" else "") ++ layout s k n
  end.

End Num.

Set Warnings "-register-all".

(** ** JavaScript values

    The values that travel through [server.js] are JSON data: request
    bodies, upstream response bodies and the records built from them.  An
    object keeps its properties in insertion order. *)

Inductive value : Type :=
| JUndefined
| JNull
| JBool (b : bool)
| JNum (x : Num.number)
| JStr (s : string)
| JArr (items : list value)
| JObj (fields : list (string * value)).

(** What a [throw] carries: [err.name], [err.message] and, for the
    rejection of an HTTP call, the body [err.response.data] (undefined
    otherwise). *)
Record exn : Type := mkExn {
  name : string;
  message : string;
  response_data : value
}.

Definition Error (msg : string) : exn := mkExn "Error" msg JUndefined.
Definition TypeError (msg : string) : exn := mkExn "TypeError" msg JUndefined.
Definition SyntaxError (msg : string) : exn := mkExn "SyntaxError" msg JUndefined.

(** The outcome of an expression that may throw. *)
Inductive result (A : Type) : Type :=
| Ok (a : A)
| Throw (e : exn).

Arguments Ok {A} a.
Arguments Throw {A} e.

Module JS.

(** A number literal of the source. *)
Definition num (z : Z) : value := JNum (Num.of_Z z).

(** ToBoolean. *)
Definition truthy (v : value) : bool :=
  match v with
  | JUndefined | JNull => false
  | JBool b => b
  | JNum x => Num.truthy x
  | JStr s => negb (String.eqb s "")
  | JArr _ | JObj _ => true
  end.

(** [a || b]. *)
Definition or (a b : value) : value := if truthy a then a else b.

(** The text a conversion to string gives when it succeeds; an array
    joins its elements with commas, null and undefined elements giving the
    empty string. *)
Fixpoint text (v : value) : string :=
  match v with
  | JUndefined => "undefined"
  | JNull => "null"
  | JBool true => "true"
  | JBool false => "false"
  | JNum x => Num.to_string x
  | JStr s => s
  | JArr items =>
      (fix join (l : list value) : string :=
         match l with
         | [] => ""
         | x :: rest =>
             let sx := match x with
                       | JUndefined | JNull => ""
                       | _ => text x
                       end in
             match rest with
             | [] => sx
             | _ :: _ => sx ++ "," ++ join rest
             end
         end) items
  | JObj _ => "[object Object]"
  end.

Fixpoint has_own (k : string) (fields : list (string * value)) : bool :=
  match fields with
  | [] => false
  | (k', _) :: rest => String.eqb k k' || has_own k rest
  end.

(** ToPrimitive succeeds.  An object of JSON data is converted by the
    functions of [Object.prototype], unless it has a property [toString]
    of its own: that property, not being a function, hides the inherited
    one, and [valueOf] gives back the object, so no conversion is left.
    An array is converted by joining, which converts every element. *)
Fixpoint convertible (v : value) : bool :=
  match v with
  | JObj fields => negb (has_own "toString" fields)
  | JArr items => forallb convertible items
  | _ => true
  end.

(** What a conversion throws when ToPrimitive fails. *)
Definition cannot_convert : exn :=
  TypeError "Cannot convert object to primitive value".

(** ToString, as a template literal, a concatenation with a string and
    [JSON.parse] apply it. *)
Definition ToString (v : value) : result string :=
  if convertible v then Ok (text v) else Throw cannot_convert.

(** The number a conversion gives when it succeeds. *)
Definition number_of (v : value) : Num.number :=
  match v with
  | JUndefined => Num.nan
  | JNull => Num.zero
  | JBool true => Num.of_Z 1
  | JBool false => Num.zero
  | JNum x => x
  | JStr s => Num.of_string s
  | JArr _ | JObj _ => Num.of_string (text v)
  end.

(** ToNumber, as [Number(v)] computes it. *)
Definition ToNumber (v : value) : result Num.number :=
  if convertible v then Ok (number_of v) else Throw cannot_convert.

(** [parseFloat(v)]: the argument is converted to a string first. *)
Definition parseFloat (v : value) : result Num.number :=
  if convertible v then Ok (Num.parseFloat_string (text v)) else Throw cannot_convert.

(** [typeof v === 'number']. *)
Definition is_number (v : value) : bool :=
  match v with
  | JNum _ => true
  | _ => false
  end.

Fixpoint lookup (k : string) (fields : list (string * value)) : value :=
  match fields with
  | [] => JUndefined
  | (k', v) :: rest => if String.eqb k k' then v else lookup k rest
  end.

(** Assignment to a property: an existing key keeps its place. *)
Fixpoint assign (k : string) (v : value) (fields : list (string * value))
  : list (string * value) :=
  match fields with
  | [] => [(k, v)]
  | (k', v') :: rest =>
      if String.eqb k k' then (k, v) :: rest else (k', v') :: assign k v rest
  end.

(** The array index a property key denotes, if it is one: decimal digits
    without a leading zero. *)
Definition array_index (k : string) : option nat :=
  match Num.scan_digits k 0 0 with
  | (v, n, EmptyString) =>
      if (n =? 0) || ((1 <? n) && Str.starts_with "0" k) then None
      else Some (Z.to_nat v)
  | _ => None
  end.

(** Reading the data property [v.k] (or [v[k]]).  Prototype chains are
    not modelled: of the keys [server.js] reads, only [length] lives on a
    prototype. *)
Definition get (v : value) (k : string) : result value :=
  match v with
  | JUndefined | JNull =>
      Throw (TypeError ("Cannot read properties of " ++ text v
                        ++ " (reading '" ++ k ++ "')"))
  | JObj fields => Ok (lookup k fields)
  | JArr items =>
      match array_index k with
      | Some i => Ok (nth i items JUndefined)
      | None =>
          if String.eqb k "length" then Ok (num (Z.of_nat (List.length items)))
          else Ok JUndefined
      end
  | JStr s =>
      match array_index k with
      | Some i =>
          match Str.take 1 (Str.drop i s) with
          | EmptyString => Ok JUndefined
          | c => Ok (JStr c)
          end
      | None =>
          if String.eqb k "length" then Ok (num (Str.len s)) else Ok JUndefined
      end
  | JBool _ | JNum _ => Ok JUndefined
  end.

(** [v?.k]. *)
Definition get_opt (v : value) (k : string) : value :=
  match v with
  | JUndefined | JNull => JUndefined
  | _ => match get v k with
         | Ok x => x
         | Throw _ => JUndefined
         end
  end.

(** [x === 'text']. *)
Definition is_string (text : string) (x : value) : bool :=
  match x with
  | JStr s => String.eqb s text
  | _ => false
  end.

(** [Array.prototype.indexOf] and [lastIndexOf] with a string argument. *)
Fixpoint arr_indexOf (text : string) (items : list value) : Z :=
  match items with
  | [] => -1
  | x :: rest =>
      if is_string text x then 0
      else let i := arr_indexOf text rest in
           if i <? 0 then -1 else i + 1
  end.

Fixpoint arr_lastIndexOf (text : string) (items : list value) : Z :=
  match items with
  | [] => -1
  | x :: rest =>
      let i := arr_lastIndexOf text rest in
      if 0 <=? i then i + 1
      else if is_string text x then 0 else -1
  end.

(** [Array.prototype.slice]. *)
Definition arr_slice (items : list value) (from to : Z) : list value :=
  let l := Z.of_nat (List.length items) in
  let a := Str.clamp l from in
  let b := Str.clamp l to in
  firstn (Z.to_nat (b - a)) (skipn (Z.to_nat a) items).

Definition no_receiver (recv : value) (method : string) : exn :=
  TypeError ("Cannot read properties of " ++ text recv
             ++ " (reading '" ++ method ++ "')").

Definition not_a_function (method : string) : exn :=
  TypeError (method ++ " is not a function").

(** A method call [recv.m(...)]: strings and arrays have [indexOf],
    [lastIndexOf] and [slice]; only strings have [trim] and
    [toLowerCase]; on undefined and null the property read throws, and on
    any other receiver the property is not a function. *)
Definition no_method {A : Type} (recv : value) (method : string) : result A :=
  match recv with
  | JUndefined | JNull => Throw (no_receiver recv method)
  | _ => Throw (not_a_function method)
  end.

Definition call_indexOf (recv : value) (text : string) : result Z :=
  match recv with
  | JStr s => Ok (Str.indexOf text s)
  | JArr items => Ok (arr_indexOf text items)
  | _ => no_method recv "indexOf"
  end.

Definition call_lastIndexOf (recv : value) (text : string) : result Z :=
  match recv with
  | JStr s => Ok (Str.lastIndexOf text s)
  | JArr items => Ok (arr_lastIndexOf text items)
  | _ => no_method recv "lastIndexOf"
  end.

Definition call_slice (recv : value) (from to : Z) : result value :=
  match recv with
  | JStr s => Ok (JStr (Str.slice s from to))
  | JArr items => Ok (JArr (arr_slice items from to))
  | _ => no_method recv "slice"
  end.

Definition call_slice_from (recv : value) (from : Z) : result value :=
  match recv with
  | JStr s => Ok (JStr (Str.slice_from s from))
  | JArr items => Ok (JArr (arr_slice items from (Z.of_nat (List.length items))))
  | _ => no_method recv "slice"
  end.

Definition call_trim (recv : value) : result string :=
  match recv with
  | JStr s => Ok (Str.trim s)
  | _ => no_method recv "trim"
  end.

Definition call_toLowerCase (recv : value) : result string :=
  match recv with
  | JStr s => Ok (Str.toLowerCase s)
  | _ => no_method recv "toLowerCase"
  end.

End JS.

(** ** [JSON.parse]

    A recursive descent over the JSON grammar of ECMA-404.  [None] stands
    for the SyntaxError the built-in throws. *)

Module JSON.

Definition is_ws (c : ascii) : bool :=
  let n := nat_of_ascii c in
  (Nat.eqb n 32 || Nat.eqb n 9 || Nat.eqb n 10 || Nat.eqb n 13)%bool.

Fixpoint skip_ws (s : string) : string :=
  match s with
  | String c s' => if is_ws c then skip_ws s' else s
  | EmptyString => s
  end.

Definition byte (z : Z) : ascii := ascii_of_nat (Z.to_nat z).

(** The UTF-8 bytes of a code point (a lone surrogate is encoded like any
    other three-byte code point). *)
Definition utf8 (cp : Z) : string :=
  if cp <? 128 then String (byte cp) ""
  else if cp <? 2048 then
    String (byte (192 + cp / 64)) (String (byte (128 + cp mod 64)) "")
  else if cp <? 65536 then
    String (byte (224 + cp / 4096))
      (String (byte (128 + (cp / 64) mod 64)) (String (byte (128 + cp mod 64)) ""))
  else
    String (byte (240 + cp / 262144))
      (String (byte (128 + (cp / 4096) mod 64))
         (String (byte (128 + (cp / 64) mod 64)) (String (byte (128 + cp mod 64)) ""))).

(** Four hexadecimal digits at the head of [s]. *)
Definition hex4 (s : string) : option (Z * string) :=
  match s with
  | String a (String b (String c (String d r))) =>
      match Num.radix_digit 16 a, Num.radix_digit 16 b,
            Num.radix_digit 16 c, Num.radix_digit 16 d with
      | Some x, Some y, Some z, Some w => Some (((x * 16 + y) * 16 + z) * 16 + w, r)
      | _, _, _, _ => None
      end
  | _ => None
  end.

(** A [\uXXXX] escape whose digits start at [s]; a high surrogate
    followed by an escaped low surrogate makes one code point. *)
Definition unicode_escape (s : string) : option (string * string) :=
  match hex4 s with
  | Some (hi, r) =>
      let pair :=
        if (55296 <=? hi) && (hi <=? 56319) then
          match r with
          | String "\" (String "u" r') =>
              match hex4 r' with
              | Some (lo, r'') =>
                  if (56320 <=? lo) && (lo <=? 57343)
                  then Some (65536 + (hi - 55296) * 1024 + (lo - 56320), r'')
                  else None
              | None => None
              end
          | _ => None
          end
        else None in
      match pair with
      | Some (cp, r'') => Some (utf8 cp, r'')
      | None => Some (utf8 hi, r)
      end
  | None => None
  end.

(** The double quote. *)
Definition dquote : ascii := ascii_of_nat 34.

Definition simple_escape (c : ascii) : option ascii :=
  if Ascii.eqb c dquote then Some dquote
  else if Ascii.eqb c "\" then Some "\"%char
  else if Ascii.eqb c "/" then Some "/"%char
  else if Ascii.eqb c "b" then Some (ascii_of_nat 8)
  else if Ascii.eqb c "f" then Some (ascii_of_nat 12)
  else if Ascii.eqb c "n" then Some (ascii_of_nat 10)
  else if Ascii.eqb c "r" then Some (ascii_of_nat 13)
  else if Ascii.eqb c "t" then Some (ascii_of_nat 9)
  else None.

(** The characters of a string literal up to its closing quote; the
    opening quote has been read. *)
Fixpoint parse_chars (fuel : nat) (s : string) (acc : string)
  : option (string * string) :=
  match fuel with
  | O => None
  | S fuel' =>
      match s with
      | EmptyString => None
      | String c r =>
          if Ascii.eqb c dquote then Some (Str.rev acc, r)
          else if Ascii.eqb c "\" then
            match r with
            | String e r' =>
                if Ascii.eqb e "u" then
                  match unicode_escape r' with
                  | Some (bytes, r'') => parse_chars fuel' r'' (Str.rev_onto bytes acc)
                  | None => None
                  end
                else match simple_escape e with
                     | Some x => parse_chars fuel' r' (String x acc)
                     | None => None
                     end
            | EmptyString => None
            end
          else if Nat.ltb (nat_of_ascii c) 32 then None
          else parse_chars fuel' r (String c acc)
      end
  end.

Definition parse_string (s : string) : option (string * string) :=
  parse_chars (S (String.length s)) s EmptyString.

(** A number: an optional minus, an integer part without leading zero, an
    optional fraction and an optional exponent. *)
Definition parse_number (s : string) : option (Num.number * string) :=
  let '(neg, r) :=
    match s with
    | String "-" r' => (true, r')
    | _ => (false, s)
    end in
  let int_part :=
    match r with
    | String "0" r' => Some (0, r')
    | _ => match Num.scan_digits r 0 0 with
           | (v, n, r') => if n =? 0 then None else Some (v, r')
           end
    end in
  match int_part with
  | None => None
  | Some (m1, r1) =>
      let '(m, fe, r2) :=
        match r1 with
        | String "." r1' =>
            match Num.scan_digits r1' m1 0 with
            | (m2, n2, r2') => if n2 =? 0 then (m1, 0, r1) else (m2, - n2, r2')
            end
        | _ => (m1, 0, r1)
        end in
      let '(ex, r3) := Num.scan_exponent r2 in
      Some (Num.of_decimal neg m (ex + fe), r3)
  end.

(** One value at the head of [s], the members of an object after its
    opening brace, and the elements of an array after its opening
    bracket.  Of any three nested calls at least one reads a character, so
    fuel of three times the length of the text is enough. *)
Fixpoint parse_value (fuel : nat) (s : string) {struct fuel}
  : option (value * string) :=
  match fuel with
  | O => None
  | S fuel' =>
      match skip_ws s with
      | EmptyString => None
      | String c r =>
          if Ascii.eqb c "{" then
            match parse_members fuel' r [] with
            | Some (fields, r') => Some (JObj fields, r')
            | None => None
            end
          else if Ascii.eqb c "[" then
            match parse_elements fuel' r [] with
            | Some (items, r') => Some (JArr items, r')
            | None => None
            end
          else if Ascii.eqb c dquote then
            match parse_string r with
            | Some (str, r') => Some (JStr str, r')
            | None => None
            end
          else if Str.starts_with "true" (String c r) then Some (JBool true, Str.drop 4 (String c r))
          else if Str.starts_with "false" (String c r) then Some (JBool false, Str.drop 5 (String c r))
          else if Str.starts_with "null" (String c r) then Some (JNull, Str.drop 4 (String c r))
          else match parse_number (String c r) with
               | Some (x, r') => Some (JNum x, r')
               | None => None
               end
      end
  end

(** After the opening brace, or after a comma when [acc] holds members:
    a closing brace is accepted only where no member has been read yet. *)
with parse_members (fuel : nat) (s : string) (acc : list (string * value)) {struct fuel}
  : option (list (string * value) * string) :=
  match fuel with
  | O => None
  | S fuel' =>
      match skip_ws s with
      | EmptyString => None
      | String c r =>
          if Ascii.eqb c "}" then
            match acc with
            | [] => Some ([], r)
            | _ :: _ => None
            end
          else if Ascii.eqb c dquote then
            match parse_string r with
            | Some (key, r1) =>
                match skip_ws r1 with
                | EmptyString => None
                | String c2 r2 =>
                    if Ascii.eqb c2 ":" then
                      match parse_value fuel' r2 with
                      | Some (v, r3) =>
                          let acc' := JS.assign key v acc in
                          match skip_ws r3 with
                          | EmptyString => None
                          | String c4 r4 =>
                              if Ascii.eqb c4 "," then parse_more fuel' r4 acc'
                              else if Ascii.eqb c4 "}" then Some (acc', r4)
                              else None
                          end
                      | None => None
                      end
                    else None
                end
            | None => None
            end
          else None
      end
  end

(** After a comma inside an object: one more member has to follow. *)
with parse_more (fuel : nat) (s : string) (acc : list (string * value)) {struct fuel}
  : option (list (string * value) * string) :=
  match fuel with
  | O => None
  | S fuel' =>
      match skip_ws s with
      | EmptyString => None
      | String c r =>
          if Ascii.eqb c dquote then parse_members fuel' (String c r) acc
          else None
      end
  end

(** After the opening bracket, or after a comma when [acc] holds
    elements (newest first). *)
with parse_elements (fuel : nat) (s : string) (acc : list value) {struct fuel}
  : option (list value * string) :=
  match fuel with
  | O => None
  | S fuel' =>
      match skip_ws s, acc with
      | String "]" r, [] => Some ([], r)
      | _, _ =>
          match parse_value fuel' s with
          | Some (v, r) =>
              match skip_ws r with
              | EmptyString => None
              | String c r' =>
                  if Ascii.eqb c "," then parse_elements fuel' r' (v :: acc)
                  else if Ascii.eqb c "]" then Some (List.rev (v :: acc), r')
                  else None
              end
          | None => None
          end
      end
  end.

(** [JSON.parse(text)]: one value, with nothing but white space after
    it. *)
Definition parse (text : string) : option value :=
  match parse_value (3 * String.length text + 3) text with
  | Some (v, rest) =>
      match skip_ws rest with
      | EmptyString => Some v
      | _ => None
      end
  | None => None
  end.

End JSON.

(** ** [Buffer.prototype.toString('base64')] *)

Module Base64.

Definition alphabet : string :=
  "ABCDEFGHIJKLMNOPQRSTUVWXYZabcdefghijklmnopqrstuvwxyz0123456789+/".

Definition digit (z : Z) : ascii :=
  match String.get (Z.to_nat z) alphabet with
  | Some c => c
  | None => "="%char
  end.

Definition code (x : Byte.byte) : Z := Z.of_N (Byte.to_N x).

Fixpoint encode (bytes : list Byte.byte) : string :=
  match bytes with
  | [] => ""
  | [x] =>
      let n := code x in
      String (digit (n / 4)) (String (digit (n mod 4 * 16)) "==")
  | [x; y] =>
      let n := code x * 256 + code y in
      String (digit (n / 1024))
        (String (digit (n / 16 mod 64)) (String (digit (n mod 16 * 4)) "="))
  | x :: y :: z :: rest =>
      let n := (code x * 256 + code y) * 256 + code z in
      String (digit (n / 262144))
        (String (digit (n / 4096 mod 64))
           (String (digit (n / 64 mod 64)) (String (digit (n mod 64)) (encode rest))))
  end.

End Base64.

(** ** Outbound calls and the console

    Every function of [server.js] that leaves the process does so through
    [axios] or the OpenAI client.  A run is read against a [world] that
    holds the configuration taken from the environment and answers each
    request, possibly depending on everything that happened before; the run
    records the requests it sends and the lines it writes to the console,
    in order. *)

Inductive request : Type :=
| ChatCompletionsCreate (body : value)
    (** [openai.chat.completions.create(body)]; answers the completion *)
| AxiosGet (url : string) (config : value)
    (** [axios.get(url, config)]; answers the response body [res.data] *)
| AxiosPost (url : string) (form : list (string * string))
    (** [axios.post(url, params)] with URL-encoded form fields; answers
        the response body [res.data] *).

(** The second argument of a [console.error]: a value, or the error object
    itself. *)
Inductive logged : Type :=
| LogValue (v : value)
| LogError (e : exn).

Inductive event : Type :=
| Called (r : request)
| ConsoleError (label : string) (detail : logged).

Definition trace : Type := list event.
Bind Scope list_scope with trace.

(** The keys read from [process.env]; an unset key is undefined. *)
Record env : Type := mkEnv {
  OPENAI_API_KEY : value;
  SPOONACULAR_KEY : value;
  EDAMAM_NUTRITION_ID : value;
  EDAMAM_NUTRITION_KEY : value;
  EDAMAM_FOOD_ID : value;
  EDAMAM_FOOD_KEY : value;
  FATSECRET_CLIENT_ID : value;
  FATSECRET_CLIENT_SECRET : value
}.

Record world : Type := mkWorld {
  config : env;
  respond : trace -> request -> result value
}.

(** An asynchronous function body: it reads the world, extends the trace,
    and returns or throws. *)
Definition M (A : Type) : Type := world -> trace -> trace * result A.

Definition ret {A : Type} (a : A) : M A := fun _ tr => (tr, Ok a).

Definition throw {A : Type} (e : exn) : M A := fun _ tr => (tr, Throw e).

Definition bind {A B : Type} (c : M A) (k : A -> M B) : M B :=
  fun w tr =>
    match c w tr with
    | (tr', Ok a) => k a w tr'
    | (tr', Throw e) => (tr', Throw e)
    end.

Definition lift {A : Type} (r : result A) : M A := fun _ tr => (tr, r).

(** [try { body } catch (err) { handler err }]. *)
Definition try_catch {A : Type} (body : M A) (handler : exn -> M A) : M A :=
  fun w tr =>
    match body w tr with
    | (tr', Ok a) => (tr', Ok a)
    | (tr', Throw e) => handler e w tr'
    end.

(** [await] of an outbound call. *)
Definition call (r : request) : M value :=
  fun w tr => ((tr ++ [Called r])%list, respond w tr r).

Definition console_error (label : string) (detail : logged) : M unit :=
  fun _ tr => ((tr ++ [ConsoleError label detail])%list, Ok tt).

Definition getenv (key : env -> value) : M value :=
  fun w tr => (tr, Ok (key (config w))).

Definition rbind {A B : Type} (r : result A) (k : A -> result B) : result B :=
  match r with
  | Ok a => k a
  | Throw e => Throw e
  end.

Declare Scope js_scope.
Delimit Scope js_scope with js.

Notation "x <- c ;; k" := (bind c (fun x => k))
  (at level 61, c at next level, right associativity) : js_scope.
Notation "c ;; k" := (bind c (fun _ => k))
  (at level 61, right associativity) : js_scope.
Notation "'let*' x ':=' r 'in' k" := (rbind r (fun x => k))
  (at level 61, x name, r at next level, right associativity) : js_scope.

Local Open Scope js_scope.

(** The calls a trace records, oldest first. *)
Fixpoint calls (tr : trace) : list request :=
  match tr with
  | [] => []
  | Called r :: rest => r :: calls rest
  | ConsoleError _ _ :: rest => calls rest
  end.

(** ** Error objects in expressions *)

(** [Error.prototype.toString]. *)
Definition error_text (e : exn) : string :=
  if String.eqb (name e) "" then message e
  else if String.eqb (message e) "" then name e
  else name e ++ ": " ++ message e.

(** [err.message || err] as a logged value and inside a concatenation. *)
Definition message_or_error (e : exn) : logged :=
  if JS.truthy (JStr (message e)) then LogValue (JStr (message e)) else LogError e.

Definition message_or_error_text (e : exn) : string :=
  if JS.truthy (JStr (message e)) then message e else error_text e.

(** [err.response?.data || err.message || err]. *)
Definition response_or_message_or_error (e : exn) : logged :=
  if JS.truthy (response_data e) then LogValue (response_data e)
  else message_or_error e.

(** ** Expression idioms of [server.js] *)

(** [a && a.k]. *)
Definition and_get (a : value) (k : string) : result value :=
  if JS.truthy a then JS.get a k else Ok a.

(** [JSON.parse(v)]: the argument is converted to a string first. *)
Definition JSON_parse (v : value) : result value :=
  let* s := JS.ToString v in
  match JSON.parse s with
  | Some x => Ok x
  | None => Throw (SyntaxError "Unexpected token in JSON")
  end.

(** The record every adapter of tabs 1 to 5 builds. *)
Definition record (calories protein carbs fat : value) : value :=
  JObj [("calories", calories); ("protein", protein); ("carbs", carbs); ("fat", fat)].

Definition nl : string := String (ascii_of_nat 10) EmptyString.

Definition quoted (s : string) : string :=
  String JSON.dquote (s ++ String JSON.dquote EmptyString).

(** ** Helpers *)

Definition stripBase64Prefix (b64 : value) : result value :=
  if negb (JS.truthy b64) then Ok b64
  else
    let* idx := JS.call_indexOf b64 "base64," in
    if 0 <=? idx then JS.call_slice_from b64 (idx + 7) else Ok b64.

(** The default of the second parameter applies when it is undefined.
    The media type is the text multer read from the upload, so that its
    conversion cannot fail. *)
Definition bufferToDataUrl (buffer : list Byte.byte) (mime : value) : string :=
  let mime := match mime with JUndefined => JStr "image/jpeg" | _ => mime end in
  let base64 := Base64.encode buffer in
  "data:" ++ JS.text mime ++ ";base64," ++ base64.

(** ** OpenAI Vision (recognition) *)

(** The argument both image calls pass to [chat.completions.create]: one
    user message holding the image and a text. *)
Definition image_chat (dataUrl text : string) : value :=
  JObj [("model", JStr "gpt-4o-mini");
        ("messages",
         JArr [JObj [("role", JStr "user");
                     ("content",
                      JArr [JObj [("type", JStr "image_url");
                                  ("image_url", JObj [("url", JStr dataUrl)])];
                            JObj [("type", JStr "text"); ("text", JStr text)]])]]);
        ("temperature", JNum Num.zero)].

(** [response.choices[0]?.message?.content]. *)
Definition first_choice_content (response : value) : result value :=
  let* choices := JS.get response "choices" in
  let* choice := JS.get choices "0" in
  Ok (JS.get_opt (JS.get_opt choice "message") "content").

Definition recognition_text : string :=
  "Identify the primary food or dish in this image. Reply with a short name only, e.g. 'chicken curry with rice'. No extra explanation.".

(** The payload is a text and is converted as such; a list sent in
    place of the image text is taken as its joined text. *)
Definition analyzeWithOpenAI (imageBase64 : value) : M string :=
  try_catch
    (base64Only <- lift (stripBase64Prefix imageBase64) ;;
     let dataUrl := "data:image/jpeg;base64," ++ JS.text base64Only in
     response <- call (ChatCompletionsCreate (image_chat dataUrl recognition_text)) ;;
     content <- lift (first_choice_content response) ;;
     text <- lift (JS.call_trim (JS.or content (JStr ""))) ;;
     if negb (JS.truthy (JStr text))
     then throw (Error "Empty recognition result from OpenAI")
     else ret text)
    (fun err =>
       console_error "OpenAI Vision error:" (message_or_error err) ;;
       throw (Error ("OpenAI Vision failed: " ++ message_or_error_text err))).

(** ** OpenAI Nutrition (tab 6 uses image -> nutrition) *)

Definition instruction : string :=
  "You will be given a food image. Identify the dish and visible ingredients, then estimate nutrition values PER 100g for: calories, protein (g), carbs (g), fat (g)."
  ++ nl ++ "Return strictly valid JSON with these keys:"
  ++ nl ++ "{ " ++ quoted "foodName" ++ ": " ++ quoted "short name"
  ++ ", " ++ quoted "calories" ++ ": number, " ++ quoted "protein"
  ++ ": number, " ++ quoted "carbs" ++ ": number, " ++ quoted "fat" ++ ": number }"
  ++ nl ++ "Round numbers to one decimal place (or integer for calories)."
  ++ nl ++ "If unsure, make a reasonable estimate.".

Definition getNutritionFromOpenAIImage (imageBase64 : value) : M value :=
  try_catch
    (base64Only <- lift (stripBase64Prefix imageBase64) ;;
     let dataUrl := "data:image/jpeg;base64," ++ JS.text base64Only in
     response <- call (ChatCompletionsCreate (image_chat dataUrl instruction)) ;;
     content <- lift (first_choice_content response) ;;
     let out := JS.or content (JStr "") in
     first <- lift (JS.call_indexOf out "{") ;;
     last <- lift (JS.call_lastIndexOf out "}") ;;
     if (first <? 0) || (last <? 0)
     then
       shown <- lift (JS.ToString out) ;;
       throw (Error ("OpenAI nutrition output not JSON: " ++ shown))
     else
       jsonText <- lift (JS.call_slice out first (last + 1)) ;;
       parsed <- lift (JSON_parse jsonText) ;;
       ret parsed)
    (fun err =>
       console_error "OpenAI Nutrition (image) error:" (message_or_error err) ;;
       throw (Error ("OpenAI Nutrition image analysis failed: "
                     ++ message_or_error_text err))).

(** ** Nutrition provider helpers *)

(** Tab 1: Edamam Nutrition Analysis API (nutrition-data) *)
Definition getNutritionEdamam1 (foodName : value) : M value :=
  try_catch
    (app_id <- getenv EDAMAM_NUTRITION_ID ;;
     app_key <- getenv EDAMAM_NUTRITION_KEY ;;
     res_data <- call (AxiosGet "https://api.edamam.com/api/nutrition-data"
                   (JObj [("params",
                           JObj [("app_id", app_id);
                                 ("app_key", app_key);
                                 ("nutrition_type", JStr "logging");
                                 ("query", foodName)])])) ;;
     let data := JS.or res_data (JObj []) in
     data_calories <- lift (JS.get data "calories") ;;
     let calories := JS.or data_calories (JS.num 0) in
     data_total <- lift (JS.get data "totalNutrients") ;;
     let total := JS.or data_total (JObj []) in
     procnt <- lift (let* x := JS.get total "PROCNT" in and_get x "quantity") ;;
     let protein := JS.or procnt (JS.num 0) in
     chocdf <- lift (let* x := JS.get total "CHOCDF" in and_get x "quantity") ;;
     let carbs := JS.or chocdf (JS.num 0) in
     fat_q <- lift (let* x := JS.get total "FAT" in and_get x "quantity") ;;
     let fat := JS.or fat_q (JS.num 0) in
     ret (record calories protein carbs fat))
    (fun err =>
       console_error "Edamam Nutrition error:" (response_or_message_or_error err) ;;
       throw (Error "Edamam Nutrition failed")).

(** [lst && lst[0] && lst[0].food]. *)
Definition first_food (lst : value) : result value :=
  let* entry := and_get lst "0" in
  and_get entry "food".

(** Tab 2: Edamam Food Database (parser) *)
Definition getNutritionEdamam2 (foodName : value) : M value :=
  try_catch
    (app_id <- getenv EDAMAM_FOOD_ID ;;
     app_key <- getenv EDAMAM_FOOD_KEY ;;
     res_data <- call (AxiosGet "https://api.edamam.com/api/food-database/v2/parser"
                   (JObj [("params",
                           JObj [("app_id", app_id);
                                 ("app_key", app_key);
                                 ("ingr", foodName)])])) ;;
     let data := JS.or res_data (JObj []) in
     parsed <- lift (let* x := JS.get data "parsed" in first_food x) ;;
     food <- (if JS.truthy parsed then ret parsed
              else lift (let* x := JS.get data "hints" in first_food x)) ;;
     if negb (JS.truthy food) then throw (Error "Food not found in Edamam Food DB")
     else
       food_nutrients <- lift (JS.get food "nutrients") ;;
       let n := JS.or food_nutrients (JObj []) in
       energy <- lift (JS.get n "ENERC_KCAL") ;;
       procnt <- lift (JS.get n "PROCNT") ;;
       chocdf <- lift (JS.get n "CHOCDF") ;;
       fat <- lift (JS.get n "FAT") ;;
       ret (record (JS.or energy (JS.num 0)) (JS.or procnt (JS.num 0))
                   (JS.or chocdf (JS.num 0)) (JS.or fat (JS.num 0))))
    (fun err =>
       console_error "Edamam FoodDB error:" (response_or_message_or_error err) ;;
       throw (Error "Edamam FoodDB failed")).

Definition fatsecret_api : string := "https://platform.fatsecret.com/rest/server.api".

(** [{ Authorization: `Bearer ${token}` }], for a token already
    converted. *)
Definition bearer (token : value) : value :=
  JObj [("Authorization", JStr ("Bearer " ++ JS.text token))].

(** [Array.isArray(v)]. *)
Definition isArray (v : value) : bool :=
  match v with
  | JArr _ => true
  | _ => false
  end.

(** [searchRes.data && (searchRes.data.foods || searchRes.data.food)]. *)
Definition found_foods (searchRes_data : value) : result value :=
  if JS.truthy searchRes_data
  then let* a := JS.get searchRes_data "foods" in
       if JS.truthy a then Ok a else JS.get searchRes_data "food"
  else Ok searchRes_data.

(** The [firstFood] that the block under [if (foods)] leaves. *)
Definition first_of_foods (foods : value) : result value :=
  if JS.truthy foods
  then let* foods_food := JS.get foods "food" in
       if isArray foods_food then JS.get foods_food "0"
       else if JS.truthy foods_food then Ok foods_food
            else JS.get foods "0"
  else Ok JUndefined.

(** [firstFood.food_id || firstFood.id]. *)
Definition food_id_of (firstFood : value) : result value :=
  let* a := JS.get firstFood "food_id" in
  if JS.truthy a then Ok a else JS.get firstFood "id".

(** [foodDetail && (foodDetail.servings && foodDetail.servings.serving
    && foodDetail.servings.serving[0])]. *)
Definition first_serving (foodDetail : value) : result value :=
  if JS.truthy foodDetail
  then let* servings := JS.get foodDetail "servings" in
       let* list := and_get servings "serving" in
       and_get list "0"
  else Ok foodDetail.

(** [parseFloat(serving.k) || 0]. *)
Definition parsed_or_zero (serving : value) (k : string) : result value :=
  let* x := JS.get serving k in
  let* n := JS.parseFloat x in
  Ok (JS.or (JNum n) (JS.num 0)).

(** Tab 3: FatSecret *)
Definition getNutritionFatSecret (foodName : value) : M value :=
  try_catch
    (client_id <- getenv FATSECRET_CLIENT_ID ;;
     client_secret <- getenv FATSECRET_CLIENT_SECRET ;;
     (* the environment holds texts, or nothing under a key *)
     let params := [("client_id", JS.text client_id);
                    ("client_secret", JS.text client_secret);
                    ("grant_type", "client_credentials")] in
     tokenRes_data <- call (AxiosPost "https://oauth.fatsecret.com/connect/token" params) ;;
     token <- lift (and_get tokenRes_data "access_token") ;;
     if negb (JS.truthy token) then throw (Error "FatSecret token failed")
     else
       _ <- lift (JS.ToString token) ;;
       searchRes_data <- call (AxiosGet fatsecret_api
                          (JObj [("params",
                                  JObj [("method", JStr "foods.search");
                                        ("search_expression", foodName);
                                        ("format", JStr "json")]);
                                 ("headers", bearer token)])) ;;
       foods <- lift (found_foods searchRes_data) ;;
       firstFood <- lift (first_of_foods foods) ;;
       if negb (JS.truthy firstFood) then throw (Error "FatSecret: no food found")
       else
         foodId <- lift (food_id_of firstFood) ;;
         detailRes_data <- call (AxiosGet fatsecret_api
                            (JObj [("params",
                                    JObj [("method", JStr "food.get_v2");
                                          ("food_id", foodId);
                                          ("format", JStr "json")]);
                                   ("headers", bearer token)])) ;;
         foodDetail <- lift (and_get detailRes_data "food") ;;
         serving <- lift (first_serving foodDetail) ;;
         if negb (JS.truthy serving) then throw (Error "FatSecret: no serving info")
         else
           calories <- lift (parsed_or_zero serving "calories") ;;
           protein <- lift (parsed_or_zero serving "protein") ;;
           carbs <- lift (parsed_or_zero serving "carbohydrate") ;;
           fat <- lift (parsed_or_zero serving "fat") ;;
           ret (record calories protein carbs fat))
    (fun err =>
       console_error "FatSecret error:" (response_or_message_or_error err) ;;
       throw (Error "FatSecret failed")).

(** Tab 4: OpenFoodFacts *)
Definition getNutritionOpenFoodFacts (foodName : value) : M value :=
  try_catch
    (res_data <- call (AxiosGet "https://world.openfoodfacts.org/cgi/search.pl"
                   (JObj [("params",
                           JObj [("search_terms", foodName);
                                 ("search_simple", JS.num 1);
                                 ("action", JStr "process");
                                 ("json", JS.num 1);
                                 ("page_size", JS.num 1)])])) ;;
     product <- lift (let* products := and_get res_data "products" in
                      and_get products "0") ;;
     if negb (JS.truthy product) then throw (Error "OpenFoodFacts: not found")
     else
       product_nutriments <- lift (JS.get product "nutriments") ;;
       let n := JS.or product_nutriments (JObj []) in
       kcal <- lift (let* dash := JS.get n "energy-kcal" in
                     if JS.truthy dash then Ok dash else JS.get n "energy_kcal") ;;
       proteins <- lift (JS.get n "proteins") ;;
       carbohydrates <- lift (JS.get n "carbohydrates") ;;
       fat <- lift (JS.get n "fat") ;;
       ret (record (JS.or kcal (JS.num 0)) (JS.or proteins (JS.num 0))
                   (JS.or carbohydrates (JS.num 0)) (JS.or fat (JS.num 0))))
    (fun err =>
       console_error "OpenFoodFacts error:" (response_or_message_or_error err) ;;
       throw (Error "OpenFoodFacts failed")).

(** [v !== undefined]. *)
Definition defined (v : value) : bool :=
  match v with
  | JUndefined => false
  | _ => true
  end.

(** The arrow function [parseVal] of tab 5. *)
Definition parseVal (v : value) : result value :=
  if negb (JS.truthy v) then Ok (JS.num 0)
  else if JS.is_number v then Ok v
  else
    let* v_value := JS.get v "value" in
    if defined v_value then let* n := JS.parseFloat v_value in Ok (JNum n)
    else
      let* v_amount := JS.get v "amount" in
      if defined v_amount then let* n := JS.parseFloat v_amount in Ok (JNum n)
      else Ok (JS.num 0).

(** [items.find(x => x.name && x.name.toLowerCase().includes(name))]. *)
Fixpoint find_named (name : string) (items : list value) : result value :=
  match items with
  | [] => Ok JUndefined
  | x :: rest =>
      let* x_name := JS.get x "name" in
      let* hit := if JS.truthy x_name
                  then let* lower := JS.call_toLowerCase x_name in
                       Ok (JBool (Str.includes name lower))
                  else Ok x_name in
      if JS.truthy hit then Ok x else find_named name rest
  end.

(** The arrow function [find] of tab 5, closed over [nutr]. *)
Definition find (nutr : value) (name : string) : result value :=
  let* n := match JS.or nutr (JArr []) with
            | JArr items => find_named name items
            | other => JS.no_method other "find"
            end in
  if JS.truthy n then JS.get n "amount" else Ok (JS.num 0).

(** [v === 0]. *)
Definition is_zero (v : value) : bool :=
  match v with
  | JNum x => Num.strict_eq x (Num.of_Z 0)
  | _ => false
  end.

(** [guessRes.data && (guessRes.data.calories || guessRes.data.calories === 0)],
    as the condition of the [if]. *)
Definition has_calories (guessRes_data : value) : result bool :=
  if JS.truthy guessRes_data
  then let* c := JS.get guessRes_data "calories" in
       Ok (JS.truthy c || is_zero c)
  else Ok false.

(** [parseVal(data.k)]. *)
Definition parsed_field (data : value) (k : string) : result value :=
  let* x := JS.get data k in
  parseVal x.

(** [(data && data.results) || []]. *)
Definition results_of (searchRes_data : value) : result value :=
  let* r := and_get searchRes_data "results" in
  Ok (JS.or r (JArr [])).

(** [results[0].id]. *)
Definition first_id (results : value) : result value :=
  let* r0 := JS.get results "0" in
  JS.get r0 "id".

(** [data && data.nutrition && data.nutrition.nutrients]. *)
Definition nutrients_of (infoRes_data : value) : result value :=
  let* nutrition := and_get infoRes_data "nutrition" in
  and_get nutrition "nutrients".

(** [find(name) || 0]. *)
Definition found_or_zero (nutr : value) (name : string) : result value :=
  let* x := find nutr name in
  Ok (JS.or x (JS.num 0)).

(** Tab 5: Spoonacular (nutrition estimation) *)
Definition getNutritionSpoonacular (foodName : value) : M value :=
  try_catch
    (apiKey <- getenv SPOONACULAR_KEY ;;
     guessRes_data <- call (AxiosGet "https://api.spoonacular.com/recipes/guessNutrition"
                        (JObj [("params",
                                JObj [("title", foodName); ("apiKey", apiKey)])])) ;;
     usable <- lift (has_calories guessRes_data) ;;
     if usable : bool then
       calories <- lift (parsed_field guessRes_data "calories") ;;
       protein <- lift (parsed_field guessRes_data "protein") ;;
       carbs <- lift (parsed_field guessRes_data "carbs") ;;
       fat <- lift (parsed_field guessRes_data "fat") ;;
       ret (record calories protein carbs fat)
     else
       searchRes_data <- call (AxiosGet "https://api.spoonacular.com/food/ingredients/search"
                           (JObj [("params",
                                   JObj [("query", foodName);
                                         ("number", JS.num 1);
                                         ("apiKey", apiKey)])])) ;;
       results <- lift (results_of searchRes_data) ;;
       results_length <- lift (JS.get results "length") ;;
       if negb (JS.truthy results_length)
       then throw (Error "Spoonacular: ingredient not found")
       else
         ingredientId <- lift (first_id results) ;;
         _ <- lift (JS.ToString ingredientId) ;;
         infoRes_data <- call (AxiosGet ("https://api.spoonacular.com/food/ingredients/"
                                         ++ JS.text ingredientId ++ "/information")
                           (JObj [("params",
                                   JObj [("amount", JS.num 100);
                                         ("unit", JStr "g");
                                         ("apiKey", apiKey)])])) ;;
         nutr <- lift (nutrients_of infoRes_data) ;;
         calories <- lift (found_or_zero nutr "calories") ;;
         protein <- lift (found_or_zero nutr "protein") ;;
         carbs <- lift (found_or_zero nutr "carbohydrate") ;;
         fat <- lift (found_or_zero nutr "fat") ;;
         ret (record calories protein carbs fat))
    (fun err =>
       console_error "Spoonacular error:" (response_or_message_or_error err) ;;
       let upstream := JS.get_opt (response_data err) "message" in
       detail <- (if JS.truthy upstream then lift (JS.ToString upstream)
                  else ret (message err)) ;;
       throw (Error ("Spoonacular failed: " ++ detail))).

(** The food name is the text recognition returned or the [q] of the
    query string, whose parser gives no object a [toString] of its own, so
    that its conversion cannot fail. *)
Definition prompt (foodName : value) : string :=
  "Provide nutrition estimates PER 100g for " ++ quoted (JS.text foodName) ++ "."
  ++ nl ++ "Return strictly valid JSON:"
  ++ nl ++ "{ " ++ quoted "calories" ++ ": number, " ++ quoted "protein"
  ++ ": number, " ++ quoted "carbs" ++ ": number, " ++ quoted "fat" ++ ": number }"
  ++ nl ++ "Round numbers to one decimal place.".

(** Tab 6 by name (fallback: get nutrition by name via OpenAI) *)
Definition getNutritionFromOpenAIByName (foodName : value) : M value :=
  try_catch
    (resp <- call (ChatCompletionsCreate
                     (JObj [("model", JStr "gpt-4o-mini");
                            ("messages",
                             JArr [JObj [("role", JStr "user");
                                         ("content", JStr (prompt foodName))]]);
                            ("temperature", JNum Num.zero)])) ;;
     content <- lift (first_choice_content resp) ;;
     let out := JS.or content (JStr "") in
     first <- lift (JS.call_indexOf out "{") ;;
     last <- lift (JS.call_lastIndexOf out "}") ;;
     if (first <? 0) || (last <? 0)
     then throw (Error "OpenAI nutrition response not JSON")
     else
       jsonText <- lift (JS.call_slice out first (last + 1)) ;;
       lift (JSON_parse jsonText))
    (fun err =>
       console_error "OpenAI nutrition by name error:" (message_or_error err) ;;
       throw (Error "OpenAI nutrition lookup failed")).

(** ** Routes *)

(** What a handler sends: [res.status(code).json(body)]; [res.json(body)]
    sends status 200. *)
Record response : Type := mkResponse {
  status : Z;
  json : value
}.

Definition error_body (msg : value) : value := JObj [("error", msg)].

(** [GET /health]. *)
Definition health : response := mkResponse 200 (JObj [("status", JStr "ok")]).

(** The file multer leaves in [req.file]. *)
Record upload : Type := mkUpload {
  buffer : list Byte.byte;
  mimetype : value
}.

(** [POST /api/openai/vision] - FormData file upload *)
Definition post_api_openai_vision (req_file : option upload) : M response :=
  try_catch
    (match req_file with
     | None => ret (mkResponse 400 (error_body (JStr "Missing file")))
     | Some file =>
         let dataUrl :=
           bufferToDataUrl (buffer file) (JS.or (mimetype file) (JStr "image/jpeg")) in
         foodName <- analyzeWithOpenAI (JStr dataUrl) ;;
         ret (mkResponse 200 (JObj [("foodName", JStr foodName)]))
     end)
    (fun err =>
       console_error "Vision endpoint error:" (message_or_error err) ;;
       ret (mkResponse 500
              (error_body (JS.or (JStr (message err)) (JStr "Vision failed"))))).

(** [x === n] for a number literal [n] of the source. *)
Definition is_tab (x : Num.number) (n : Z) : bool :=
  Num.strict_eq x (Num.of_Z n).

(** [Number(tab) === n] where the conversion succeeds, as it does for
    every text; where it throws, no comparison is reached. *)
Definition tab_is (tab : value) (n : Z) : bool :=
  match JS.ToNumber tab with
  | Ok x => is_tab x n
  | Throw _ => false
  end.

(** [GET /api/nutrition/:tab?q=foodName] - call provider by name *)
Definition get_api_nutrition (params_tab : string) (q : value) : M response :=
  try_catch
    (let tab := JStr params_tab in
     if negb (JS.truthy q)
     then ret (mkResponse 400 (error_body (JStr "Missing query param q (food name)")))
     else
       let respond_with (lookup : M value) : M response :=
         nutrition <- lookup ;;
         ret (mkResponse 200 (JObj [("foodName", q); ("nutrition", nutrition)])) in
       if tab_is tab 1 then respond_with (getNutritionEdamam1 q)
       else if tab_is tab 2 then respond_with (getNutritionEdamam2 q)
       else if tab_is tab 3 then respond_with (getNutritionFatSecret q)
       else if tab_is tab 4 then respond_with (getNutritionOpenFoodFacts q)
       else if tab_is tab 5 then respond_with (getNutritionSpoonacular q)
       else if tab_is tab 6 then respond_with (getNutritionFromOpenAIByName q)
       else ret (mkResponse 400 (error_body (JStr "Invalid tab (1-6)"))))
    (fun err =>
       console_error "Nutrition endpoint error:" (message_or_error err) ;;
       ret (mkResponse 500
              (error_body (JS.or (JStr (message err)) (JStr "Nutrition lookup failed"))))).

(** [if (!o.k) o.k = v]: the assignment creates or overwrites the property
    of an object; on a primitive it is dropped, [server.js] not being in
    strict mode. *)
Definition default_property (o : value) (k : string) (v : value) : result value :=
  let* current := JS.get o k in
  if negb (JS.truthy current)
  then match o with
       | JObj fields => Ok (JObj (JS.assign k v fields))
       | _ => Ok o
       end
  else Ok o.

(** [POST /api/analyze-image] - entire flow (image + tab) *)
Definition post_api_analyze_image (req_body : value) : M response :=
  try_catch
    (image <- lift (JS.get req_body "image") ;;
     tab <- lift (JS.get req_body "tab") ;;
     if negb (JS.truthy image) || negb (JS.truthy tab)
     then ret (mkResponse 400 (error_body (JStr "Missing image or tab")))
     else
       foodName <- analyzeWithOpenAI image ;;
       tab_number <- lift (JS.ToNumber tab) ;;
       if is_tab tab_number 6 then
         openaiNutrition <- getNutritionFromOpenAIImage image ;;
         openaiNutrition <- lift (default_property openaiNutrition "foodName"
                                    (JStr foodName)) ;;
         ret (mkResponse 200 (JObj [("foodName", JStr foodName);
                                    ("nutrition", openaiNutrition)]))
       else
         let respond_with (lookup : M value) : M response :=
           nutrition <- lookup ;;
           ret (mkResponse 200 (JObj [("foodName", JStr foodName);
                                      ("nutrition", nutrition)])) in
         tab_number <- lift (JS.ToNumber tab) ;;
         if is_tab tab_number 1 then respond_with (getNutritionEdamam1 (JStr foodName))
         else if is_tab tab_number 2 then respond_with (getNutritionEdamam2 (JStr foodName))
         else if is_tab tab_number 3 then respond_with (getNutritionFatSecret (JStr foodName))
         else if is_tab tab_number 4
           then respond_with (getNutritionOpenFoodFacts (JStr foodName))
         else if is_tab tab_number 5 then respond_with (getNutritionSpoonacular (JStr foodName))
         else ret (mkResponse 400 (error_body (JStr "Invalid tab (must be 1-6)"))))
    (fun err =>
       console_error "Analyze-image endpoint error:" (message_or_error err) ;;
       ret (mkResponse 500
              (error_body (JS.or (JStr (message err)) (JStr "Failed to analyze image"))))).

(** Running a handler from an empty trace. *)
Definition run {A : Type} (c : M A) (w : world) : trace * result A := c w [].

(** * Vocabulary of the specification *)

(** ** Image payloads *)

(** A text without a comma; every media type is one. *)
Fixpoint comma_free (s : string) : bool :=
  match s with
  | EmptyString => true
  | String c s' => negb (Ascii.eqb "," c) && comma_free s'
  end.

(** The characters of base64 text, padding included. *)
Definition base64_char (c : ascii) : bool :=
  let n := nat_of_ascii c in
  ((Nat.leb 65 n && Nat.leb n 90) || (Nat.leb 97 n && Nat.leb n 122)
   || (Nat.leb 48 n && Nat.leb n 57) || Nat.eqb n 43 || Nat.eqb n 47 || Nat.eqb n 61)%bool.

Fixpoint bare_base64 (s : string) : bool :=
  match s with
  | EmptyString => true
  | String c s' => base64_char c && bare_base64 s'
  end.

(** ** Reading a run

    Each asynchronous function has the same outline: requests are sent one
    after the other, each answer is examined by code that sends nothing,
    and a [catch] at the end logs and rethrows.  The definitions below name
    the requests and the examinations, so that a run can be read as a
    function of the answers it gets. *)

(** What a logging [catch] makes of the outcome of its [try] block. *)
Definition settle {A : Type} (label : string) (detail : exn -> logged) (wrap : exn -> exn)
  (out : trace * result A) : trace * result A :=
  match out with
  | (tr, Ok a) => (tr, Ok a)
  | (tr, Throw e) => ((tr ++ [ConsoleError label (detail e)])%list, Throw (wrap e))
  end.

(** *** Recognition *)

Definition recognition_request (base64Only : value) : request :=
  ChatCompletionsCreate
    (image_chat ("data:image/jpeg;base64," ++ JS.text base64Only) recognition_text).

Definition recognized (answer : result value) : result string :=
  let* response := answer in
  let* content := first_choice_content response in
  let* text := JS.call_trim (JS.or content (JStr "")) in
  if negb (JS.truthy (JStr text)) then Throw (Error "Empty recognition result from OpenAI")
  else Ok text.

Definition vision_failed (e : exn) : exn :=
  Error ("OpenAI Vision failed: " ++ message_or_error_text e).

(** *** Nutrition from the model's text *)

(** From the first opening brace to the last closing brace, parsed. *)
Definition span_json (not_json : value -> exn) (out : value) : result value :=
  let* first := JS.call_indexOf out "{" in
  let* last := JS.call_lastIndexOf out "}" in
  if (first <? 0) || (last <? 0) then Throw (not_json out)
  else
    let* jsonText := JS.call_slice out first (last + 1) in
    JSON_parse jsonText.

Definition nutrition_request (base64Only : value) : request :=
  ChatCompletionsCreate
    (image_chat ("data:image/jpeg;base64," ++ JS.text base64Only) instruction).

(** What [throw new Error('... not JSON: ' + out)] throws: the error, or
    the TypeError of the concatenation. *)
Definition output_not_json (out : value) : exn :=
  match JS.ToString out with
  | Ok shown => Error ("OpenAI nutrition output not JSON: " ++ shown)
  | Throw e => e
  end.

Definition image_nutrition (answer : result value) : result value :=
  let* response := answer in
  let* content := first_choice_content response in
  span_json output_not_json (JS.or content (JStr "")).

Definition image_analysis_failed (e : exn) : exn :=
  Error ("OpenAI Nutrition image analysis failed: " ++ message_or_error_text e).

Definition name_request (foodName : value) : request :=
  ChatCompletionsCreate
    (JObj [("model", JStr "gpt-4o-mini");
           ("messages",
            JArr [JObj [("role", JStr "user"); ("content", JStr (prompt foodName))]]);
           ("temperature", JNum Num.zero)]).

Definition name_nutrition (answer : result value) : result value :=
  let* resp := answer in
  let* content := first_choice_content resp in
  span_json (fun _ => Error "OpenAI nutrition response not JSON")
    (JS.or content (JStr "")).

(** *** Tab 1 *)

Definition edamam1_request (cfg : env) (foodName : value) : request :=
  AxiosGet "https://api.edamam.com/api/nutrition-data"
    (JObj [("params",
            JObj [("app_id", EDAMAM_NUTRITION_ID cfg);
                  ("app_key", EDAMAM_NUTRITION_KEY cfg);
                  ("nutrition_type", JStr "logging");
                  ("query", foodName)])]).

(** [(total.code && total.code.quantity) || 0]. *)
Definition quantity (total : value) (code : string) : result value :=
  let* x := JS.get total code in
  let* q := and_get x "quantity" in
  Ok (JS.or q (JS.num 0)).

Definition edamam1_record (answer : result value) : result value :=
  let* res_data := answer in
  let data := JS.or res_data (JObj []) in
  let* data_calories := JS.get data "calories" in
  let* data_total := JS.get data "totalNutrients" in
  let total := JS.or data_total (JObj []) in
  let* protein := quantity total "PROCNT" in
  let* carbs := quantity total "CHOCDF" in
  let* fat := quantity total "FAT" in
  Ok (record (JS.or data_calories (JS.num 0)) protein carbs fat).

(** *** Tab 2 *)

Definition edamam2_request (cfg : env) (foodName : value) : request :=
  AxiosGet "https://api.edamam.com/api/food-database/v2/parser"
    (JObj [("params",
            JObj [("app_id", EDAMAM_FOOD_ID cfg);
                  ("app_key", EDAMAM_FOOD_KEY cfg);
                  ("ingr", foodName)])]).

(** The food the adapter settles on: the first parsed entry's, else the
    first hint's. *)
Definition edamam2_food (data : value) : result value :=
  let* parsed := (let* x := JS.get data "parsed" in first_food x) in
  if JS.truthy parsed then Ok parsed
  else let* x := JS.get data "hints" in first_food x.

(** The record read from a food's [nutrients]. *)
Definition nutrients_record (food : value) : result value :=
  let* food_nutrients := JS.get food "nutrients" in
  let n := JS.or food_nutrients (JObj []) in
  let* energy := JS.get n "ENERC_KCAL" in
  let* procnt := JS.get n "PROCNT" in
  let* chocdf := JS.get n "CHOCDF" in
  let* fat := JS.get n "FAT" in
  Ok (record (JS.or energy (JS.num 0)) (JS.or procnt (JS.num 0))
             (JS.or chocdf (JS.num 0)) (JS.or fat (JS.num 0))).

Definition edamam2_record (answer : result value) : result value :=
  let* res_data := answer in
  let* food := edamam2_food (JS.or res_data (JObj [])) in
  if negb (JS.truthy food) then Throw (Error "Food not found in Edamam Food DB")
  else nutrients_record food.

(** *** Tab 3 *)

Definition token_request (cfg : env) : request :=
  AxiosPost "https://oauth.fatsecret.com/connect/token"
    [("client_id", JS.text (FATSECRET_CLIENT_ID cfg));
     ("client_secret", JS.text (FATSECRET_CLIENT_SECRET cfg));
     ("grant_type", "client_credentials")].

Definition search_request (token foodName : value) : request :=
  AxiosGet fatsecret_api
    (JObj [("params",
            JObj [("method", JStr "foods.search");
                  ("search_expression", foodName);
                  ("format", JStr "json")]);
           ("headers", bearer token)]).

Definition detail_request (token foodId : value) : request :=
  AxiosGet fatsecret_api
    (JObj [("params",
            JObj [("method", JStr "food.get_v2");
                  ("food_id", foodId);
                  ("format", JStr "json")]);
           ("headers", bearer token)]).

(** Stage one: the access token of the token answer, once it has been
    converted for the Authorization header of the next request. *)
Definition fatsecret_token (answer : result value) : result value :=
  let* tokenRes_data := answer in
  let* token := and_get tokenRes_data "access_token" in
  if negb (JS.truthy token) then Throw (Error "FatSecret token failed")
  else let* _ := JS.ToString token in Ok token.

(** Stage two: the identifier of the first food of the search answer. *)
Definition fatsecret_food_id (answer : result value) : result value :=
  let* searchRes_data := answer in
  let* foods := found_foods searchRes_data in
  let* firstFood := first_of_foods foods in
  if negb (JS.truthy firstFood) then Throw (Error "FatSecret: no food found")
  else food_id_of firstFood.

(** Stage three: the record of the first serving of the detail answer. *)
Definition fatsecret_record (answer : result value) : result value :=
  let* detailRes_data := answer in
  let* foodDetail := and_get detailRes_data "food" in
  let* serving := first_serving foodDetail in
  if negb (JS.truthy serving) then Throw (Error "FatSecret: no serving info")
  else
    let* calories := parsed_or_zero serving "calories" in
    let* protein := parsed_or_zero serving "protein" in
    let* carbs := parsed_or_zero serving "carbohydrate" in
    let* fat := parsed_or_zero serving "fat" in
    Ok (record calories protein carbs fat).

(** The three stages in sequence, before the [catch]. *)
Definition fatsecret_stages (foodName : value) (w : world) (tr : trace)
  : trace * result value :=
  let r1 := token_request (config w) in
  let tr1 := (tr ++ [Called r1])%list in
  match fatsecret_token (respond w tr r1) with
  | Throw e => (tr1, Throw e)
  | Ok token =>
      let r2 := search_request token foodName in
      let tr2 := (tr1 ++ [Called r2])%list in
      match fatsecret_food_id (respond w tr1 r2) with
      | Throw e => (tr2, Throw e)
      | Ok foodId =>
          let r3 := detail_request token foodId in
          ((tr2 ++ [Called r3])%list, fatsecret_record (respond w tr2 r3))
      end
  end.

(** *** Tab 4 *)

Definition off_request (foodName : value) : request :=
  AxiosGet "https://world.openfoodfacts.org/cgi/search.pl"
    (JObj [("params",
            JObj [("search_terms", foodName);
                  ("search_simple", JS.num 1);
                  ("action", JStr "process");
                  ("json", JS.num 1);
                  ("page_size", JS.num 1)])]).

Definition off_record (answer : result value) : result value :=
  let* res_data := answer in
  let* product := (let* products := and_get res_data "products" in
                   and_get products "0") in
  if negb (JS.truthy product) then Throw (Error "OpenFoodFacts: not found")
  else
    let* product_nutriments := JS.get product "nutriments" in
    let n := JS.or product_nutriments (JObj []) in
    let* kcal := (let* dash := JS.get n "energy-kcal" in
                  if JS.truthy dash then Ok dash else JS.get n "energy_kcal") in
    let* proteins := JS.get n "proteins" in
    let* carbohydrates := JS.get n "carbohydrates" in
    let* fat := JS.get n "fat" in
    Ok (record (JS.or kcal (JS.num 0)) (JS.or proteins (JS.num 0))
               (JS.or carbohydrates (JS.num 0)) (JS.or fat (JS.num 0))).

(** *** Tab 5 *)

Definition guess_request (cfg : env) (foodName : value) : request :=
  AxiosGet "https://api.spoonacular.com/recipes/guessNutrition"
    (JObj [("params", JObj [("title", foodName); ("apiKey", SPOONACULAR_KEY cfg)])]).

Definition ingredient_request (cfg : env) (foodName : value) : request :=
  AxiosGet "https://api.spoonacular.com/food/ingredients/search"
    (JObj [("params",
            JObj [("query", foodName);
                  ("number", JS.num 1);
                  ("apiKey", SPOONACULAR_KEY cfg)])]).

Definition information_request (cfg : env) (ingredientId : value) : request :=
  AxiosGet ("https://api.spoonacular.com/food/ingredients/"
            ++ JS.text ingredientId ++ "/information")
    (JObj [("params",
            JObj [("amount", JS.num 100);
                  ("unit", JStr "g");
                  ("apiKey", SPOONACULAR_KEY cfg)])]).

(** The guess answer: [Some] record when it carries a calorie figure,
    [None] when the fallback has to run. *)
Definition spoonacular_guess (answer : result value) : result (option value) :=
  let* guessRes_data := answer in
  let* usable := has_calories guessRes_data in
  if usable : bool then
    let* calories := parsed_field guessRes_data "calories" in
    let* protein := parsed_field guessRes_data "protein" in
    let* carbs := parsed_field guessRes_data "carbs" in
    let* fat := parsed_field guessRes_data "fat" in
    Ok (Some (record calories protein carbs fat))
  else Ok None.

(** The identifier of the first ingredient of the search answer, once it
    has been converted for the URL of the next request. *)
Definition spoonacular_ingredient (answer : result value) : result value :=
  let* searchRes_data := answer in
  let* results := results_of searchRes_data in
  let* results_length := JS.get results "length" in
  if negb (JS.truthy results_length) then Throw (Error "Spoonacular: ingredient not found")
  else
    let* ingredientId := first_id results in
    let* _ := JS.ToString ingredientId in
    Ok ingredientId.

Definition spoonacular_record (answer : result value) : result value :=
  let* infoRes_data := answer in
  let* nutr := nutrients_of infoRes_data in
  let* calories := found_or_zero nutr "calories" in
  let* protein := found_or_zero nutr "protein" in
  let* carbs := found_or_zero nutr "carbohydrate" in
  let* fat := found_or_zero nutr "fat" in
  Ok (record calories protein carbs fat).

Definition spoonacular_stages (foodName : value) (w : world) (tr : trace)
  : trace * result value :=
  let r1 := guess_request (config w) foodName in
  let tr1 := (tr ++ [Called r1])%list in
  match spoonacular_guess (respond w tr r1) with
  | Throw e => (tr1, Throw e)
  | Ok (Some rec) => (tr1, Ok rec)
  | Ok None =>
      let r2 := ingredient_request (config w) foodName in
      let tr2 := (tr1 ++ [Called r2])%list in
      match spoonacular_ingredient (respond w tr1 r2) with
      | Throw e => (tr2, Throw e)
      | Ok ingredientId =>
          let r3 := information_request (config w) ingredientId in
          ((tr2 ++ [Called r3])%list, spoonacular_record (respond w tr2 r3))
      end
  end.

(** What the [catch] of tab 5 throws: its own error, which quotes the
    message of the upstream error body or else the message of the cause;
    or, when the upstream message cannot be converted, the TypeError of the
    concatenation. *)
Definition spoonacular_failed (e : exn) : exn :=
  let upstream := JS.get_opt (response_data e) "message" in
  if JS.truthy upstream
  then match JS.ToString upstream with
       | Ok detail => Error ("Spoonacular failed: " ++ detail)
       | Throw t => t
       end
  else Error ("Spoonacular failed: " ++ message e).

(** ** What a run sends *)

(** The requests a run from an empty trace sends, oldest first. *)
Definition sent {A : Type} (c : M A) (w : world) : list request :=
  calls (fst (run c w)).

(** The image URL of a chat request: [messages[0].content[0].image_url.url]. *)
Definition image_url (r : request) : value :=
  match r with
  | ChatCompletionsCreate body =>
      let message := JS.get_opt (JS.get_opt body "messages") "0" in
      let part := JS.get_opt (JS.get_opt message "content") "0" in
      JS.get_opt (JS.get_opt part "image_url") "url"
  | _ => JUndefined
  end.

(** A data URL of media type image/jpeg. *)
Definition jpeg_data_url (v : value) : bool :=
  match v with
  | JStr s => Str.starts_with "data:image/jpeg;base64," s
  | _ => false
  end.

Definition jpeg_image (r : request) : Prop := jpeg_data_url (image_url r) = true.

(** ** The analyze route, read as a dispatch *)

(** [Number(tab)] is one of 1 to 6. *)
Definition tab_in_range (tab : value) : bool :=
  tab_is tab 1 || tab_is tab 2 || tab_is tab 3 || tab_is tab 4 || tab_is tab 5
  || tab_is tab 6.

(** The adapter the [switch] of the analyze route selects; tab 6 is
    handled before the switch and a tab outside 1 to 5 falls to [default]. *)
Definition switch_adapter (tab : value) : option (value -> M value) :=
  if tab_is tab 1 then Some getNutritionEdamam1
  else if tab_is tab 2 then Some getNutritionEdamam2
  else if tab_is tab 3 then Some getNutritionFatSecret
  else if tab_is tab 4 then Some getNutritionOpenFoodFacts
  else if tab_is tab 5 then Some getNutritionSpoonacular
  else None.

(** What the [catch] of the analyze route answers. *)
Definition analyze_failed (tr : trace) (e : exn) : trace * result response :=
  ((tr ++ [ConsoleError "Analyze-image endpoint error:" (message_or_error e)])%list,
   Ok (mkResponse 500
         (error_body (JS.or (JStr (message e)) (JStr "Failed to analyze image"))))).

Definition analyzed (foodName : string) (nutrition : value) : response :=
  mkResponse 200 (JObj [("foodName", JStr foodName); ("nutrition", nutrition)]).

Definition invalid_tab : response :=
  mkResponse 400 (error_body (JStr "Invalid tab (must be 1-6)")).

(** A request that only a nutrition adapter sends: every [axios] request,
    and every chat request other than the recognition one, which is told
    by the text it carries next to the image. *)
Definition provider_call (r : request) : bool :=
  match r with
  | AxiosGet _ _ | AxiosPost _ _ => true
  | ChatCompletionsCreate body =>
      let message := JS.get_opt (JS.get_opt body "messages") "0" in
      let part := JS.get_opt (JS.get_opt message "content") "1" in
      negb (JS.is_string recognition_text (JS.get_opt part "text"))
  end.

(** [v] is a JSON object. *)
Definition is_object (v : value) : bool :=
  match v with
  | JObj _ => true
  | _ => false
  end.

(** ** Sample worlds *)

Definition sample_env : env :=
  mkEnv (JStr "sk-test") (JStr "spoon-key") (JStr "edamam-id") (JStr "edamam-key")
        (JStr "food-id") (JStr "food-key") (JStr "fs-id") (JStr "fs-secret").

(** A world whose answer depends on the request alone. *)
Definition answering (answer : request -> result value) : world :=
  mkWorld sample_env (fun _ r => answer r).

Definition refused : exn := mkExn "Error" "connect ECONNREFUSED" JUndefined.

(** No upstream can be reached. *)
Definition offline : world := answering (fun _ => Throw refused).

(** A chat completion whose first choice carries [content]. *)
Definition completion (content : value) : value :=
  JObj [("choices", JArr [JObj [("message", JObj [("role", JStr "assistant");
                                                  ("content", content)])]])].

(** A world in which the model names the dish of every image and answers
    [nutrition_text] to any other prompt. *)
Definition model_world (dish nutrition_text : string) : world :=
  answering (fun r => if provider_call r
                      then Ok (completion (JStr nutrition_text))
                      else Ok (completion (JStr dish))).

(** [{ "calories":250,"protein":10,"carbs":30 }], as a model could write
    it: no [foodName] and no [fat]. *)
Definition three_keys_text : string :=
  "{" ++ quoted "calories" ++ ":250," ++ quoted "protein" ++ ":10,"
      ++ quoted "carbs" ++ ":30}".


Definition request_body (image tab : value) : value :=
  JObj [("image", image); ("tab", tab)].

(** The run of the whole flow for tab 6 on a text that names no food. *)
Definition tab6_sample : trace * result response :=
  Eval vm_compute in
    run (post_api_analyze_image (request_body (JStr "QUJD") (JS.num 6)))
        (model_world "pizza" three_keys_text).

(** ** Claims that do not hold as stated

    Each is written for one input, so that it can be refuted at one. *)

(** C1 as stated: a present but invalid tab is answered with a client
    error and no request leaves the process. *)
Definition invalid_tab_makes_no_call (body : value) (w : world) : Prop :=
  sent (post_api_analyze_image body) w = []
  /\ exists resp,
       snd (run (post_api_analyze_image body) w) = Ok resp
       /\ 400 <= status resp < 500.

(** ** Upstream shapes *)

(** The list [lst] has a first entry, and that entry has the food [food]. *)
Definition first_entry_food (lst food : value) : Prop :=
  exists entry rest,
    lst = JArr (entry :: rest)
    /\ JS.get_opt entry "food" = food
    /\ JS.truthy food = true.

(** The list [lst] is missing or empty, or its first entry has no food. *)
Definition no_entry_food (lst : value) : Prop :=
  lst = JUndefined \/ lst = JNull \/ lst = JArr []
  \/ exists entry rest,
       lst = JArr (entry :: rest) /\ JS.truthy (JS.get_opt entry "food") = false.

(** [v || 0]. *)
Definition zero_filled (v : value) : value := JS.or v (JS.num 0).

(** The record of a food of the food database: its [nutrients], read by
    nutrient code, absent values zero-filled. *)
Definition food_record (food : value) : value :=
  let n := JS.or (JS.get_opt food "nutrients") (JObj []) in
  record (zero_filled (JS.get_opt n "ENERC_KCAL")) (zero_filled (JS.get_opt n "PROCNT"))
         (zero_filled (JS.get_opt n "CHOCDF")) (zero_filled (JS.get_opt n "FAT")).

(** A food of the food database with three of the four nutrients. *)
Definition pizza_food : value :=
  JObj [("label", JStr "Pizza");
        ("nutrients", JObj [("ENERC_KCAL", JS.num 266); ("PROCNT", JS.num 11);
                            ("CHOCDF", JS.num 33)])].

(** A parser answer with no exact parse and one hint. *)
Definition hint_only : value :=
  JObj [("text", JStr "pizza"); ("parsed", JArr []);
        ("hints", JArr [JObj [("food", pizza_food)]])].

(** ** FatSecret stages *)

Definition fatsecret_log (e : exn) : event :=
  ConsoleError "FatSecret error:" (response_or_message_or_error e).

Definition fatsecret_failed : exn := Error "FatSecret failed".

(** The search answer holds no first food: what it lists under [foods]
    (or [food]) is an empty list, or is missing. *)
Definition no_search_hit (data : value) : Prop :=
  let foods := JS.or (JS.get_opt data "foods") (JS.get_opt data "food") in
  let listed := JS.get_opt foods "food" in
  (isArray listed = true /\ JS.truthy (JS.get_opt listed "0") = false)
  \/ (JS.truthy listed = false /\ JS.truthy (JS.get_opt foods "0") = false).

(** The detail answer holds no first serving. *)
Definition no_serving (data : value) : Prop :=
  JS.truthy (JS.get_opt (JS.get_opt (JS.get_opt (JS.get_opt data "food") "servings")
                           "serving") "0") = false.

(** C4 as stated, for two runs that fail at different stages: the errors
    they surface tell the stages apart. *)
Definition surfaced_errors_differ (foodName : value) (w1 w2 : world) : Prop :=
  exists e1 e2,
    snd (run (getNutritionFatSecret foodName) w1) = Throw e1
    /\ snd (run (getNutritionFatSecret foodName) w2) = Throw e2
    /\ message e1 <> message e2.

(** The token endpoint answers without an access token. *)
Definition no_token_world : world :=
  answering (fun r =>
    match r with
    | AxiosPost _ _ => Ok (JObj [("error", JStr "invalid_client")])
    | _ => Throw refused
    end).

(** A token is granted, and the search finds nothing. *)
Definition no_hit_world : world :=
  answering (fun r =>
    match r with
    | AxiosPost _ _ => Ok (JObj [("access_token", JStr "tok"); ("expires_in", JS.num 86400)])
    | AxiosGet _ _ => Ok (JObj [("foods", JObj [("max_results", JStr "20");
                                                ("total_results", JStr "0")])])
    | _ => Throw refused
    end).

(** ** No results *)

(** The guess answer carries a usable calorie figure. *)
Definition usable_calories (guess : value) : bool :=
  JS.truthy guess
  && (JS.truthy (JS.get_opt guess "calories") || is_zero (JS.get_opt guess "calories")).

(** The ingredient search lists nothing. *)
Definition no_ingredient (data : value) : Prop :=
  JS.truthy (JS.get_opt (JS.or (JS.get_opt data "results") (JArr [])) "length") = false.

(** The grocery search lists no product. *)
Definition no_product (data : value) : Prop :=
  JS.truthy (JS.get_opt (JS.get_opt data "products") "0") = false.

(** The model's text holds no opening or no closing brace. *)
Definition no_object_span (text : string) : Prop :=
  Str.indexOf "{" text < 0 \/ Str.lastIndexOf "}" text < 0.

Definition zero_record : value := record (JS.num 0) (JS.num 0) (JS.num 0) (JS.num 0).

(** C2 as stated, for the run of one adapter on an answer that holds no
    result: the lookup fails. *)
Definition lookup_fails (lookup : M value) (w : world) : Prop :=
  exists e, snd (run lookup w) = Throw e.

(** Every upstream answers an empty JSON object. *)
Definition empty_world : world := answering (fun _ => Ok (JObj [])).

(** ** The model's text *)

(** How many characters of [s] it takes to close [depth] open braces. *)
Fixpoint closing (depth : nat) (s : string) : option nat :=
  match s with
  | EmptyString => None
  | String c r =>
      if Ascii.eqb c "{" then option_map S (closing (S depth) r)
      else if Ascii.eqb c "}" then
        match depth with
        | O => None
        | S O => Some 1%nat
        | S d => option_map S (closing d r)
        end
      else option_map S (closing depth r)
  end.

(** The first balanced [{...}] span of a text: from the first opening
    brace to the closing brace that matches it. *)
Definition first_balanced_span (text : string) : option string :=
  let first := Str.indexOf "{" text in
  if first <? 0 then None
  else
    let from := Str.drop (Z.to_nat first) text in
    match closing 0 from with
    | Some n => Some (Str.take n from)
    | None => None
    end.

(** C7 as stated, for one model text: the image-based nutrition returns
    exactly what the first balanced span parses to. *)
Definition parses_first_balanced_span (image : value) (w : world) (text : string) : Prop :=
  forall v,
    snd (run (getNutritionFromOpenAIImage image) w) = Ok v
    <-> exists span, first_balanced_span text = Some span /\ JSON.parse span = Some v.

(** [{ "calories":250 } or { "calories":400 }], without the spaces inside
    the braces: two objects in one answer. *)
Definition two_objects_text : string :=
  "{" ++ quoted "calories" ++ ":250} or {" ++ quoted "calories" ++ ":400}".

(** The answer the specification gives as an example of JSON in prose. *)
Definition prose_text : string :=
  "Sure! {" ++ quoted "calories" ++ ":250," ++ quoted "protein" ++ ":10,"
  ++ quoted "carbs" ++ ":30," ++ quoted "fat" ++ ":8} Enjoy!".

(** ** Documented success shapes

    What the vendors document for the fields the adapters read: a nutrient
    value, where present, is a JSON number. *)

Definition numeric_or_absent (v : value) : bool :=
  match v with
  | JUndefined | JNum _ => true
  | _ => false
  end.

(** All four fields of a record are present and numbers. *)
Definition all_four_numeric (r : value) : bool :=
  JS.is_number (JS.get_opt r "calories") && JS.is_number (JS.get_opt r "protein")
  && JS.is_number (JS.get_opt r "carbs") && JS.is_number (JS.get_opt r "fat").




Definition edamam1_expected (data : value) : value :=
  let total := JS.get_opt data "totalNutrients" in
  record (zero_filled (JS.get_opt data "calories"))
         (zero_filled (JS.get_opt (JS.get_opt total "PROCNT") "quantity"))
         (zero_filled (JS.get_opt (JS.get_opt total "CHOCDF") "quantity"))
         (zero_filled (JS.get_opt (JS.get_opt total "FAT") "quantity")).







(** Tab 4: the first product and its [nutriments]. *)
Definition first_product (data : value) : value :=
  JS.get_opt (JS.get_opt data "products") "0".


Definition product_record (product : value) : value :=
  let n := JS.or (JS.get_opt product "nutriments") (JObj []) in
  record (zero_filled (JS.or (JS.get_opt n "energy-kcal") (JS.get_opt n "energy_kcal")))
         (zero_filled (JS.get_opt n "proteins"))
         (zero_filled (JS.get_opt n "carbohydrates"))
         (zero_filled (JS.get_opt n "fat")).




(** An entry of a nutrient list that [find] can examine without failing:
    an object whose [name] is a text or is missing. *)
Definition examinable (x : value) : bool :=
  is_object x
  && match JS.get_opt x "name" with
     | JUndefined | JNull | JStr _ => true
     | _ => false
     end.

(** The entry is the one [key] asks for: its name, in lower case, holds
    [key]. *)
Definition names_nutrient (key : string) (x : value) : bool :=
  match JS.get_opt x "name" with
  | JStr n => Str.includes key (Str.toLowerCase n)
  | _ => false
  end.










(** ** The nutrition route, read as a dispatch *)

(** The adapter the [switch] of the nutrition route selects. *)
Definition lookup_adapter (tab : value) : option (value -> M value) :=
  if tab_is tab 1 then Some getNutritionEdamam1
  else if tab_is tab 2 then Some getNutritionEdamam2
  else if tab_is tab 3 then Some getNutritionFatSecret
  else if tab_is tab 4 then Some getNutritionOpenFoodFacts
  else if tab_is tab 5 then Some getNutritionSpoonacular
  else if tab_is tab 6 then Some getNutritionFromOpenAIByName
  else None.

Definition looked_up (q nutrition : value) : response :=
  mkResponse 200 (JObj [("foodName", q); ("nutrition", nutrition)]).

(** What the [catch] of the nutrition route answers. *)
Definition lookup_failed (tr : trace) (e : exn) : trace * result response :=
  ((tr ++ [ConsoleError "Nutrition endpoint error:" (message_or_error e)])%list,
   Ok (mkResponse 500
         (error_body (JS.or (JStr (message e)) (JStr "Nutrition lookup failed"))))).

Definition missing_q : response :=
  mkResponse 400 (error_body (JStr "Missing query param q (food name)")).

Definition invalid_lookup_tab : response :=
  mkResponse 400 (error_body (JStr "Invalid tab (1-6)")).

(** ** Failures *)

(** A run that throws has written [label] to the console last, and throws
    what [wrap] makes of the cause. *)
Definition fails_as {A : Type} (label : string) (wrap : exn -> exn)
  (out : trace * result A) : Prop :=
  forall tr' e,
    out = (tr', Throw e) ->
    exists tr0 cause detail,
      tr' = (tr0 ++ [ConsoleError label detail])%list /\ e = wrap cause.

(** The body of an answer that reports an error: [{ error: text }] with a
    text that is not empty. *)
Definition error_answer (resp : response) : Prop :=
  exists text, json resp = error_body (JStr text) /\ text <> "".

(** The error the adapter of tab [n] throws when [cause] made it fail. *)
Definition adapter_error (n : Z) (cause : exn) : exn :=
  if n =? 1 then Error "Edamam Nutrition failed"
  else if n =? 2 then Error "Edamam FoodDB failed"
  else if n =? 3 then Error "FatSecret failed"
  else if n =? 4 then Error "OpenFoodFacts failed"
  else if n =? 5 then spoonacular_failed cause
  else Error "OpenAI nutrition lookup failed".

(** The error texts of the adapter of tab [n]: a fixed one; for tab 5 its
    prefix followed by a detail, or else the text of the TypeError that
    escapes its [catch] when the detail cannot be converted. *)
Definition adapter_text (n : Z) (text : string) : Prop :=
  (n = 1 /\ text = "Edamam Nutrition failed")
  \/ (n = 2 /\ text = "Edamam FoodDB failed")
  \/ (n = 3 /\ text = "FatSecret failed")
  \/ (n = 4 /\ text = "OpenFoodFacts failed")
  \/ (n = 5 /\ ((exists detail, text = "Spoonacular failed: " ++ detail)
               \/ text = "Cannot convert object to primitive value"))
  \/ (n = 6 /\ text = "OpenAI nutrition lookup failed").

(** A rejection whose body carries, as its message, an object with a
    [toString] key of its own. *)
Definition unreadable_refusal : exn :=
  mkExn "AxiosError" "Request failed with status code 402"
    (JObj [("status", JStr "failure");
           ("message", JObj [("toString", JS.num 1)])]).

(** An answer as the routes send them: 200, or 400 or 500 with an error
    body. *)
Definition well_formed_answer (resp : response) : Prop :=
  status resp = 200
  \/ ((status resp = 400 \/ status resp = 500) /\ error_answer resp).

(** ** The analyze route: what is refused before recognition *)

Definition missing_image_or_tab : response :=
  mkResponse 400 (error_body (JStr "Missing image or tab")).

(** A value without an [indexOf] method: a number, a boolean or a plain
    object; texts and arrays have one. *)
Definition no_indexOf (v : value) : bool :=
  match v with
  | JBool _ | JNum _ | JObj _ => true
  | _ => false
  end.

(** ** Numbers that print *)

(** A number other than NaN. *)
Definition real_number (v : value) : bool :=
  match v with
  | JNum S754_nan => false
  | JNum _ => true
  | _ => false
  end.

(** ** A FatSecret that answers *)

(** The three answers of a lookup that succeeds: a token, one search hit,
    and a first serving whose protein is not a number and whose fat is
    missing. *)
Definition serving_answers (r : request) : result value :=
  match r with
  | AxiosPost _ _ => Ok (JObj [("access_token", JStr "t0")])
  | AxiosGet _ config =>
      if JS.is_string "foods.search"
           (JS.get_opt (JS.get_opt config "params") "method")
      then Ok (JObj [("foods", JObj [("food", JArr [JObj [("food_id", JStr "41")]])])])
      else Ok (JObj [("food",
                      JObj [("servings",
                             JObj [("serving",
                                    JArr [JObj [("calories", JStr "266");
                                                ("protein", JStr "n/a");
                                                ("carbohydrate", JStr "33.5")]])])])])
  | ChatCompletionsCreate _ => Throw refused
  end.

(** ** Requests of the model *)

(** A request to the chat completions of the model. *)
Definition chat_request (r : request) : bool :=
  match r with
  | ChatCompletionsCreate _ => true
  | _ => false
  end.

(** ** The vision route *)

Definition missing_file : response :=
  mkResponse 400 (error_body (JStr "Missing file")).

Definition named (foodName : string) : response :=
  mkResponse 200 (JObj [("foodName", JStr foodName)]).

(** What the [catch] of the vision route answers. *)
Definition vision_route_failed (tr : trace) (e : exn) : trace * result response :=
  ((tr ++ [ConsoleError "Vision endpoint error:" (message_or_error e)])%list,
   Ok (mkResponse 500 (error_body (JS.or (JStr (message e)) (JStr "Vision failed"))))).

(** ** Nutrient lists *)

(** A list as the ingredient service gives it, with the saturated fat
    before the fat. *)
Definition fats_list : value :=
  JArr [JObj [("name", JStr "Calories"); ("amount", JS.num 266)];
        JObj [("name", JStr "Saturated Fat"); ("amount", JS.num 4)];
        JObj [("name", JStr "Fat"); ("amount", JS.num 10)]].

(** ** Search hits of FatSecret *)

(** [data.foods.food]: the hits of a search answer, a list or, when there
    is one hit, the hit itself.  The answer may carry other fields, as the
    paging fields of the service. *)
Definition hits_of (data : value) : value :=
  JS.get_opt (JS.get_opt data "foods") "food".

(** A token, a search answer with its paging fields around [food], and a
    first serving. *)
Definition paged_answers (food : value) (r : request) : result value :=
  match r with
  | AxiosPost _ _ => Ok (JObj [("access_token", JStr "t0"); ("expires_in", JS.num 86400)])
  | AxiosGet _ config =>
      if JS.is_string "foods.search"
           (JS.get_opt (JS.get_opt config "params") "method")
      then Ok (JObj [("foods", JObj [("max_results", JStr "20");
                                     ("page_number", JStr "0");
                                     ("total_results", JStr "1");
                                     ("food", food)])])
      else Ok (JObj [("food",
                      JObj [("servings",
                             JObj [("serving",
                                    JArr [JObj [("calories", JStr "266")]])])])])
  | ChatCompletionsCreate _ => Throw refused
  end.

(** A hit as the service lists it. *)
Definition pizza_hit : value :=
  JObj [("food_id", JStr "41"); ("food_name", JStr "Pizza")].

(** [hit.food_id || hit.id], read from a hit that is an object. *)
Definition hit_id (hit : value) : value :=
  JS.or (JS.get_opt hit "food_id") (JS.get_opt hit "id").

(** ** Reasons of a failure *)

(** The run ended by writing [reason] under [label] to the console: the
    adapter failed for that reason. *)
Definition reason_logged (label reason : string) (tr : trace) : Prop :=
  exists tr0, tr = (tr0 ++ [ConsoleError label (LogValue (JStr reason))])%list.

(** Every request gets an answer: no call is rejected. *)
Definition all_answered (w : world) : Prop :=
  forall tr r, exists data, respond w tr r = Ok data.

(** Every service answers a token that is an object with a [toString] key
    of its own. *)
Definition unreadable_token_world : world :=
  answering (fun _ => Ok (JObj [("access_token", JObj [("toString", JS.num 1)])])).

(** * Properties *)

(** ** Strings *)

Lemma base64_char_not_comma c : base64_char c = true -> Ascii.eqb "," c = false.
Proof.
  intros H. destruct (Ascii.eqb_spec "," c) as [<-|]; [discriminate H | reflexivity].
Qed.

Lemma bare_base64_comma_free s : bare_base64 s = true -> comma_free s = true.
Proof.
  induction s as [|c s IH]; cbn [comma_free bare_base64]; [reflexivity|].
  intros [Hc Hs]%andb_true_iff.
  now rewrite (base64_char_not_comma c Hc), IH.
Qed.

Lemma comma_free_app u v : comma_free (u ++ v) = comma_free u && comma_free v.
Proof.
  induction u as [|c u IH]; cbn [comma_free append]; [reflexivity|].
  now rewrite IH, andb_assoc.
Qed.

(** A comma-free text in front of the marker cannot make the marker start
    earlier. *)
Lemma marker_not_earlier c u rest :
  comma_free (String c u) = true ->
  Str.starts_with "base64," (String c u ++ "base64," ++ rest) = false.
Proof.
  intros H.
  destruct u as [|c1 u]; [simpl; now rewrite ?andb_false_r|].
  destruct u as [|c2 u]; [simpl; now rewrite ?andb_false_r|].
  destruct u as [|c3 u]; [simpl; now rewrite ?andb_false_r|].
  destruct u as [|c4 u]; [simpl; now rewrite ?andb_false_r|].
  destruct u as [|c5 u]; [simpl; now rewrite ?andb_false_r|].
  destruct u as [|c6 u]; [simpl; now rewrite ?andb_false_r|].
  cbn [comma_free] in H. cbn [Str.starts_with append].
  repeat (apply andb_true_iff in H; destruct H as [? H]).
  match goal with
  | Hc : negb (Ascii.eqb "," c6) = true |- _ =>
      apply negb_true_iff in Hc; rewrite Hc
  end.
  now rewrite ?andb_false_r.
Qed.

Lemma indexOf_marker u rest :
  comma_free u = true ->
  Str.indexOf "base64," (u ++ "base64," ++ rest) = Str.len u.
Proof.
  induction u as [|c u IH]; intros H.
  - reflexivity.
  - change (Str.indexOf "base64," (String c u ++ "base64," ++ rest))
      with (if Str.starts_with "base64," (String c u ++ "base64," ++ rest) then 0
            else let i := Str.indexOf "base64," (u ++ "base64," ++ rest) in
                 if i <? 0 then -1 else i + 1).
    rewrite (marker_not_earlier c u rest H).
    cbn [comma_free] in H. apply andb_true_iff in H. destruct H as [_ H].
    rewrite (IH H). unfold Str.len. cbn [String.length].
    destruct (Z.ltb_spec (Z.of_nat (String.length u)) 0); lia.
Qed.

Lemma marker_has_comma t :
  Str.starts_with "base64," t = true -> comma_free t = false.
Proof.
  intros H.
  do 7 (destruct t as [|? t];
        [cbn [Str.starts_with] in H; rewrite ?andb_false_r in H; discriminate H|]).
  cbn [Str.starts_with] in H. cbn [comma_free].
  repeat (apply andb_true_iff in H; destruct H as [? H]).
  match goal with
  | Hc : Ascii.eqb "," _ = true |- _ => rewrite Hc
  end.
  cbn [negb andb]. now rewrite ?andb_false_r.
Qed.

Lemma indexOf_comma_free s :
  comma_free s = true -> Str.indexOf "base64," s = -1.
Proof.
  induction s as [|c s IH]; intros H; [reflexivity|].
  change (Str.indexOf "base64," (String c s))
    with (if Str.starts_with "base64," (String c s) then 0
          else let i := Str.indexOf "base64," s in
               if i <? 0 then -1 else i + 1).
  destruct (Str.starts_with "base64," (String c s)) eqn:E.
  - apply marker_has_comma in E. congruence.
  - cbn [comma_free] in H. apply andb_true_iff in H. destruct H as [_ H].
    now rewrite (IH H).
Qed.

Lemma len_app u v : Str.len (u ++ v) = Str.len u + Str.len v.
Proof.
  unfold Str.len. induction u as [|c u IH]; cbn [append String.length]; lia.
Qed.

Lemma drop_app u v : Str.drop (String.length u) (u ++ v) = v.
Proof. induction u as [|c u IH]; [destruct v|]; auto. Qed.

Lemma take_all v : Str.take (String.length v) v = v.
Proof. induction v as [|c v IH]; cbn [Str.take String.length]; congruence. Qed.

Lemma slice_from_app u v : Str.slice_from (u ++ v) (Str.len u) = v.
Proof.
  unfold Str.slice_from, Str.slice, Str.clamp.
  rewrite len_app.
  assert (0 <= Str.len u) by (unfold Str.len; lia).
  assert (0 <= Str.len v) by (unfold Str.len; lia).
  destruct (Z.ltb_spec (Str.len u) 0); [lia|].
  destruct (Z.ltb_spec (Str.len u + Str.len v) 0); [lia|].
  rewrite Z.min_l by lia. rewrite Z.min_l by lia.
  replace (Str.len u + Str.len v - Str.len u) with (Str.len v) by lia.
  unfold Str.len. rewrite !Nat2Z.id, drop_app. apply take_all.
Qed.

Lemma append_assoc (a b c : string) : (a ++ b) ++ c = a ++ b ++ c.
Proof. induction a as [|x a IH]; cbn [append]; congruence. Qed.

Lemma strip_bare s :
  bare_base64 s = true -> stripBase64Prefix (JStr s) = Ok (JStr s).
Proof.
  intros Hs. unfold stripBase64Prefix.
  destruct (negb (JS.truthy (JStr s))); [reflexivity|].
  cbn [JS.call_indexOf rbind].
  now rewrite (indexOf_comma_free s (bare_base64_comma_free s Hs)).
Qed.

Lemma strip_data_url mime p :
  comma_free mime = true ->
  stripBase64Prefix (JStr ("data:" ++ mime ++ ";base64," ++ p)) = Ok (JStr p).
Proof.
  intros Hmime.
  unfold stripBase64Prefix.
  change ("data:" ++ mime ++ ";base64," ++ p)
    with (String "d" ("ata:" ++ mime ++ ";base64," ++ p)).
  cbn [JS.truthy String.eqb negb JS.call_indexOf rbind].
  change (String "d" ("ata:" ++ mime ++ ";base64," ++ p))
    with ("data:" ++ mime ++ ";" ++ "base64," ++ p).
  replace ("data:" ++ mime ++ ";" ++ "base64," ++ p)
    with (("data:" ++ mime ++ ";") ++ "base64," ++ p)
    by (now rewrite !append_assoc).
  rewrite indexOf_marker.
  2:{ rewrite !comma_free_app, Hmime. reflexivity. }
  assert (0 <= Str.len ("data:" ++ mime ++ ";")) by (unfold Str.len; lia).
  destruct (Z.leb_spec 0 (Str.len ("data:" ++ mime ++ ";"))); [|lia].
  cbn [JS.call_slice_from].
  replace (("data:" ++ mime ++ ";") ++ "base64," ++ p)
    with ((("data:" ++ mime ++ ";") ++ "base64,") ++ p)
    by (now rewrite !append_assoc).
  replace (Str.len ("data:" ++ mime ++ ";") + 7)
    with (Str.len (("data:" ++ mime ++ ";") ++ "base64,"))
    by (rewrite (len_app _ "base64,"); reflexivity).
  now rewrite slice_from_app.
Qed.

(** C6: stripping the prefix of a bare base64 text changes nothing, and a
    data URL [data:<mime>;base64,<payload>] is normalized to the same text
    as its bare payload. *)
Theorem stripBase64Prefix_normalizes (b mime p : string)
  (Hb : bare_base64 b = true)
  (Hmime : comma_free mime = true)
  (Hp : bare_base64 p = true) :
  stripBase64Prefix (JStr b) = Ok (JStr b)
  /\ stripBase64Prefix (JStr ("data:" ++ mime ++ ";base64," ++ p))
     = stripBase64Prefix (JStr p).
Proof.
  split; [now apply strip_bare|].
  now rewrite (strip_data_url mime p Hmime), (strip_bare p Hp).
Qed.

(** A bare payload and a PNG data URL. *)
Lemma stripBase64Prefix_normalizes_witness :
  stripBase64Prefix (JStr "QUJD") = Ok (JStr "QUJD")
  /\ stripBase64Prefix (JStr ("data:" ++ "image/png" ++ ";base64," ++ "iVBORw0KGgo="))
     = stripBase64Prefix (JStr "iVBORw0KGgo=").
Proof.
  apply (stripBase64Prefix_normalizes "QUJD" "image/png" "iVBORw0KGgo="); reflexivity.
Defined.

(** ** Runs as functions of the answers *)

Ltac leaf x :=
  lazymatch x with
  | context [match ?y with _ => _ end] => leaf y
  | _ => destruct x eqn:?
  end.

Ltac step :=
  match goal with
  | |- context [match ?x with _ => _ end] => leaf x
  end; cbv beta iota.

Ltac run_M :=
  unfold try_catch, bind, lift, call, ret, throw, console_error, getenv, settle, rbind;
  cbv beta iota.

Ltac settle_run := run_M; repeat step; rewrite <- ?app_assoc; try reflexivity.

Lemma analyzeWithOpenAI_eq image w tr :
  analyzeWithOpenAI image w tr =
  settle "OpenAI Vision error:" message_or_error vision_failed
    match stripBase64Prefix image with
    | Throw e => (tr, Throw e)
    | Ok b => ((tr ++ [Called (recognition_request b)])%list,
               recognized (respond w tr (recognition_request b)))
    end.
Proof.
  unfold analyzeWithOpenAI, recognized, recognition_request, vision_failed.
  settle_run.
Qed.

Lemma getNutritionFromOpenAIImage_eq image w tr :
  getNutritionFromOpenAIImage image w tr =
  settle "OpenAI Nutrition (image) error:" message_or_error image_analysis_failed
    match stripBase64Prefix image with
    | Throw e => (tr, Throw e)
    | Ok b => ((tr ++ [Called (nutrition_request b)])%list,
               image_nutrition (respond w tr (nutrition_request b)))
    end.
Proof.
  unfold getNutritionFromOpenAIImage, image_nutrition, span_json, nutrition_request,
    image_analysis_failed, output_not_json.
  settle_run.
Qed.

Lemma getNutritionFromOpenAIByName_eq foodName w tr :
  getNutritionFromOpenAIByName foodName w tr =
  settle "OpenAI nutrition by name error:" message_or_error
    (fun _ => Error "OpenAI nutrition lookup failed")
    ((tr ++ [Called (name_request foodName)])%list,
     name_nutrition (respond w tr (name_request foodName))).
Proof.
  unfold getNutritionFromOpenAIByName, name_nutrition, span_json, name_request.
  settle_run.
Qed.

Lemma getNutritionEdamam1_eq foodName w tr :
  getNutritionEdamam1 foodName w tr =
  settle "Edamam Nutrition error:" response_or_message_or_error
    (fun _ => Error "Edamam Nutrition failed")
    ((tr ++ [Called (edamam1_request (config w) foodName)])%list,
     edamam1_record (respond w tr (edamam1_request (config w) foodName))).
Proof.
  unfold getNutritionEdamam1, edamam1_record, edamam1_request, quantity.
  settle_run.
Qed.

Lemma getNutritionEdamam2_eq foodName w tr :
  getNutritionEdamam2 foodName w tr =
  settle "Edamam FoodDB error:" response_or_message_or_error
    (fun _ => Error "Edamam FoodDB failed")
    ((tr ++ [Called (edamam2_request (config w) foodName)])%list,
     edamam2_record (respond w tr (edamam2_request (config w) foodName))).
Proof.
  unfold getNutritionEdamam2, edamam2_record, edamam2_food, nutrients_record,
    edamam2_request.
  settle_run.
Qed.

Lemma getNutritionFatSecret_eq foodName w tr :
  getNutritionFatSecret foodName w tr =
  settle "FatSecret error:" response_or_message_or_error
    (fun _ => Error "FatSecret failed")
    (fatsecret_stages foodName w tr).
Proof.
  unfold getNutritionFatSecret, fatsecret_stages, fatsecret_token, fatsecret_food_id,
    fatsecret_record, token_request, search_request, detail_request.
  settle_run.
Qed.

Lemma getNutritionOpenFoodFacts_eq foodName w tr :
  getNutritionOpenFoodFacts foodName w tr =
  settle "OpenFoodFacts error:" response_or_message_or_error
    (fun _ => Error "OpenFoodFacts failed")
    ((tr ++ [Called (off_request foodName)])%list,
     off_record (respond w tr (off_request foodName))).
Proof.
  unfold getNutritionOpenFoodFacts, off_record, off_request.
  settle_run.
Qed.

Lemma getNutritionSpoonacular_eq foodName w tr :
  getNutritionSpoonacular foodName w tr =
  settle "Spoonacular error:" response_or_message_or_error spoonacular_failed
    (spoonacular_stages foodName w tr).
Proof.
  unfold getNutritionSpoonacular, spoonacular_stages, spoonacular_guess,
    spoonacular_ingredient, spoonacular_record, guess_request, ingredient_request,
    information_request, spoonacular_failed.
  settle_run.
Qed.


(** ** Traces *)

Lemma calls_app (tr1 tr2 : trace) :
  calls (tr1 ++ tr2) = (calls tr1 ++ calls tr2)%list.
Proof.
  induction tr1 as [|[r|l d] tr1 IH]; cbn [calls app]; [reflexivity| |assumption].
  now rewrite IH.
Qed.

Lemma settle_calls {A : Type} label detail wrap (out : trace * result A) :
  calls (fst (settle label detail wrap out)) = calls (fst out).
Proof.
  destruct out as [tr [a|e]]; cbn [settle fst]; [reflexivity|].
  rewrite calls_app. cbn [calls]. now rewrite app_nil_r.
Qed.

Lemma analyzeWithOpenAI_calls image w tr :
  calls (fst (analyzeWithOpenAI image w tr)) =
  (calls tr ++ match stripBase64Prefix image with
               | Ok b => [recognition_request b]
               | Throw _ => []
               end)%list.
Proof.
  rewrite analyzeWithOpenAI_eq, settle_calls.
  destruct (stripBase64Prefix image); cbn [fst].
  - now rewrite calls_app.
  - now rewrite app_nil_r.
Qed.

Lemma getNutritionFromOpenAIImage_calls image w tr :
  calls (fst (getNutritionFromOpenAIImage image w tr)) =
  (calls tr ++ match stripBase64Prefix image with
               | Ok b => [nutrition_request b]
               | Throw _ => []
               end)%list.
Proof.
  rewrite getNutritionFromOpenAIImage_eq, settle_calls.
  destruct (stripBase64Prefix image); cbn [fst].
  - now rewrite calls_app.
  - now rewrite app_nil_r.
Qed.

Lemma post_api_openai_vision_calls file w tr :
  calls (fst (post_api_openai_vision (Some file) w tr)) =
  calls (fst (analyzeWithOpenAI
                (JStr (bufferToDataUrl (buffer file)
                         (JS.or (mimetype file) (JStr "image/jpeg")))) w tr)).
Proof.
  unfold post_api_openai_vision. run_M.
  destruct (analyzeWithOpenAI _ w tr) as [tr1 [name|e]]; cbn [fst]; [reflexivity|].
  rewrite calls_app. cbn [calls]. now rewrite app_nil_r.
Qed.

Lemma starts_with_app n x : Str.starts_with n (n ++ x) = true.
Proof.
  induction n as [|c n IH]; cbn [Str.starts_with append]; [reflexivity|].
  now rewrite Ascii.eqb_refl, IH.
Qed.

Lemma recognition_request_jpeg b :
  image_url (recognition_request b)
  = JStr ("data:image/jpeg;base64," ++ JS.text b).
Proof. reflexivity. Qed.

Lemma nutrition_request_jpeg b :
  image_url (nutrition_request b)
  = JStr ("data:image/jpeg;base64," ++ JS.text b).
Proof. reflexivity. Qed.

Lemma jpeg_requests (mk : value -> request) (image : value) :
  (forall b, image_url (mk b) = JStr ("data:image/jpeg;base64," ++ JS.text b)) ->
  Forall jpeg_image match stripBase64Prefix image with
                    | Ok b => [mk b]
                    | Throw _ => []
                    end.
Proof.
  intros Hmk. destruct (stripBase64Prefix image) as [b|e]; constructor; [|constructor].
  unfold jpeg_image. rewrite Hmk. apply starts_with_app.
Qed.

(** C10: whatever the input, the image that recognition and image-based
    nutrition send upstream is a data URL of media type image/jpeg; the
    media type of an incoming data URL, and the content type of an upload,
    are dropped and only the payload is kept. *)
Theorem images_forwarded_as_jpeg
  (image : value) (file : upload) (w : world) (mime payload : string)
  (Hmime : comma_free mime = true) :
  Forall jpeg_image (sent (analyzeWithOpenAI image) w)
  /\ Forall jpeg_image (sent (getNutritionFromOpenAIImage image) w)
  /\ Forall jpeg_image (sent (post_api_openai_vision (Some file)) w)
  /\ map image_url
       (sent (analyzeWithOpenAI (JStr ("data:" ++ mime ++ ";base64," ++ payload))) w)
     = [JStr ("data:image/jpeg;base64," ++ payload)]
  /\ map image_url
       (sent (getNutritionFromOpenAIImage
                (JStr ("data:" ++ mime ++ ";base64," ++ payload))) w)
     = [JStr ("data:image/jpeg;base64," ++ payload)]
  /\ map image_url
       (sent (post_api_openai_vision
                (Some (mkUpload (buffer file) (JStr mime)))) w)
     = [JStr ("data:image/jpeg;base64," ++ Base64.encode (buffer file))].
Proof.
  unfold sent, run.
  rewrite !post_api_openai_vision_calls, !analyzeWithOpenAI_calls,
    !getNutritionFromOpenAIImage_calls.
  cbn [calls app].
  repeat split.
  - apply jpeg_requests, recognition_request_jpeg.
  - apply jpeg_requests, nutrition_request_jpeg.
  - apply jpeg_requests, recognition_request_jpeg.
  - now rewrite (strip_data_url mime payload Hmime).
  - now rewrite (strip_data_url mime payload Hmime).
  - cbn [buffer mimetype]. unfold bufferToDataUrl.
    destruct mime as [|c mime].
    + cbn [JS.or JS.truthy String.eqb negb JS.text].
      now rewrite (strip_data_url "image/jpeg" _ eq_refl).
    + cbn [JS.or JS.truthy String.eqb negb JS.text].
      now rewrite (strip_data_url (String c mime) _ Hmime).
Qed.

(** A PNG data URL sent to recognition, and a PNG upload sent to the vision route. *)
Lemma images_forwarded_as_jpeg_witness :
  Forall jpeg_image (sent (analyzeWithOpenAI (JStr "data:image/png;base64,QUJD")) offline)
  /\ map image_url
       (sent (post_api_openai_vision
                (Some (mkUpload [Byte.x41; Byte.x42; Byte.x43] (JStr "image/png")))) offline)
     = [JStr "data:image/jpeg;base64,QUJD"].
Proof.
  pose proof (images_forwarded_as_jpeg (JStr "data:image/png;base64,QUJD")
                (mkUpload [Byte.x41; Byte.x42; Byte.x43] (JStr "image/png"))
                offline "image/png" "QUJD" eq_refl) as H.
  split; [exact (proj1 H) | exact (proj2 (proj2 (proj2 (proj2 (proj2 H)))))].
Defined.


(** ** The analyze route *)

Lemma tab_is_at tab x n : JS.ToNumber tab = Ok x -> tab_is tab n = is_tab x n.
Proof. unfold tab_is. now intros ->. Qed.

Lemma post_api_analyze_image_eq body w tr image tab :
  JS.get body "image" = Ok image ->
  JS.get body "tab" = Ok tab ->
  JS.truthy image = true ->
  JS.truthy tab = true ->
  post_api_analyze_image body w tr =
  match analyzeWithOpenAI image w tr with
  | (tr1, Throw e) => analyze_failed tr1 e
  | (tr1, Ok foodName) =>
      match JS.ToNumber tab with
      | Throw e => analyze_failed tr1 e
      | Ok _ =>
          if tab_is tab 6 then
            match getNutritionFromOpenAIImage image w tr1 with
            | (tr2, Throw e) => analyze_failed tr2 e
            | (tr2, Ok parsed) =>
                match default_property parsed "foodName" (JStr foodName) with
                | Ok nutrition => (tr2, Ok (analyzed foodName nutrition))
                | Throw e => analyze_failed tr2 e
                end
            end
          else
            match switch_adapter tab with
            | Some adapter =>
                match adapter (JStr foodName) w tr1 with
                | (tr2, Ok nutrition) => (tr2, Ok (analyzed foodName nutrition))
                | (tr2, Throw e) => analyze_failed tr2 e
                end
            | None => (tr1, Ok invalid_tab)
            end
      end
  end.
Proof.
  intros Himage Htab Ti Tt.
  unfold post_api_analyze_image, switch_adapter, analyze_failed, analyzed, invalid_tab.
  run_M. rewrite Himage, Htab, Ti, Tt. cbn [negb orb].
  destruct (analyzeWithOpenAI image w tr) as [tr1 [foodName|e]]; [|reflexivity].
  destruct (JS.ToNumber tab) as [x|e] eqn:N; [|reflexivity].
  rewrite !(tab_is_at tab x _ N).
  destruct (is_tab x 6).
  - destruct (getNutritionFromOpenAIImage image w tr1) as [tr2 [parsed|e]]; [|reflexivity].
    destruct (default_property parsed "foodName" (JStr foodName)); reflexivity.
  - destruct (is_tab x 1);
      [destruct (getNutritionEdamam1 _ w tr1) as [tr2 [n|e]]; reflexivity|].
    destruct (is_tab x 2);
      [destruct (getNutritionEdamam2 _ w tr1) as [tr2 [n|e]]; reflexivity|].
    destruct (is_tab x 3);
      [destruct (getNutritionFatSecret _ w tr1) as [tr2 [n|e]]; reflexivity|].
    destruct (is_tab x 4);
      [destruct (getNutritionOpenFoodFacts _ w tr1) as [tr2 [n|e]]; reflexivity|].
    destruct (is_tab x 5);
      [destruct (getNutritionSpoonacular _ w tr1) as [tr2 [n|e]]; reflexivity|].
    reflexivity.
Qed.

Lemma recognition_sends_no_provider_call image w :
  filter provider_call (sent (analyzeWithOpenAI image) w) = [].
Proof.
  unfold sent, run. rewrite analyzeWithOpenAI_calls.
  destruct (stripBase64Prefix image); reflexivity.
Qed.

Lemma analyze_failed_calls tr e : calls (fst (analyze_failed tr e)) = calls tr.
Proof.
  unfold analyze_failed. cbn [fst]. rewrite calls_app. cbn [calls].
  now rewrite app_nil_r.
Qed.

(** C5: when recognition fails, the run of the analyze route ends there:
    the failure is answered with a server error and no request of any
    nutrition adapter is sent. *)
Theorem recognition_failure_is_terminal
  (body image tab : value) (w : world) (tr1 : trace) (e : exn)
  (Himage : JS.get body "image" = Ok image)
  (Htab : JS.get body "tab" = Ok tab)
  (Hpresent : JS.truthy image && JS.truthy tab = true)
  (Hfails : run (analyzeWithOpenAI image) w = (tr1, Throw e)) :
  run (post_api_analyze_image body) w = analyze_failed tr1 e
  /\ sent (post_api_analyze_image body) w = sent (analyzeWithOpenAI image) w
  /\ filter provider_call (sent (post_api_analyze_image body) w) = [].
Proof.
  apply andb_true_iff in Hpresent. destruct Hpresent as [Ti Tt].
  assert (E : run (post_api_analyze_image body) w = analyze_failed tr1 e).
  { unfold run in *.
    now rewrite (post_api_analyze_image_eq body w [] image tab Himage Htab Ti Tt), Hfails. }
  assert (S : sent (post_api_analyze_image body) w = sent (analyzeWithOpenAI image) w).
  { unfold sent. now rewrite E, Hfails, analyze_failed_calls. }
  repeat split; [exact E | exact S |].
  rewrite S. apply recognition_sends_no_provider_call.
Qed.

(** The whole flow for tab 3 while the recognition service refuses the connection. *)
Lemma recognition_failure_is_terminal_witness :
  run (post_api_analyze_image (JObj [("image", JStr "QUJD"); ("tab", JS.num 3)])) offline
  = analyze_failed
      [Called (recognition_request (JStr "QUJD"));
       ConsoleError "OpenAI Vision error:" (LogValue (JStr "connect ECONNREFUSED"))]
      (vision_failed refused)
  /\ filter provider_call
       (sent (post_api_analyze_image (JObj [("image", JStr "QUJD"); ("tab", JS.num 3)]))
          offline) = [].
Proof.
  pose proof (recognition_failure_is_terminal
                (JObj [("image", JStr "QUJD"); ("tab", JS.num 3)])
                (JStr "QUJD") (JS.num 3) offline
                [Called (recognition_request (JStr "QUJD"));
                 ConsoleError "OpenAI Vision error:" (LogValue (JStr "connect ECONNREFUSED"))]
                (vision_failed refused) eq_refl eq_refl eq_refl eq_refl) as H.
  split; [exact (proj1 H) | exact (proj2 (proj2 H))].
Defined.

(** ** The span that is parsed *)

Lemma parse_brace_object t v :
  Str.starts_with "{" t = true -> JSON.parse t = Some v -> is_object v = true.
Proof.
  destruct t as [|c r]; [discriminate|].
  cbn [Str.starts_with]. rewrite andb_true_r. intros Hc.
  apply Ascii.eqb_eq in Hc. subst c.
  unfold JSON.parse.
  remember (3 * String.length (String "{" r) + 3)%nat as fuel eqn:Hfuel.
  destruct fuel as [|fuel]; [discriminate|].
  cbn [JSON.parse_value JSON.skip_ws].
  change (JSON.is_ws "{") with false. cbv beta iota.
  change (Ascii.eqb "{" "{") with true. cbv beta iota.
  destruct (JSON.parse_members fuel r []) as [[fields r']|]; [|discriminate].
  destruct (JSON.skip_ws r'); [|discriminate].
  intros [= <-]. reflexivity.
Qed.

Lemma indexOf_nonneg_starts needle s :
  0 <= Str.indexOf needle s ->
  Str.starts_with needle (Str.drop (Z.to_nat (Str.indexOf needle s)) s) = true.
Proof.
  induction s as [|c s IH].
  - cbn [Str.indexOf]. destruct (Str.starts_with needle "") eqn:E; [|lia].
    intros _. exact E.
  - change (Str.indexOf needle (String c s))
      with (if Str.starts_with needle (String c s) then 0
            else let i := Str.indexOf needle s in if i <? 0 then -1 else i + 1).
    destruct (Str.starts_with needle (String c s)) eqn:E; [intros _; exact E|].
    cbv zeta. destruct (Z.ltb_spec (Str.indexOf needle s) 0) as [|Hi]; [lia|].
    intros _. replace (Z.to_nat (Str.indexOf needle s + 1))
      with (S (Z.to_nat (Str.indexOf needle s))) by lia.
    cbn [Str.drop]. now apply IH.
Qed.

Lemma indexOf_le_len needle s : Str.indexOf needle s <= Str.len s.
Proof.
  unfold Str.len. induction s as [|c s IH].
  - cbn [Str.indexOf String.length]. destruct (Str.starts_with needle ""); lia.
  - change (Str.indexOf needle (String c s))
      with (if Str.starts_with needle (String c s) then 0
            else let i := Str.indexOf needle s in if i <? 0 then -1 else i + 1).
    cbn [String.length]. destruct (Str.starts_with needle (String c s)); [lia|].
    cbv zeta. destruct (Z.ltb_spec (Str.indexOf needle s) 0); lia.
Qed.

Lemma take_starts needle n s :
  Str.starts_with needle s = true ->
  Str.take n s = "" \/ Str.starts_with (Str.take 1 needle) (Str.take n s) = true.
Proof.
  destruct n as [|n]; [now left|]. right.
  destruct needle as [|a needle]; [reflexivity|].
  destruct s as [|c s]; [discriminate|].
  cbn [Str.starts_with] in H. apply andb_true_iff in H. destruct H as [H _].
  cbn [Str.take Str.starts_with]. now rewrite H.
Qed.

(** A slice that starts where the needle was found is empty or starts
    with the needle's first character. *)
Lemma slice_at_indexOf needle s to :
  0 <= Str.indexOf needle s ->
  Str.slice s (Str.indexOf needle s) to = ""
  \/ Str.starts_with (Str.take 1 needle) (Str.slice s (Str.indexOf needle s) to) = true.
Proof.
  intros Hi. unfold Str.slice.
  assert (Ha : Str.clamp (Str.len s) (Str.indexOf needle s) = Str.indexOf needle s).
  { unfold Str.clamp. destruct (Z.ltb_spec (Str.indexOf needle s) 0); [lia|].
    pose proof (indexOf_le_len needle s). lia. }
  rewrite Ha. apply take_starts. now apply indexOf_nonneg_starts.
Qed.

Lemma is_string_eq text x : JS.is_string text x = true -> x = JStr text.
Proof.
  destruct x; try discriminate. cbn [JS.is_string].
  intros H. apply String.eqb_eq in H. now subst.
Qed.

Lemma arr_indexOf_le text items :
  JS.arr_indexOf text items <= Z.of_nat (List.length items).
Proof.
  induction items as [|x items IH]; cbn [JS.arr_indexOf List.length]; [lia|].
  destruct (JS.is_string text x); [lia|].
  cbv zeta. destruct (Z.ltb_spec (JS.arr_indexOf text items) 0); lia.
Qed.

Lemma arr_indexOf_found text items :
  0 <= JS.arr_indexOf text items ->
  exists rest, skipn (Z.to_nat (JS.arr_indexOf text items)) items = JStr text :: rest.
Proof.
  induction items as [|x items IH]; cbn [JS.arr_indexOf]; [lia|].
  destruct (JS.is_string text x) eqn:E.
  - intros _. apply is_string_eq in E. subst x. now exists items.
  - cbv zeta. destruct (Z.ltb_spec (JS.arr_indexOf text items) 0) as [|Hi]; [lia|].
    intros _. replace (Z.to_nat (JS.arr_indexOf text items + 1))
      with (S (Z.to_nat (JS.arr_indexOf text items))) by lia.
    cbn [skipn]. now apply IH.
Qed.

Lemma arr_slice_at_indexOf text items to :
  0 <= JS.arr_indexOf text items ->
  JS.arr_slice items (JS.arr_indexOf text items) to = []
  \/ exists rest,
       JS.arr_slice items (JS.arr_indexOf text items) to = JStr text :: rest.
Proof.
  intros Hi. unfold JS.arr_slice.
  assert (Ha : Str.clamp (Z.of_nat (List.length items)) (JS.arr_indexOf text items)
               = JS.arr_indexOf text items).
  { unfold Str.clamp. destruct (Z.ltb_spec (JS.arr_indexOf text items) 0); [lia|].
    pose proof (arr_indexOf_le text items). lia. }
  rewrite Ha. destruct (arr_indexOf_found text items Hi) as [rest ->].
  destruct (Z.to_nat _) as [|n]; [now left|]. right. cbn [firstn]. eauto.
Qed.

Lemma ToString_array_head text rest :
  Str.starts_with text (JS.text (JArr (JStr text :: rest))) = true.
Proof.
  cbn [JS.text]. destruct rest.
  - replace text with (text ++ "") at 2; [apply starts_with_app|].
    induction text as [|c text IH]; cbn [append]; congruence.
  - apply starts_with_app.
Qed.

(** Whatever text the model wrote, what the span extraction returns is an
    object. *)
Lemma span_json_object not_json out v :
  span_json not_json out = Ok v -> is_object v = true.
Proof.
  unfold span_json, rbind.
  destruct out as [| |b|x|s|items|fields]; try discriminate.
  - cbn [JS.call_indexOf JS.call_lastIndexOf JS.call_slice].
    destruct (Z.ltb_spec (Str.indexOf "{" s) 0) as [|Hi]; [discriminate|].
    cbn [orb]. destruct (Str.lastIndexOf "}" s <? 0); [discriminate|].
    unfold JSON_parse, JS.ToString. cbn [JS.convertible JS.text rbind].
    destruct (JSON.parse _) as [x|] eqn:P; [|discriminate].
    intros [= <-].
    destruct (slice_at_indexOf "{" s (Str.lastIndexOf "}" s + 1) Hi) as [E|E].
    + rewrite E in P. discriminate.
    + exact (parse_brace_object _ _ E P).
  - cbn [JS.call_indexOf JS.call_lastIndexOf JS.call_slice].
    destruct (Z.ltb_spec (JS.arr_indexOf "{" items) 0) as [|Hi]; [discriminate|].
    cbn [orb]. destruct (JS.arr_lastIndexOf "}" items <? 0); [discriminate|].
    unfold JSON_parse, JS.ToString.
    destruct (JS.convertible _); [|discriminate]. cbn [rbind].
    destruct (JSON.parse _) as [x|] eqn:P; [|discriminate].
    intros [= <-].
    destruct (arr_slice_at_indexOf "{" items (JS.arr_lastIndexOf "}" items + 1) Hi)
      as [E|[rest E]]; rewrite E in P.
    + discriminate.
    + exact (parse_brace_object _ _ (ToString_array_head "{" rest) P).
Qed.

Lemma image_nutrition_object answer v :
  image_nutrition answer = Ok v -> is_object v = true.
Proof.
  unfold image_nutrition, rbind.
  destruct answer as [response|]; [|discriminate].
  destruct (first_choice_content response); [|discriminate].
  apply span_json_object.
Qed.

Lemma getNutritionFromOpenAIImage_object image w tr tr' v :
  getNutritionFromOpenAIImage image w tr = (tr', Ok v) -> is_object v = true.
Proof.
  rewrite getNutritionFromOpenAIImage_eq.
  destruct (stripBase64Prefix image) as [b|e]; cbn [settle]; [|discriminate].
  destruct (image_nutrition _) as [x|e] eqn:E; [|discriminate].
  intros [= _ <-]. exact (image_nutrition_object _ _ E).
Qed.

Lemma analyzeWithOpenAI_name image w tr tr' name :
  analyzeWithOpenAI image w tr = (tr', Ok name) -> JS.truthy (JStr name) = true.
Proof.
  rewrite analyzeWithOpenAI_eq.
  destruct (stripBase64Prefix image) as [b|e]; cbn [settle]; [|discriminate].
  unfold recognized, rbind.
  destruct (respond w tr _) as [response|]; [|discriminate].
  destruct (first_choice_content response); [|discriminate].
  destruct (JS.call_trim _) as [text|]; [|discriminate].
  destruct (JS.truthy (JStr text)) eqn:T; cbn [negb]; [|discriminate].
  intros [= _ <-]. exact T.
Qed.

Lemma lookup_assign k v fields : JS.lookup k (JS.assign k v fields) = v.
Proof.
  induction fields as [|[k' v'] fields IH]; cbn [JS.assign JS.lookup].
  - now rewrite String.eqb_refl.
  - destruct (String.eqb k k') eqn:E; cbn [JS.lookup]; rewrite ?String.eqb_refl, ?E; auto.
Qed.

Lemma lookup_assign_other k k' v fields :
  k <> k' -> JS.lookup k (JS.assign k' v fields) = JS.lookup k fields.
Proof.
  intros D. induction fields as [|[k0 v0] fields IH]; cbn [JS.assign JS.lookup].
  - destruct (String.eqb_spec k k'); [contradiction|reflexivity].
  - destruct (String.eqb_spec k' k0) as [<-|]; cbn [JS.lookup].
    + destruct (String.eqb_spec k k'); [contradiction|reflexivity].
    + destruct (String.eqb k k0); [reflexivity|exact IH].
Qed.

(** C9: on the tab-6 path of the analyze route, the nutrition object of a
    successful response always carries a truthy [foodName]; when the
    object the model wrote has none, the response carries that object with
    one change, the [foodName] set to the dish name that the recognition
    call returned, the one the response carries at top level: every other
    key keeps its value; otherwise the model's object is passed on as it
    is. *)
Theorem tab6_backfills_foodName
  (body image tab : value) (w : world) (tr : trace) (resp : response)
  (Himage : JS.get body "image" = Ok image)
  (Htab : JS.get body "tab" = Ok tab)
  (Hpresent : JS.truthy image && JS.truthy tab = true)
  (Htab6 : tab_is tab 6 = true)
  (Hrun : run (post_api_analyze_image body) w = (tr, Ok resp))
  (Hok : status resp = 200) :
  exists name tr1 parsed nutrition,
    run (analyzeWithOpenAI image) w = (tr1, Ok name)
    /\ getNutritionFromOpenAIImage image w tr1 = (tr, Ok parsed)
    /\ json resp = JObj [("foodName", JStr name); ("nutrition", nutrition)]
    /\ JS.truthy (JS.get_opt nutrition "foodName") = true
    /\ (JS.truthy (JS.get_opt parsed "foodName") = false ->
        JS.get_opt nutrition "foodName" = JS.get_opt (json resp) "foodName")
    /\ (JS.truthy (JS.get_opt parsed "foodName") = true -> nutrition = parsed)
    /\ (exists fields,
          parsed = JObj fields
          /\ (JS.truthy (JS.get_opt parsed "foodName") = false ->
              nutrition = JObj (JS.assign "foodName" (JStr name) fields)))
    /\ (forall k, k <> "foodName" -> JS.get_opt nutrition k = JS.get_opt parsed k).
Proof.
  apply andb_true_iff in Hpresent. destruct Hpresent as [Ti Tt].
  unfold run in *.
  rewrite (post_api_analyze_image_eq body w [] image tab Himage Htab Ti Tt) in Hrun.
  destruct (analyzeWithOpenAI image w []) as [tr1 [name|e]] eqn:R.
  2:{ unfold analyze_failed in Hrun. cbv beta iota in Hrun.
      injection Hrun as _ <-. cbn [status] in Hok. discriminate Hok. }
  destruct (JS.ToNumber tab) as [x|e] eqn:Nt.
  2:{ unfold tab_is in Htab6. rewrite Nt in Htab6. discriminate Htab6. }
  rewrite Htab6 in Hrun.
  destruct (getNutritionFromOpenAIImage image w tr1) as [tr2 [parsed|e]] eqn:N.
  2:{ unfold analyze_failed in Hrun. cbv beta iota in Hrun.
      injection Hrun as _ <-. cbn [status] in Hok. discriminate Hok. }
  pose proof (getNutritionFromOpenAIImage_object _ _ _ _ _ N) as O.
  destruct parsed as [| | | | | |fields]; try discriminate O.
  pose proof (analyzeWithOpenAI_name _ _ _ _ _ R) as Tn.
  unfold default_property in Hrun. cbn [JS.get rbind] in Hrun. cbv beta iota in Hrun.
  destruct (JS.truthy (JS.lookup "foodName" fields)) eqn:F;
    cbn [negb] in Hrun; cbv beta iota in Hrun; injection Hrun as <- <-.
  - exists name, tr1, (JObj fields), (JObj fields).
    cbn [JS.get_opt JS.get analyzed json]. rewrite F.
    repeat split; try reflexivity; try assumption; try discriminate.
    exists fields. split; [reflexivity|discriminate].
  - exists name, tr1, (JObj fields), (JObj (JS.assign "foodName" (JStr name) fields)).
    cbn [JS.get_opt JS.get analyzed json]. rewrite F, lookup_assign.
    repeat split; try reflexivity; try assumption; try discriminate.
    + exists fields. split; reflexivity.
    + intros k D. now apply lookup_assign_other.
Qed.

(** The whole flow for tab 6 on a model text that names no food. *)
Lemma tab6_backfills_foodName_witness :
  exists name tr1 parsed nutrition,
    run (analyzeWithOpenAI (JStr "QUJD")) (model_world "pizza" three_keys_text)
    = (tr1, Ok name)
    /\ getNutritionFromOpenAIImage (JStr "QUJD") (model_world "pizza" three_keys_text) tr1
       = (fst tab6_sample, Ok parsed)
    /\ json (analyzed "pizza" (JObj [("calories", JS.num 250); ("protein", JS.num 10);
                                    ("carbs", JS.num 30); ("foodName", JStr "pizza")]))
       = JObj [("foodName", JStr name); ("nutrition", nutrition)]
    /\ JS.truthy (JS.get_opt nutrition "foodName") = true
    /\ (JS.truthy (JS.get_opt parsed "foodName") = false ->
        JS.get_opt nutrition "foodName" = JStr "pizza")
    /\ (JS.truthy (JS.get_opt parsed "foodName") = true -> nutrition = parsed)
    /\ (exists fields,
          parsed = JObj fields
          /\ (JS.truthy (JS.get_opt parsed "foodName") = false ->
              nutrition = JObj (JS.assign "foodName" (JStr name) fields)))
    /\ (forall k, k <> "foodName" -> JS.get_opt nutrition k = JS.get_opt parsed k).
Proof.
  apply (tab6_backfills_foodName
           (request_body (JStr "QUJD") (JS.num 6)) (JStr "QUJD") (JS.num 6)
           (model_world "pizza" three_keys_text) (fst tab6_sample)
           (analyzed "pizza" (JObj [("calories", JS.num 250); ("protein", JS.num 10);
                                    ("carbs", JS.num 30); ("foodName", JStr "pizza")])));
    vm_compute; reflexivity.
Defined.


(** ** An invalid tab *)

Lemma out_of_range_default tab :
  tab_in_range tab = false -> tab_is tab 6 = false /\ switch_adapter tab = None.
Proof.
  unfold tab_in_range, switch_adapter. intros H.
  repeat (apply orb_false_iff in H; destruct H as [H ?]).
  repeat match goal with E : tab_is tab _ = false |- _ => rewrite E; clear E end.
  now split.
Qed.

(** C1, counterexample: with image [QUJD] and tab 7, and a model that
    answers, the recognition request is sent before the tab is found
    invalid; with no model in reach the same request is answered 500. *)
Lemma invalid_tab_still_recognizes :
  JS.truthy (JStr "QUJD") && JS.truthy (JS.num 7) = true
  /\ tab_in_range (JS.num 7) = false
  /\ run (post_api_analyze_image (request_body (JStr "QUJD") (JS.num 7)))
         (model_world "pizza" three_keys_text)
     = ([Called (recognition_request (JStr "QUJD"))], Ok invalid_tab)
  /\ status invalid_tab = 400
  /\ ~ invalid_tab_makes_no_call (request_body (JStr "QUJD") (JS.num 7))
         (model_world "pizza" three_keys_text)
  /\ run (post_api_analyze_image (request_body (JStr "QUJD") (JS.num 7))) offline
     = ([Called (recognition_request (JStr "QUJD"));
         ConsoleError "OpenAI Vision error:" (LogValue (JStr "connect ECONNREFUSED"));
         ConsoleError "Analyze-image endpoint error:"
           (LogValue (JStr "OpenAI Vision failed: connect ECONNREFUSED"))],
        Ok (mkResponse 500
              (error_body (JStr "OpenAI Vision failed: connect ECONNREFUSED")))).
Proof.
  repeat split; try reflexivity.
  intros [H _]. vm_compute in H. discriminate H.
Qed.

(** C1, amended: a present tab that does not denote a number from 1 to 6
    is found invalid only after recognition has run.  The recognition
    request is the only one sent and no nutrition adapter is called.  When
    recognition fails the answer is the server error of that failure.  When
    it succeeds the answer is the client error "Invalid tab (must be 1-6)",
    unless the tab cannot be converted to a number at all - an object with
    a [toString] key of its own, or a list that holds one - in which case
    [Number(tab)] throws and the answer is a server error. *)
Theorem invalid_tab_after_recognition
  (body image tab : value) (w : world)
  (Himage : JS.get body "image" = Ok image)
  (Htab : JS.get body "tab" = Ok tab)
  (Hpresent : JS.truthy image && JS.truthy tab = true)
  (Hinvalid : tab_in_range tab = false) :
  sent (post_api_analyze_image body) w = sent (analyzeWithOpenAI image) w
  /\ filter provider_call (sent (post_api_analyze_image body) w) = []
  /\ run (post_api_analyze_image body) w
     = match run (analyzeWithOpenAI image) w with
       | (tr1, Ok _) =>
           if JS.convertible tab then (tr1, Ok invalid_tab)
           else analyze_failed tr1 JS.cannot_convert
       | (tr1, Throw e) => analyze_failed tr1 e
       end
  /\ JS.ToNumber tab
     = (if JS.convertible tab then Ok (JS.number_of tab) else Throw JS.cannot_convert).
Proof.
  apply andb_true_iff in Hpresent. destruct Hpresent as [Ti Tt].
  destruct (out_of_range_default tab Hinvalid) as [H6 Hswitch].
  assert (E : run (post_api_analyze_image body) w
              = match run (analyzeWithOpenAI image) w with
                | (tr1, Ok _) =>
                    if JS.convertible tab then (tr1, Ok invalid_tab)
                    else analyze_failed tr1 JS.cannot_convert
                | (tr1, Throw e) => analyze_failed tr1 e
                end).
  { unfold run.
    rewrite (post_api_analyze_image_eq body w [] image tab Himage Htab Ti Tt).
    rewrite H6, Hswitch. unfold JS.ToNumber.
    destruct (analyzeWithOpenAI image w []) as [tr1 [name|e]]; [|reflexivity].
    destruct (JS.convertible tab); reflexivity. }
  assert (S : sent (post_api_analyze_image body) w = sent (analyzeWithOpenAI image) w).
  { unfold sent. rewrite E.
    destruct (run (analyzeWithOpenAI image) w) as [tr1 [name|e]];
      [destruct (JS.convertible tab); [reflexivity|]|]; apply analyze_failed_calls. }
  repeat split; [exact S | | exact E].
  rewrite S. apply recognition_sends_no_provider_call.
Qed.

(** The whole flow for the tab [seven], and for a tab that is an object
    with a [toString] key. *)
Lemma invalid_tab_after_recognition_witness :
  run (post_api_analyze_image (request_body (JStr "QUJD") (JStr "seven")))
      (model_world "pizza" three_keys_text)
  = ([Called (recognition_request (JStr "QUJD"))], Ok invalid_tab)
  /\ run (post_api_analyze_image
            (request_body (JStr "QUJD") (JObj [("toString", JS.num 1)])))
         (model_world "pizza" three_keys_text)
     = analyze_failed [Called (recognition_request (JStr "QUJD"))] JS.cannot_convert
  /\ filter provider_call
       (sent (post_api_analyze_image
                (request_body (JStr "QUJD") (JObj [("toString", JS.num 1)])))
             (model_world "pizza" three_keys_text)) = [].
Proof.
  pose proof (invalid_tab_after_recognition
                (request_body (JStr "QUJD") (JStr "seven")) (JStr "QUJD") (JStr "seven")
                (model_world "pizza" three_keys_text)
                eq_refl eq_refl eq_refl eq_refl) as H1.
  pose proof (invalid_tab_after_recognition
                (request_body (JStr "QUJD") (JObj [("toString", JS.num 1)]))
                (JStr "QUJD") (JObj [("toString", JS.num 1)])
                (model_world "pizza" three_keys_text)
                eq_refl eq_refl eq_refl eq_refl) as H2.
  split; [exact (proj1 (proj2 (proj2 H1)))|].
  split; [exact (proj1 (proj2 (proj2 H2)))|exact (proj1 (proj2 H2))].
Defined.


(** ** Reading properties *)

Lemma get_defined v k :
  v <> JUndefined -> v <> JNull -> exists x, JS.get v k = Ok x.
Proof.
  intros U N. destruct v; try congruence; cbn [JS.get];
    repeat match goal with
           | |- context [match ?x with _ => _ end] => destruct x
           end; eauto.
Qed.

Lemma get_opt_get v k x : JS.get v k = Ok x -> JS.get_opt v k = x.
Proof.
  intros H. unfold JS.get_opt. rewrite H.
  destruct v; try reflexivity; discriminate H.
Qed.

Lemma get_truthy v k : JS.truthy v = true -> JS.get v k = Ok (JS.get_opt v k).
Proof.
  intros T. destruct (get_defined v k) as [x H].
  - intros ->. discriminate T.
  - intros ->. discriminate T.
  - now rewrite (get_opt_get v k x H).
Qed.

(** Nothing can be read from a falsy value. *)
Lemma get_opt_falsy v k : JS.truthy v = false -> JS.truthy (JS.get_opt v k) = false.
Proof.
  destruct v as [| |b|x|s|items|fields]; try discriminate; try reflexivity.
  - cbn [JS.truthy]. intros T. apply negb_false_iff, String.eqb_eq in T. subst s.
    unfold JS.get_opt. cbn [JS.get].
    destruct (JS.array_index k) as [i|].
    + destruct i; reflexivity.
    + destruct (String.eqb k "length"); reflexivity.
Qed.

Lemma and_get_truthy a k : JS.truthy a = true -> and_get a k = Ok (JS.get_opt a k).
Proof. intros T. unfold and_get. rewrite T. now apply get_truthy. Qed.

Lemma and_get_falsy a k : JS.truthy a = false -> and_get a k = Ok a.
Proof. intros T. unfold and_get. now rewrite T. Qed.

(** [a && a.k] is truthy exactly when [a?.k] is, and then equal to it. *)
Lemma and_get_opt a k :
  exists v, and_get a k = Ok v
            /\ JS.truthy v = JS.truthy (JS.get_opt a k)
            /\ (JS.truthy v = true -> v = JS.get_opt a k).
Proof.
  destruct (JS.truthy a) eqn:T.
  - exists (JS.get_opt a k). rewrite (and_get_truthy a k T). auto.
  - exists a. rewrite (and_get_falsy a k T), T, (get_opt_falsy a k T).
    repeat split; congruence.
Qed.

Lemma first_food_found lst food :
  first_entry_food lst food -> first_food lst = Ok food.
Proof.
  intros (entry & rest & -> & Hfood & T).
  unfold first_food. rewrite and_get_truthy by reflexivity.
  cbn [rbind]. change (JS.get_opt (JArr (entry :: rest)) "0") with entry.
  destruct (JS.truthy entry) eqn:Te.
  - now rewrite and_get_truthy, Hfood.
  - rewrite <- Hfood, (get_opt_falsy entry "food" Te) in T. discriminate T.
Qed.

Lemma first_food_missing lst :
  no_entry_food lst -> exists v, first_food lst = Ok v /\ JS.truthy v = false.
Proof.
  unfold first_food.
  intros [-> | [-> | [-> | (entry & rest & -> & T)]]];
    try (eexists; split; reflexivity).
  rewrite and_get_truthy by reflexivity. cbn [rbind].
  change (JS.get_opt (JArr (entry :: rest)) "0") with entry.
  destruct (and_get_opt entry "food") as (v & -> & Tv & _).
  exists v. split; [reflexivity|congruence].
Qed.

Lemma nutrients_record_found food :
  JS.truthy food = true -> nutrients_record food = Ok (food_record food).
Proof.
  intros T. unfold nutrients_record, food_record, zero_filled.
  rewrite (get_truthy food "nutrients" T). cbn [rbind].
  assert (Tn : JS.truthy (JS.or (JS.get_opt food "nutrients") (JObj [])) = true).
  { unfold JS.or. destruct (JS.truthy (JS.get_opt food "nutrients")) eqn:E; auto. }
  now rewrite !(get_truthy _ _ Tn).
Qed.

Lemma or_object_truthy data : JS.truthy (JS.or data (JObj [])) = true.
Proof. unfold JS.or. destruct (JS.truthy data) eqn:E; auto. Qed.

(** ** Tab 2 *)

Lemma edamam2_record_parsed data food :
  first_entry_food (JS.get_opt (JS.or data (JObj [])) "parsed") food ->
  edamam2_record (Ok data) = Ok (food_record food).
Proof.
  intros Hp. unfold edamam2_record, edamam2_food. cbn [rbind].
  rewrite !(get_truthy _ _ (or_object_truthy data)). cbn [rbind].
  rewrite (first_food_found _ food Hp).
  destruct Hp as (_ & _ & _ & _ & T). cbn [rbind]. rewrite T. cbn [rbind negb].
  rewrite T. cbn [negb]. now apply nutrients_record_found.
Qed.

Lemma edamam2_record_hint data food :
  no_entry_food (JS.get_opt (JS.or data (JObj [])) "parsed") ->
  first_entry_food (JS.get_opt (JS.or data (JObj [])) "hints") food ->
  edamam2_record (Ok data) = Ok (food_record food).
Proof.
  intros Hp Hh. unfold edamam2_record, edamam2_food. cbn [rbind].
  rewrite !(get_truthy _ _ (or_object_truthy data)). cbn [rbind].
  destruct (first_food_missing _ Hp) as (v & -> & Tv). cbn [rbind].
  rewrite Tv, (first_food_found _ food Hh).
  destruct Hh as (_ & _ & _ & _ & T). cbn [rbind]. rewrite T. cbn [negb].
  now apply nutrients_record_found.
Qed.

Lemma edamam2_record_missing data :
  no_entry_food (JS.get_opt (JS.or data (JObj [])) "parsed") ->
  no_entry_food (JS.get_opt (JS.or data (JObj [])) "hints") ->
  edamam2_record (Ok data) = Throw (Error "Food not found in Edamam Food DB").
Proof.
  intros Hp Hh. unfold edamam2_record, edamam2_food. cbn [rbind].
  rewrite !(get_truthy _ _ (or_object_truthy data)). cbn [rbind].
  destruct (first_food_missing _ Hp) as (v & -> & Tv). cbn [rbind].
  rewrite Tv.
  destruct (first_food_missing _ Hh) as (v' & -> & Tv'). cbn [rbind].
  now rewrite Tv'.
Qed.

(** C8: the food database adapter uses the food of the first parsed entry
    when there is one, else the food of the first hint, and fails, with the
    adapter's error, when neither list yields a food. *)
Theorem edamam2_prefers_parsed
  (foodName data : value) (w : world) (tr : trace)
  (Hanswer : respond w tr (edamam2_request (config w) foodName) = Ok data) :
  let parsed := JS.get_opt (JS.or data (JObj [])) "parsed" in
  let hints := JS.get_opt (JS.or data (JObj [])) "hints" in
  let asked := (tr ++ [Called (edamam2_request (config w) foodName)])%list in
  (forall food,
      first_entry_food parsed food ->
      getNutritionEdamam2 foodName w tr = (asked, Ok (food_record food)))
  /\ (forall food,
        no_entry_food parsed ->
        first_entry_food hints food ->
        getNutritionEdamam2 foodName w tr = (asked, Ok (food_record food)))
  /\ (no_entry_food parsed ->
      no_entry_food hints ->
      getNutritionEdamam2 foodName w tr
      = ((asked ++ [ConsoleError "Edamam FoodDB error:"
                      (LogValue (JStr "Food not found in Edamam Food DB"))])%list,
         Throw (Error "Edamam FoodDB failed"))).
Proof.
  intros parsed hints asked.
  rewrite getNutritionEdamam2_eq, Hanswer.
  repeat split.
  - intros food Hp. now rewrite (edamam2_record_parsed data food Hp).
  - intros food Hp Hh. now rewrite (edamam2_record_hint data food Hp Hh).
  - intros Hp Hh. now rewrite (edamam2_record_missing data Hp Hh).
Qed.

(** A parser answer whose only food is the first hint. *)
Lemma edamam2_prefers_parsed_witness :
  getNutritionEdamam2 (JStr "pizza") (answering (fun _ => Ok hint_only)) []
  = ([Called (edamam2_request sample_env (JStr "pizza"))],
     Ok (record (JS.num 266) (JS.num 11) (JS.num 33) (JS.num 0))).
Proof.
  refine (proj1 (proj2 (edamam2_prefers_parsed (JStr "pizza") hint_only
                          (answering (fun _ => Ok hint_only)) [] eq_refl))
            pizza_food _ _).
  - right. right. left. reflexivity.
  - exists (JObj [("food", pizza_food)]), []. repeat split.
Defined.


(** ** Tab 3 *)

(** C4, counterexample: a run that gets no access token and a run whose
    search finds nothing surface the same error; the stage is named only on
    the console. *)
Lemma fatsecret_error_hides_stage :
  run (getNutritionFatSecret (JStr "pizza")) no_token_world
  = ([Called (token_request sample_env);
      ConsoleError "FatSecret error:" (LogValue (JStr "FatSecret token failed"))],
     Throw (Error "FatSecret failed"))
  /\ run (getNutritionFatSecret (JStr "pizza")) no_hit_world
     = ([Called (token_request sample_env);
         Called (search_request (JStr "tok") (JStr "pizza"));
         ConsoleError "FatSecret error:" (LogValue (JStr "FatSecret: no food found"))],
        Throw (Error "FatSecret failed"))
  /\ ~ surfaced_errors_differ (JStr "pizza") no_token_world no_hit_world.
Proof.
  repeat split; try reflexivity.
  intros (e1 & e2 & H1 & H2 & D). vm_compute in H1, H2.
  injection H1 as <-. injection H2 as <-. now apply D.
Qed.

Lemma first_serving_missing data :
  no_serving data ->
  exists d s, and_get data "food" = Ok d /\ first_serving d = Ok s /\ JS.truthy s = false.
Proof.
  unfold no_serving, first_serving. intros T.
  destruct (and_get_opt data "food") as (d & -> & Td & Ed).
  exists d. destruct (JS.truthy d) eqn:Tdd.
  - rewrite (Ed eq_refl), (get_truthy _ "servings") by (now rewrite <- (Ed eq_refl)).
    cbn [rbind].
    destruct (and_get_opt (JS.get_opt (JS.get_opt data "food") "servings") "serving")
      as (l & -> & Tl & El). cbn [rbind].
    destruct (and_get_opt l "0") as (s & -> & Ts & _).
    exists s. repeat split. rewrite Ts.
    destruct (JS.truthy l) eqn:Tll.
    + now rewrite (El eq_refl).
    + now apply get_opt_falsy.
  - exists d. now repeat split.
Qed.

Lemma first_of_foods_missing foods :
  (let listed := JS.get_opt foods "food" in
   (isArray listed = true /\ JS.truthy (JS.get_opt listed "0") = false)
   \/ (JS.truthy listed = false /\ JS.truthy (JS.get_opt foods "0") = false)) ->
  exists f, first_of_foods foods = Ok f /\ JS.truthy f = false.
Proof.
  cbv zeta. unfold first_of_foods. intros H.
  destruct (JS.truthy foods) eqn:Tf; [|now exists JUndefined].
  rewrite (get_truthy _ "food" Tf). cbn [rbind].
  destruct H as [[A T0] | [Tl T0]].
  - rewrite A.
    assert (Tl : JS.truthy (JS.get_opt foods "food") = true)
      by (destruct (JS.get_opt foods "food"); now try discriminate A).
    rewrite (get_truthy _ "0" Tl). eauto.
  - assert (A : isArray (JS.get_opt foods "food") = false)
      by (destruct (JS.get_opt foods "food"); now try discriminate Tl).
    rewrite A, Tl, (get_truthy _ "0" Tf). eauto.
Qed.

Lemma first_food_missing_in_search data :
  no_search_hit data ->
  exists foods f, found_foods data = Ok foods /\ first_of_foods foods = Ok f
                  /\ JS.truthy f = false.
Proof.
  unfold no_search_hit, found_foods. cbv zeta. unfold JS.or.
  destruct (JS.truthy data) eqn:Td.
  - rewrite (get_truthy data "foods" Td). cbn [rbind].
    destruct (JS.truthy (JS.get_opt data "foods")) eqn:Tf; intros H.
    + destruct (first_of_foods_missing _ H) as (f & E & T). eauto.
    + rewrite (get_truthy data "food" Td).
      destruct (first_of_foods_missing _ H) as (f & E & T). eauto.
  - intros _. exists data, JUndefined. repeat split.
    unfold first_of_foods. now rewrite Td.
Qed.

Lemma fatsecret_token_missing data :
  JS.truthy (JS.get_opt data "access_token") = false ->
  fatsecret_token (Ok data) = Throw (Error "FatSecret token failed").
Proof.
  intros T. unfold fatsecret_token. cbn [rbind].
  destruct (and_get_opt data "access_token") as (v & -> & Tv & _).
  cbn [rbind]. now rewrite Tv, T.
Qed.

Lemma fatsecret_food_id_missing data :
  no_search_hit data ->
  fatsecret_food_id (Ok data) = Throw (Error "FatSecret: no food found").
Proof.
  intros H. unfold fatsecret_food_id. cbn [rbind].
  destruct (first_food_missing_in_search data H) as (foods & f & E1 & E2 & T).
  rewrite E1. cbn [rbind]. rewrite E2. cbn [rbind]. now rewrite T.
Qed.

Lemma fatsecret_record_missing data :
  no_serving data ->
  fatsecret_record (Ok data) = Throw (Error "FatSecret: no serving info").
Proof.
  intros H. unfold fatsecret_record. cbn [rbind].
  destruct (first_serving_missing data H) as (d & s & E1 & E2 & T).
  rewrite E1. cbn [rbind]. rewrite E2. cbn [rbind]. now rewrite T.
Qed.

(** C4, amended: the three stages run in order and the first that fails
    ends the run: no later request is sent, the failure is written to the
    console, where a missing token, search hit or serving is named, and the
    error thrown to the caller is the same "FatSecret failed" for every
    stage. *)
Theorem fatsecret_aborts_at_failed_stage
  (foodName : value) (w : world) (tr : trace) :
  let r1 := token_request (config w) in
  let tr1 := (tr ++ [Called r1])%list in
  (forall e,
      fatsecret_token (respond w tr r1) = Throw e ->
      getNutritionFatSecret foodName w tr
      = ((tr1 ++ [fatsecret_log e])%list, Throw fatsecret_failed))
  /\ (forall token e,
        fatsecret_token (respond w tr r1) = Ok token ->
        let r2 := search_request token foodName in
        fatsecret_food_id (respond w tr1 r2) = Throw e ->
        getNutritionFatSecret foodName w tr
        = ((tr1 ++ [Called r2; fatsecret_log e])%list, Throw fatsecret_failed))
  /\ (forall token foodId e,
        fatsecret_token (respond w tr r1) = Ok token ->
        let r2 := search_request token foodName in
        let tr2 := (tr1 ++ [Called r2])%list in
        fatsecret_food_id (respond w tr1 r2) = Ok foodId ->
        let r3 := detail_request token foodId in
        fatsecret_record (respond w tr2 r3) = Throw e ->
        getNutritionFatSecret foodName w tr
        = ((tr2 ++ [Called r3; fatsecret_log e])%list, Throw fatsecret_failed))
  /\ (forall data,
        JS.truthy (JS.get_opt data "access_token") = false ->
        fatsecret_token (Ok data) = Throw (Error "FatSecret token failed"))
  /\ (forall data,
        no_search_hit data ->
        fatsecret_food_id (Ok data) = Throw (Error "FatSecret: no food found"))
  /\ (forall data,
        no_serving data ->
        fatsecret_record (Ok data) = Throw (Error "FatSecret: no serving info"))
  /\ (forall e,
        fatsecret_token (Throw e) = Throw e
        /\ fatsecret_food_id (Throw e) = Throw e
        /\ fatsecret_record (Throw e) = Throw e).
Proof.
  intros r1 tr1.
  rewrite getNutritionFatSecret_eq. unfold fatsecret_stages. fold r1. fold tr1.
  split; [|split; [|split; [|split; [|split; [|split]]]]].
  - intros e ->. reflexivity.
  - intros token e -> ->. cbn [settle]. now rewrite <- app_assoc.
  - intros token foodId e -> -> ->. cbn [settle]. now rewrite <- app_assoc.
  - exact fatsecret_token_missing.
  - exact fatsecret_food_id_missing.
  - exact fatsecret_record_missing.
  - intros e. repeat split.
Qed.

(** A token answer without an access token. *)
Lemma fatsecret_aborts_at_failed_stage_witness :
  getNutritionFatSecret (JStr "pizza") no_token_world []
  = ([Called (token_request sample_env);
      fatsecret_log (Error "FatSecret token failed")], Throw fatsecret_failed).
Proof.
  exact (proj1 (fatsecret_aborts_at_failed_stage (JStr "pizza") no_token_world [])
           (Error "FatSecret token failed") eq_refl).
Defined.


(** ** No results *)

(** C2, counterexample: the nutrition-analysis answer [{}], with no
    calories and no totalNutrients, makes tab 1 return the all-zero
    record. *)
Lemma edamam1_returns_zeros :
  JS.get_opt (JObj []) "calories" = JUndefined
  /\ JS.get_opt (JObj []) "totalNutrients" = JUndefined
  /\ run (getNutritionEdamam1 (JStr "xyzzy")) empty_world
     = ([Called (edamam1_request sample_env (JStr "xyzzy"))], Ok zero_record)
  /\ ~ lookup_fails (getNutritionEdamam1 (JStr "xyzzy")) empty_world.
Proof.
  repeat split; try reflexivity.
  intros [e H]. vm_compute in H. discriminate H.
Qed.

Lemma quantity_absent total code :
  JS.truthy total = true ->
  JS.truthy (JS.get_opt (JS.get_opt total code) "quantity") = false ->
  quantity total code = Ok (JS.num 0).
Proof.
  intros T Q. unfold quantity. rewrite (get_truthy total code T). cbn [rbind].
  destruct (and_get_opt (JS.get_opt total code) "quantity") as (v & -> & Tv & _).
  cbn [rbind]. unfold JS.or. now rewrite Tv, Q.
Qed.

Lemma or_object_get_falsy data k :
  JS.truthy (JS.get_opt data k) = false ->
  JS.truthy (JS.get_opt (JS.or data (JObj [])) k) = false.
Proof.
  intros H. unfold JS.or. destruct (JS.truthy data); [exact H|reflexivity].
Qed.

Lemma or_falsy a b : JS.truthy a = false -> JS.or a b = b.
Proof. intros H. unfold JS.or. now rewrite H. Qed.


Lemma edamam1_record_zero data :
  JS.truthy (JS.get_opt data "calories") = false ->
  JS.truthy (JS.get_opt data "totalNutrients") = false ->
  edamam1_record (Ok data) = Ok zero_record.
Proof.
  intros C T. unfold edamam1_record. cbn [rbind].
  rewrite !(get_truthy _ _ (or_object_truthy data)). cbn [rbind].
  apply or_object_get_falsy in C, T.
  rewrite (or_falsy _ (JObj []) T), (or_falsy _ (JS.num 0) C). reflexivity.
Qed.

Lemma has_calories_eq guess : has_calories guess = Ok (usable_calories guess).
Proof.
  unfold has_calories, usable_calories.
  destruct (JS.truthy guess) eqn:T; [|reflexivity].
  now rewrite (get_truthy guess "calories" T).
Qed.

Lemma results_of_eq data :
  results_of data = Ok (JS.or (JS.get_opt data "results") (JArr [])).
Proof.
  unfold results_of.
  destruct (and_get_opt data "results") as (v & -> & Tv & Ev). cbn [rbind].
  unfold JS.or. rewrite <- Tv. destruct (JS.truthy v) eqn:T; [|reflexivity].
  now rewrite (Ev eq_refl).
Qed.

Lemma spoonacular_ingredient_missing data :
  no_ingredient data ->
  spoonacular_ingredient (Ok data) = Throw (Error "Spoonacular: ingredient not found").
Proof.
  unfold no_ingredient, spoonacular_ingredient. intros H. cbn [rbind].
  rewrite results_of_eq. cbn [rbind].
  assert (T : JS.truthy (JS.or (JS.get_opt data "results") (JArr [])) = true).
  { unfold JS.or. destruct (JS.truthy (JS.get_opt data "results")) eqn:E; auto. }
  rewrite (get_truthy _ "length" T). cbn [rbind]. now rewrite H.
Qed.

Lemma off_record_missing data :
  no_product data -> off_record (Ok data) = Throw (Error "OpenFoodFacts: not found").
Proof.
  unfold no_product, off_record. intros H. cbn [rbind].
  destruct (and_get_opt data "products") as (p & -> & Tp & Ep). cbn [rbind].
  destruct (and_get_opt p "0") as (v & -> & Tv & _). cbn [rbind].
  rewrite Tv. destruct (JS.truthy p) eqn:T.
  - now rewrite (Ep eq_refl), H.
  - now rewrite (get_opt_falsy p "0" T).
Qed.

Lemma span_json_missing not_json text :
  no_object_span text -> span_json not_json (JStr text) = Throw (not_json (JStr text)).
Proof.
  unfold no_object_span, span_json. cbn [JS.call_indexOf JS.call_lastIndexOf rbind].
  intros [H|H].
  - destruct (Z.ltb_spec (Str.indexOf "{" text) 0); [reflexivity|lia].
  - destruct (Z.ltb_spec (Str.lastIndexOf "}" text) 0); [|lia].
    now rewrite orb_true_r.
Qed.

(** C2, amended: an answer that holds no result makes the adapters of
    tabs 2 to 5 fail with the adapter's error, and so does a model text
    without a JSON object on tab 6; tab 1 has no such check and turns an
    answer without calories and totalNutrients into the all-zero record. *)
Theorem no_results_fail_beyond_tab1 (foodName : value) (w : world) (tr : trace) :
  (forall data,
      respond w tr (edamam1_request (config w) foodName) = Ok data ->
      JS.truthy (JS.get_opt data "calories") = false ->
      JS.truthy (JS.get_opt data "totalNutrients") = false ->
      getNutritionEdamam1 foodName w tr
      = ((tr ++ [Called (edamam1_request (config w) foodName)])%list, Ok zero_record))
  /\ (forall data,
        respond w tr (edamam2_request (config w) foodName) = Ok data ->
        no_entry_food (JS.get_opt (JS.or data (JObj [])) "parsed") ->
        no_entry_food (JS.get_opt (JS.or data (JObj [])) "hints") ->
        snd (getNutritionEdamam2 foodName w tr) = Throw (Error "Edamam FoodDB failed"))
  /\ (forall token data,
        let r1 := token_request (config w) in
        let tr1 := (tr ++ [Called r1])%list in
        fatsecret_token (respond w tr r1) = Ok token ->
        respond w tr1 (search_request token foodName) = Ok data ->
        no_search_hit data ->
        snd (getNutritionFatSecret foodName w tr) = Throw fatsecret_failed)
  /\ (forall token foodId data,
        let r1 := token_request (config w) in
        let tr1 := (tr ++ [Called r1])%list in
        let r2 := search_request token foodName in
        let tr2 := (tr1 ++ [Called r2])%list in
        fatsecret_token (respond w tr r1) = Ok token ->
        fatsecret_food_id (respond w tr1 r2) = Ok foodId ->
        respond w tr2 (detail_request token foodId) = Ok data ->
        no_serving data ->
        snd (getNutritionFatSecret foodName w tr) = Throw fatsecret_failed)
  /\ (forall data,
        respond w tr (off_request foodName) = Ok data ->
        no_product data ->
        snd (getNutritionOpenFoodFacts foodName w tr) = Throw (Error "OpenFoodFacts failed"))
  /\ (forall guess data,
        let r1 := guess_request (config w) foodName in
        let tr1 := (tr ++ [Called r1])%list in
        respond w tr r1 = Ok guess ->
        usable_calories guess = false ->
        respond w tr1 (ingredient_request (config w) foodName) = Ok data ->
        no_ingredient data ->
        snd (getNutritionSpoonacular foodName w tr)
        = Throw (Error "Spoonacular failed: Spoonacular: ingredient not found"))
  /\ (forall resp content text,
        respond w tr (name_request foodName) = Ok resp ->
        first_choice_content resp = Ok content ->
        JS.or content (JStr "") = JStr text ->
        no_object_span text ->
        snd (getNutritionFromOpenAIByName foodName w tr)
        = Throw (Error "OpenAI nutrition lookup failed")).
Proof.
  split; [|split; [|split; [|split; [|split; [|split]]]]].
  - intros data A C T.
    now rewrite getNutritionEdamam1_eq, A, (edamam1_record_zero data C T).
  - intros data A P H.
    now rewrite getNutritionEdamam2_eq, A, (edamam2_record_missing data P H).
  - cbv zeta. intros token data T A H.
    rewrite getNutritionFatSecret_eq. unfold fatsecret_stages.
    now rewrite T, A, (fatsecret_food_id_missing data H).
  - cbv zeta. intros token foodId data T F A H.
    rewrite getNutritionFatSecret_eq. unfold fatsecret_stages.
    now rewrite T, F, A, (fatsecret_record_missing data H).
  - intros data A H.
    now rewrite getNutritionOpenFoodFacts_eq, A, (off_record_missing data H).
  - cbv zeta. intros guess data G U A H.
    rewrite getNutritionSpoonacular_eq. unfold spoonacular_stages.
    rewrite G. unfold spoonacular_guess. cbn [rbind].
    rewrite has_calories_eq, U. cbn [rbind].
    now rewrite A, (spoonacular_ingredient_missing data H).
  - intros resp content text A C O H.
    rewrite getNutritionFromOpenAIByName_eq, A. unfold name_nutrition. cbn [rbind].
    rewrite C. cbn [rbind]. now rewrite O, (span_json_missing _ text H).
Qed.

(** Empty answers at tabs 4 and 5. *)
Lemma no_results_fail_beyond_tab1_witness :
  snd (getNutritionOpenFoodFacts (JStr "xyzzy") empty_world [])
  = Throw (Error "OpenFoodFacts failed")
  /\ snd (getNutritionSpoonacular (JStr "xyzzy") empty_world [])
     = Throw (Error "Spoonacular failed: Spoonacular: ingredient not found").
Proof.
  pose proof (no_results_fail_beyond_tab1 (JStr "xyzzy") empty_world []) as H.
  split.
  - exact (proj1 (proj2 (proj2 (proj2 (proj2 H)))) (JObj []) eq_refl eq_refl).
  - exact (proj1 (proj2 (proj2 (proj2 (proj2 (proj2 H))))) (JObj []) (JObj [])
             eq_refl eq_refl eq_refl eq_refl).
Defined.


(** ** The model's text *)

(** C7, counterexample: of two objects in one answer the first balanced
    span is the first object, which parses; the code parses from the first
    opening brace to the last closing brace, and fails. *)
Lemma two_objects_are_not_parsed :
  first_balanced_span two_objects_text = Some ("{" ++ quoted "calories" ++ ":250}")
  /\ JSON.parse ("{" ++ quoted "calories" ++ ":250}")
     = Some (JObj [("calories", JS.num 250)])
  /\ Str.slice two_objects_text (Str.indexOf "{" two_objects_text)
       (Str.lastIndexOf "}" two_objects_text + 1) = two_objects_text
  /\ JSON.parse two_objects_text = None
  /\ snd (run (getNutritionFromOpenAIImage (JStr "QUJD"))
            (model_world "pizza" two_objects_text))
     = Throw (Error "OpenAI Nutrition image analysis failed: Unexpected token in JSON")
  /\ ~ parses_first_balanced_span (JStr "QUJD") (model_world "pizza" two_objects_text)
         two_objects_text.
Proof.
  assert (F : snd (run (getNutritionFromOpenAIImage (JStr "QUJD"))
                     (model_world "pizza" two_objects_text))
              = Throw (Error "OpenAI Nutrition image analysis failed: Unexpected token in JSON"))
    by (vm_compute; reflexivity).
  assert (S : first_balanced_span two_objects_text
              = Some ("{" ++ quoted "calories" ++ ":250}"))
    by (vm_compute; reflexivity).
  assert (P : JSON.parse ("{" ++ quoted "calories" ++ ":250}")
              = Some (JObj [("calories", JS.num 250)]))
    by (vm_compute; reflexivity).
  split; [exact S|]. split; [exact P|].
  split; [vm_compute; reflexivity|]. split; [vm_compute; reflexivity|].
  split; [exact F|].
  intros H.
  pose proof (proj2 (H (JObj [("calories", JS.num 250)]))
                (ex_intro _ _ (conj S P))) as G.
  rewrite F in G. discriminate G.
Qed.

Lemma span_json_text not_json text :
  span_json not_json (JStr text)
  = if (Str.indexOf "{" text <? 0) || (Str.lastIndexOf "}" text <? 0)
    then Throw (not_json (JStr text))
    else match JSON.parse (Str.slice text (Str.indexOf "{" text)
                             (Str.lastIndexOf "}" text + 1)) with
         | Some v => Ok v
         | None => Throw (SyntaxError "Unexpected token in JSON")
         end.
Proof. reflexivity. Qed.

Lemma image_nutrition_text response content text :
  first_choice_content response = Ok content ->
  JS.or content (JStr "") = JStr text ->
  image_nutrition (Ok response) = span_json output_not_json (JStr text).
Proof.
  intros C T. unfold image_nutrition. cbn [rbind]. rewrite C. cbn [rbind].
  now rewrite T.
Qed.

(** C7, amended: the image-based nutrition parses the span of the model's
    text that runs from the first opening brace to the last closing brace,
    whatever prose surrounds it.  It returns what that span parses to, and
    it fails, always with the one error "OpenAI Nutrition image analysis
    failed: ...", exactly when the text has no opening or no closing brace
    or the span does not parse. *)
Theorem nutrition_parses_outer_span
  (image b response content : value) (text : string) (w : world) (tr : trace)
  (Hstrip : stripBase64Prefix image = Ok b)
  (Hanswer : respond w tr (nutrition_request b) = Ok response)
  (Hcontent : first_choice_content response = Ok content)
  (Htext : JS.or content (JStr "") = JStr text) :
  let first := Str.indexOf "{" text in
  let last := Str.lastIndexOf "}" text in
  let span := Str.slice text first (last + 1) in
  let outcome := snd (getNutritionFromOpenAIImage image w tr) in
  (forall v, outcome = Ok v <-> 0 <= first /\ 0 <= last /\ JSON.parse span = Some v)
  /\ ((exists e, outcome = Throw e)
      <-> first < 0 \/ last < 0 \/ JSON.parse span = None)
  /\ (forall e, outcome = Throw e -> exists cause, e = image_analysis_failed cause).
Proof.
  cbv zeta.
  rewrite getNutritionFromOpenAIImage_eq, Hstrip, Hanswer,
    (image_nutrition_text response content text Hcontent Htext), span_json_text.
  destruct (Z.ltb_spec (Str.indexOf "{" text) 0) as [F|F];
    [|destruct (Z.ltb_spec (Str.lastIndexOf "}" text) 0) as [L|L];
      [|destruct (JSON.parse _) as [x|] eqn:P]];
    cbn [orb settle snd].
  - split; [|split].
    + intros v. split; [discriminate|lia].
    + split; eauto.
    + intros e [= <-]. eauto.
  - split; [|split].
    + intros v. split; [discriminate|lia].
    + split; eauto.
    + intros e [= <-]. eauto.
  - split; [|split].
    + intros v. split.
      * intros [= ->]. auto.
      * intros (_ & _ & [= ->]). reflexivity.
    + split.
      * intros [e H]. discriminate H.
      * intros [H|[H|H]]; [lia|lia|discriminate H].
    + intros e H. discriminate H.
  - split; [|split].
    + intros v. split; [discriminate|]. intros (_ & _ & H). discriminate H.
    + split; eauto.
    + intros e [= <-]. eauto.
Qed.

(** A model text with prose around one object. *)
Lemma nutrition_parses_outer_span_witness :
  snd (getNutritionFromOpenAIImage (JStr "QUJD") (model_world "pizza" prose_text) [])
  = Ok (record (JS.num 250) (JS.num 10) (JS.num 30) (JS.num 8)).
Proof.
  apply (proj1 (nutrition_parses_outer_span
                  (JStr "QUJD") (JStr "QUJD") (completion (JStr prose_text))
                  (JStr prose_text) prose_text (model_world "pizza" prose_text) []
                  eq_refl eq_refl eq_refl eq_refl)).
  vm_compute. repeat split; discriminate.
Defined.


(** ** Records *)


Lemma zero_filled_numeric v :
  numeric_or_absent v = true -> JS.is_number (zero_filled v) = true.
Proof.
  destruct v; try discriminate; intros _; try reflexivity.
  unfold zero_filled, JS.or. now destruct (JS.truthy (JNum x)).
Qed.

Lemma zero_filled_number x : JS.is_number (zero_filled (JNum x)) = true.
Proof. now apply zero_filled_numeric. Qed.

Lemma get_opt_truthy v k : JS.truthy (JS.get_opt v k) = true -> JS.truthy v = true.
Proof.
  intros H. destruct (JS.truthy v) eqn:T; [reflexivity|].
  now rewrite (get_opt_falsy v k T) in H.
Qed.

Lemma quantity_eq total code :
  JS.truthy total = true ->
  quantity total code = Ok (zero_filled (JS.get_opt (JS.get_opt total code) "quantity")).
Proof.
  intros T. unfold quantity, zero_filled.
  rewrite (get_truthy total code T). cbn [rbind].
  destruct (and_get_opt (JS.get_opt total code) "quantity") as (v & -> & Tv & Ev).
  cbn [rbind]. unfold JS.or. rewrite <- Tv.
  destruct (JS.truthy v) eqn:E; [|reflexivity]. now rewrite (Ev eq_refl).
Qed.

Lemma all_four_numeric_record c p cb f :
  all_four_numeric (record c p cb f)
  = JS.is_number c && JS.is_number p && JS.is_number cb && JS.is_number f.
Proof. reflexivity. Qed.











Lemma parsed_or_zero_numeric serving k v :
  parsed_or_zero serving k = Ok v -> JS.is_number v = true.
Proof.
  unfold parsed_or_zero, rbind. destruct (JS.get serving k); [|discriminate].
  destruct (JS.parseFloat _); [|discriminate].
  intros [= <-]. apply zero_filled_number.
Qed.

(** Whatever the answers, a record that tab 3 returns holds four numbers. *)
Lemma fatsecret_record_numeric answer r :
  fatsecret_record answer = Ok r -> all_four_numeric r = true.
Proof.
  unfold fatsecret_record, rbind.
  destruct answer as [data|]; [|discriminate].
  destruct (and_get data "food") as [d|]; [|discriminate].
  destruct (first_serving d) as [s|]; [|discriminate].
  destruct (negb (JS.truthy s)); [discriminate|].
  destruct (parsed_or_zero s "calories") as [c|] eqn:C; [|discriminate].
  destruct (parsed_or_zero s "protein") as [p|] eqn:P; [|discriminate].
  destruct (parsed_or_zero s "carbohydrate") as [cb|] eqn:B; [|discriminate].
  destruct (parsed_or_zero s "fat") as [f|] eqn:F; [|discriminate].
  intros [= <-]. rewrite all_four_numeric_record.
  now rewrite (parsed_or_zero_numeric _ _ _ C), (parsed_or_zero_numeric _ _ _ P),
    (parsed_or_zero_numeric _ _ _ B), (parsed_or_zero_numeric _ _ _ F).
Qed.

Lemma getNutritionFatSecret_numeric foodName w tr tr' r :
  getNutritionFatSecret foodName w tr = (tr', Ok r) -> all_four_numeric r = true.
Proof.
  rewrite getNutritionFatSecret_eq. unfold fatsecret_stages.
  destruct (fatsecret_token _) as [token|]; [|discriminate].
  destruct (fatsecret_food_id _) as [foodId|]; [|discriminate].
  destruct (fatsecret_record _) as [x|] eqn:E; [|discriminate].
  intros [= _ <-]. exact (fatsecret_record_numeric _ _ E).
Qed.

Lemma off_record_found data :
  JS.truthy (first_product data) = true ->
  off_record (Ok data) = Ok (product_record (first_product data)).
Proof.
  unfold first_product, off_record, product_record. intros T. cbn [rbind].
  pose proof (get_opt_truthy _ _ T) as T1.
  pose proof (get_opt_truthy _ _ T1) as T2.
  rewrite (and_get_truthy data "products" T2). cbn [rbind].
  rewrite (and_get_truthy _ "0" T1). cbn [rbind]. rewrite T. cbn [negb].
  rewrite (get_truthy _ "nutriments" T). cbn [rbind].
  assert (Tn : JS.truthy (JS.or (JS.get_opt (JS.get_opt (JS.get_opt data "products") "0")
                                   "nutriments") (JObj [])) = true)
    by apply or_object_truthy.
  set (n := JS.or (JS.get_opt (JS.get_opt (JS.get_opt data "products") "0")
                     "nutriments") (JObj [])) in *.
  rewrite (get_truthy n "energy-kcal" Tn). cbn [rbind].
  assert (K : (if JS.truthy (JS.get_opt n "energy-kcal")
               then Ok (JS.get_opt n "energy-kcal") else JS.get n "energy_kcal")
              = Ok (JS.or (JS.get_opt n "energy-kcal") (JS.get_opt n "energy_kcal"))).
  { unfold JS.or. destruct (JS.truthy (JS.get_opt n "energy-kcal")); [reflexivity|].
    apply (get_truthy n _ Tn). }
  rewrite K. cbn [rbind].
  now rewrite !(get_truthy n _ Tn).
Qed.

















(** ** The nutrition route *)

Lemma get_api_nutrition_eq params_tab q w tr :
  get_api_nutrition params_tab q w tr =
  if negb (JS.truthy q) then (tr, Ok missing_q)
  else match lookup_adapter (JStr params_tab) with
       | Some adapter =>
           match adapter q w tr with
           | (tr1, Ok nutrition) => (tr1, Ok (looked_up q nutrition))
           | (tr1, Throw e) => lookup_failed tr1 e
           end
       | None => (tr, Ok invalid_lookup_tab)
       end.
Proof.
  unfold get_api_nutrition, lookup_adapter, lookup_failed, looked_up, missing_q,
    invalid_lookup_tab.
  run_M. destruct (JS.truthy q); cbn [negb]; [|reflexivity].
  destruct (tab_is (JStr params_tab) 1);
    [destruct (getNutritionEdamam1 _ w tr) as [tr2 [n|e]]; reflexivity|].
  destruct (tab_is (JStr params_tab) 2);
    [destruct (getNutritionEdamam2 _ w tr) as [tr2 [n|e]]; reflexivity|].
  destruct (tab_is (JStr params_tab) 3);
    [destruct (getNutritionFatSecret _ w tr) as [tr2 [n|e]]; reflexivity|].
  destruct (tab_is (JStr params_tab) 4);
    [destruct (getNutritionOpenFoodFacts _ w tr) as [tr2 [n|e]]; reflexivity|].
  destruct (tab_is (JStr params_tab) 5);
    [destruct (getNutritionSpoonacular _ w tr) as [tr2 [n|e]]; reflexivity|].
  destruct (tab_is (JStr params_tab) 6);
    [destruct (getNutritionFromOpenAIByName _ w tr) as [tr2 [n|e]]; reflexivity|].
  reflexivity.
Qed.

Lemma lookup_adapter_out_of_range tab :
  tab_in_range tab = false -> lookup_adapter tab = None.
Proof.
  unfold tab_in_range, lookup_adapter. intros H.
  repeat (apply orb_false_iff in H; destruct H as [H ?]).
  repeat match goal with E : tab_is tab _ = false |- _ => rewrite E; clear E end.
  reflexivity.
Qed.

(** X1: The nutrition route checks its input before it looks anything up: a
    missing or empty [q] is answered 400 whatever the tab, and a tab whose
    number is outside 1 to 6 is answered 400; in both cases no request is
    sent and nothing is written to the console. *)
Theorem nutrition_route_rejects_before_lookup
  (params_tab : string) (q : value) (w : world) (tr : trace) :
  (JS.truthy q = false ->
   get_api_nutrition params_tab q w tr = (tr, Ok missing_q))
  /\ (JS.truthy q = true ->
      tab_in_range (JStr params_tab) = false ->
      get_api_nutrition params_tab q w tr = (tr, Ok invalid_lookup_tab)).
Proof.
  rewrite get_api_nutrition_eq. split.
  - now intros ->.
  - intros -> H. now rewrite (lookup_adapter_out_of_range _ H).
Qed.

(** No food name at tab 1, and a food name at tab 9, in a world that would
    answer. *)
Lemma nutrition_route_rejects_before_lookup_witness :
  run (get_api_nutrition "1" (JStr "")) empty_world = ([], Ok missing_q)
  /\ run (get_api_nutrition "9" (JStr "pizza")) empty_world = ([], Ok invalid_lookup_tab).
Proof.
  split.
  - exact (proj1 (nutrition_route_rejects_before_lookup "1" (JStr "") empty_world [])
             eq_refl).
  - exact (proj2 (nutrition_route_rejects_before_lookup "9" (JStr "pizza") empty_world [])
             eq_refl eq_refl).
Defined.

(** ** Failures *)

Lemma settle_fails_as {A : Type} label detail wrap (out : trace * result A) :
  fails_as label wrap (settle label detail wrap out).
Proof.
  intros tr' e. destruct out as [tr0 [a|cause]]; cbn [settle]; [discriminate|].
  intros [= <- <-]. now exists tr0, cause, (detail cause).
Qed.

Lemma settle_throws {A : Type} label detail wrap (out : trace * result A) tr' e :
  settle label detail wrap out = (tr', Throw e) -> exists cause, e = wrap cause.
Proof.
  intros H. destruct (settle_fails_as label detail wrap out tr' e H) as (_ & cause & _ & _ & ->).
  now exists cause.
Qed.



(** ** What the nutrition route answers *)

(** X3: With a food name and a tab from 1 to 6 the nutrition route is its
    adapter with an envelope: the requests sent are the adapter's; the
    record the adapter returns is answered 200 next to the food name as it
    was given; an error the adapter throws is written to the console and
    answered 500 with the error's message. *)
Theorem nutrition_route_answers_with_lookup
  (params_tab : string) (q : value) (w : world) (tr : trace) (adapter : value -> M value)
  (Hq : JS.truthy q = true)
  (Hadapter : lookup_adapter (JStr params_tab) = Some adapter) :
  (forall tr1 nutrition,
      adapter q w tr = (tr1, Ok nutrition) ->
      get_api_nutrition params_tab q w tr = (tr1, Ok (looked_up q nutrition)))
  /\ (forall tr1 e,
        adapter q w tr = (tr1, Throw e) ->
        get_api_nutrition params_tab q w tr = lookup_failed tr1 e)
  /\ calls (fst (get_api_nutrition params_tab q w tr)) = calls (fst (adapter q w tr)).
Proof.
  rewrite get_api_nutrition_eq, Hq, Hadapter. cbn [negb].
  destruct (adapter q w tr) as [tr1 [nutrition|e]]; repeat split.
  - now intros ? ? [= <- <-].
  - discriminate.
  - discriminate.
  - now intros ? ? [= <- <-].
  - unfold lookup_failed. cbn [fst]. rewrite calls_app. cbn [calls]. now rewrite app_nil_r.
Qed.

(** Tab 2 for [pizza], answered with one hint. *)
Lemma nutrition_route_answers_with_lookup_witness :
  get_api_nutrition "2" (JStr "pizza") (answering (fun _ => Ok hint_only)) []
  = ([Called (edamam2_request sample_env (JStr "pizza"))],
     Ok (looked_up (JStr "pizza") (record (JS.num 266) (JS.num 11) (JS.num 33) (JS.num 0)))).
Proof.
  exact (proj1 (nutrition_route_answers_with_lookup "2" (JStr "pizza")
                  (answering (fun _ => Ok hint_only)) [] getNutritionEdamam2
                  eq_refl eq_refl)
           _ _ eq_refl).
Defined.

Lemma message_kept (text fallback : string) :
  text <> "" -> JS.or (JStr text) (JStr fallback) = JStr text.
Proof.
  intros H. unfold JS.or. cbn [JS.truthy].
  destruct (String.eqb_spec text ""); [contradiction|reflexivity].
Qed.

Lemma spoonacular_failed_cases cause :
  (exists detail, spoonacular_failed cause = Error ("Spoonacular failed: " ++ detail))
  \/ (spoonacular_failed cause = JS.cannot_convert
      /\ JS.convertible (JS.get_opt (response_data cause) "message") = false).
Proof.
  unfold spoonacular_failed, JS.ToString.
  destruct (JS.truthy _); [|eauto].
  destruct (JS.convertible _); eauto.
Qed.

Lemma adapter_error_text n cause :
  1 <= n <= 6 -> adapter_text n (message (adapter_error n cause)).
Proof.
  intros Hn. unfold adapter_text, adapter_error.
  assert (C : n = 1 \/ n = 2 \/ n = 3 \/ n = 4 \/ n = 5 \/ n = 6) by lia.
  destruct C as [->|[->|[->|[->|[->| ->]]]]]; cbn [Z.eqb Pos.eqb message Error].
  - left. split; reflexivity.
  - right; left. split; reflexivity.
  - do 2 right; left. split; reflexivity.
  - do 3 right; left. split; reflexivity.
  - do 4 right; left. split; [reflexivity|].
    destruct (spoonacular_failed_cases cause) as [[detail ->]|[-> _]].
    + left. now exists detail.
    + now right.
  - do 5 right. split; reflexivity.
Qed.

Lemma adapter_text_kept n text :
  adapter_text n text -> text <> "" /\ text <> "Nutrition lookup failed".
Proof.
  intros [[_ ->]|[[_ ->]|[[_ ->]|[[_ ->]|[[_ [[detail ->]| ->]]|[_ ->]]]]]];
    split; discriminate.
Qed.

(** X4: A 500 of the nutrition route always comes from the adapter of a tab
    from 1 to 6 asked for a food name, and its error text is what that
    adapter threw: the adapter's fixed message for tabs 1 to 4 and 6,
    whatever the underlying cause; for tab 5 either "Spoonacular failed: "
    followed by a detail, or - when the body of the upstream rejection
    carries a message that cannot be converted to text - the message of
    the TypeError that escapes the adapter's [catch].  The route's fallback
    text is never sent. *)
Theorem nutrition_route_reports_adapter_error
  (params_tab : string) (q : value) (w : world) (tr tr' : trace) (resp : response)
  (Hrun : get_api_nutrition params_tab q w tr = (tr', Ok resp))
  (Hfailed : status resp = 500) :
  JS.truthy q = true
  /\ exists n text,
       1 <= n <= 6
       /\ tab_is (JStr params_tab) n = true
       /\ json resp = error_body (JStr text)
       /\ adapter_text n text
       /\ text <> "Nutrition lookup failed".
Proof.
  rewrite get_api_nutrition_eq in Hrun.
  destruct (JS.truthy q); cbn [negb] in Hrun;
    [|injection Hrun as _ <-; discriminate Hfailed].
  split; [reflexivity|]. unfold lookup_adapter in Hrun.
  assert (R : forall n tr1 e,
             1 <= n <= 6 -> tab_is (JStr params_tab) n = true ->
             (exists cause, e = adapter_error n cause) ->
             (tr', Ok resp) = lookup_failed tr1 e ->
             exists n text,
               1 <= n <= 6 /\ tab_is (JStr params_tab) n = true
               /\ json resp = error_body (JStr text)
               /\ adapter_text n text
               /\ text <> "Nutrition lookup failed").
  { intros n tr1 e Hn T [cause ->] [= _ ->].
    pose proof (adapter_error_text n cause Hn) as A.
    destruct (adapter_text_kept _ _ A) as [N F].
    exists n, (message (adapter_error n cause)).
    repeat split; try lia; try assumption.
    cbn [json]. now rewrite (message_kept _ _ N). }
  destruct (tab_is (JStr params_tab) 1) eqn:T1.
  { destruct (getNutritionEdamam1 q w tr) as [tr1 [x|e]] eqn:E;
      [injection Hrun as _ <-; discriminate Hfailed|].
    rewrite getNutritionEdamam1_eq in E. apply settle_throws in E.
    apply (R 1 tr1 e); [lia|exact T1|exact E|now symmetry]. }
  destruct (tab_is (JStr params_tab) 2) eqn:T2.
  { destruct (getNutritionEdamam2 q w tr) as [tr1 [x|e]] eqn:E;
      [injection Hrun as _ <-; discriminate Hfailed|].
    rewrite getNutritionEdamam2_eq in E. apply settle_throws in E.
    apply (R 2 tr1 e); [lia|exact T2|exact E|now symmetry]. }
  destruct (tab_is (JStr params_tab) 3) eqn:T3.
  { destruct (getNutritionFatSecret q w tr) as [tr1 [x|e]] eqn:E;
      [injection Hrun as _ <-; discriminate Hfailed|].
    rewrite getNutritionFatSecret_eq in E. apply settle_throws in E.
    apply (R 3 tr1 e); [lia|exact T3|exact E|now symmetry]. }
  destruct (tab_is (JStr params_tab) 4) eqn:T4.
  { destruct (getNutritionOpenFoodFacts q w tr) as [tr1 [x|e]] eqn:E;
      [injection Hrun as _ <-; discriminate Hfailed|].
    rewrite getNutritionOpenFoodFacts_eq in E. apply settle_throws in E.
    apply (R 4 tr1 e); [lia|exact T4|exact E|now symmetry]. }
  destruct (tab_is (JStr params_tab) 5) eqn:T5.
  { destruct (getNutritionSpoonacular q w tr) as [tr1 [x|e]] eqn:E;
      [injection Hrun as _ <-; discriminate Hfailed|].
    rewrite getNutritionSpoonacular_eq in E. apply settle_throws in E.
    apply (R 5 tr1 e); [lia|exact T5|exact E|now symmetry]. }
  destruct (tab_is (JStr params_tab) 6) eqn:T6.
  { destruct (getNutritionFromOpenAIByName q w tr) as [tr1 [x|e]] eqn:E;
      [injection Hrun as _ <-; discriminate Hfailed|].
    rewrite getNutritionFromOpenAIByName_eq in E. apply settle_throws in E.
    apply (R 6 tr1 e); [lia|exact T6|exact E|now symmetry]. }
  injection Hrun as _ <-. discriminate Hfailed.
Qed.

(** Tab 5 rejected with a message that cannot be converted. *)
Lemma nutrition_route_reports_adapter_error_witness :
  JS.truthy (JStr "pizza") = true
  /\ exists n text,
       1 <= n <= 6
       /\ tab_is (JStr "5") n = true
       /\ json (mkResponse 500
                  (error_body (JStr "Cannot convert object to primitive value")))
          = error_body (JStr text)
       /\ adapter_text n text
       /\ text <> "Nutrition lookup failed".
Proof.
  apply (nutrition_route_reports_adapter_error "5" (JStr "pizza")
           (answering (fun _ => Throw unreadable_refusal)) []
           (fst (get_api_nutrition "5" (JStr "pizza")
                   (answering (fun _ => Throw unreadable_refusal)) []))
           (mkResponse 500
              (error_body (JStr "Cannot convert object to primitive value"))));
    vm_compute; reflexivity.
Defined.

(** ** Every request is answered *)

Lemma error_answer_caught (code : Z) (e : exn) (fallback : string) :
  fallback <> "" ->
  error_answer (mkResponse code (error_body (JS.or (JStr (message e)) (JStr fallback)))).
Proof.
  intros F. unfold error_answer, JS.or. cbn [json JS.truthy].
  destruct (String.eqb_spec (message e) "") as [E|E]; cbn [negb]; eauto.
Qed.

Lemma caught_is_well_formed (e : exn) (fallback : string) :
  fallback <> "" ->
  well_formed_answer
    (mkResponse 500 (error_body (JS.or (JStr (message e)) (JStr fallback)))).
Proof.
  intros F. right. split; [now right|now apply error_answer_caught].
Qed.

Lemma rejected_is_well_formed (text : string) :
  text <> "" -> well_formed_answer (mkResponse 400 (error_body (JStr text))).
Proof.
  intros F. right. split; [now left|]. now exists text.
Qed.

Ltac answered :=
  do 2 eexists; split; [reflexivity|];
  first [ now left
        | apply caught_is_well_formed; discriminate
        | apply rejected_is_well_formed; discriminate ].

(** X5: Every route answers every request, in every world: the handler never
    lets an error escape, the status is 200, 400 or 500, and an answer other
    than 200 carries [{ error: text }] with a text that is not empty. *)
Theorem routes_always_answer
  (req_file : option upload) (params_tab : string) (q body : value)
  (w : world) (tr : trace) :
  (exists tr' resp,
      post_api_openai_vision req_file w tr = (tr', Ok resp) /\ well_formed_answer resp)
  /\ (exists tr' resp,
        get_api_nutrition params_tab q w tr = (tr', Ok resp) /\ well_formed_answer resp)
  /\ (exists tr' resp,
        post_api_analyze_image body w tr = (tr', Ok resp) /\ well_formed_answer resp).
Proof.
  split; [|split].
  - unfold post_api_openai_vision. run_M. destruct req_file as [file|]; [|answered].
    destruct (analyzeWithOpenAI _ w tr) as [tr1 [name|e]]; answered.
  - rewrite get_api_nutrition_eq. unfold lookup_failed, looked_up, missing_q, invalid_lookup_tab.
    destruct (JS.truthy q); cbn [negb]; [|answered].
    destruct (lookup_adapter _) as [adapter|]; [|answered].
    destruct (adapter q w tr) as [tr1 [n|e]]; answered.
  - unfold post_api_analyze_image. run_M.
    destruct (JS.get body "image") as [image|e]; [|answered].
    destruct (JS.get body "tab") as [tab|e]; [|answered].
    destruct (negb (JS.truthy image) || negb (JS.truthy tab)); [answered|].
    destruct (analyzeWithOpenAI image w tr) as [tr1 [name|e]]; [|answered].
    destruct (JS.ToNumber tab) as [x|e]; [|answered].
    destruct (is_tab x 6).
    + destruct (getNutritionFromOpenAIImage image w tr1) as [tr2 [parsed|e]]; [|answered].
      destruct (default_property _ _ _); answered.
    + destruct (is_tab x 1);
        [destruct (getNutritionEdamam1 _ w tr1) as [tr2 [n|e]]; answered|].
      destruct (is_tab x 2);
        [destruct (getNutritionEdamam2 _ w tr1) as [tr2 [n|e]]; answered|].
      destruct (is_tab x 3);
        [destruct (getNutritionFatSecret _ w tr1) as [tr2 [n|e]]; answered|].
      destruct (is_tab x 4);
        [destruct (getNutritionOpenFoodFacts _ w tr1) as [tr2 [n|e]]; answered|].
      destruct (is_tab x 5);
        [destruct (getNutritionSpoonacular _ w tr1) as [tr2 [n|e]]; answered|].
      answered.
Qed.

(** ** What the analyze route refuses before recognition *)

Lemma strip_no_indexOf image :
  JS.truthy image = true -> no_indexOf image = true ->
  exists e, stripBase64Prefix image = Throw e.
Proof.
  intros T N. unfold stripBase64Prefix. rewrite T. cbn [negb].
  destruct image; try discriminate N; cbn [JS.call_indexOf JS.no_method rbind]; eauto.
Qed.

(** X6: The analyze route sends nothing and recognizes nothing in three
    cases.  When [image] or [tab] is missing or falsy - the number 0 as a
    tab included - it answers 400 and writes nothing to the console.  When
    [image] is a number, a boolean or an object it answers 500, the
    failure being the recognition function's, before any request.  When
    the body is null or undefined, reading [image] from it throws and the
    answer is 500. *)
Theorem analyze_refuses_before_recognition (body : value) (w : world) (tr : trace) :
  (forall image tab,
      JS.get body "image" = Ok image ->
      JS.get body "tab" = Ok tab ->
      JS.truthy image && JS.truthy tab = false ->
      post_api_analyze_image body w tr = (tr, Ok missing_image_or_tab))
  /\ (forall image tab,
        JS.get body "image" = Ok image ->
        JS.get body "tab" = Ok tab ->
        JS.truthy image && JS.truthy tab = true ->
        no_indexOf image = true ->
        exists cause,
          stripBase64Prefix image = Throw cause
          /\ post_api_analyze_image body w tr
             = analyze_failed
                 (tr ++ [ConsoleError "OpenAI Vision error:" (message_or_error cause)])
                 (vision_failed cause)
          /\ calls (fst (post_api_analyze_image body w tr)) = calls tr)
  /\ (forall e,
        JS.get body "image" = Throw e ->
        post_api_analyze_image body w tr = analyze_failed tr e).
Proof.
  split; [|split].
  - intros image tab Hi Ht F. unfold post_api_analyze_image. run_M. rewrite Hi, Ht.
    apply andb_false_iff in F.
    destruct F as [-> | ->]; cbn [negb orb]; [|rewrite orb_true_r]; reflexivity.
  - intros image tab Hi Ht T N. apply andb_true_iff in T. destruct T as [Ti Tt].
    destruct (strip_no_indexOf image Ti N) as [cause S]. exists cause.
    assert (E : post_api_analyze_image body w tr
                = analyze_failed
                    (tr ++ [ConsoleError "OpenAI Vision error:" (message_or_error cause)])
                    (vision_failed cause)).
    { rewrite (post_api_analyze_image_eq body w tr image tab Hi Ht Ti Tt),
        analyzeWithOpenAI_eq, S. reflexivity. }
    repeat split; [exact S|exact E|].
    rewrite E, analyze_failed_calls, calls_app. cbn [calls]. now rewrite app_nil_r.
  - intros e He. unfold post_api_analyze_image. run_M. rewrite He. reflexivity.
Qed.

(** An image with the tab 0; the number 42 sent as the image. *)
Lemma analyze_refuses_before_recognition_witness :
  post_api_analyze_image (request_body (JStr "QUJD") (JS.num 0))
    (model_world "pizza" three_keys_text) []
  = ([], Ok missing_image_or_tab)
  /\ exists cause,
       stripBase64Prefix (JS.num 42) = Throw cause
       /\ post_api_analyze_image (request_body (JS.num 42) (JS.num 1))
            (model_world "pizza" three_keys_text) []
          = analyze_failed
              ([] ++ [ConsoleError "OpenAI Vision error:" (message_or_error cause)])
              (vision_failed cause)
       /\ calls (fst (post_api_analyze_image (request_body (JS.num 42) (JS.num 1))
                        (model_world "pizza" three_keys_text) [])) = calls [].
Proof.
  split.
  - exact (proj1 (analyze_refuses_before_recognition
                    (request_body (JStr "QUJD") (JS.num 0))
                    (model_world "pizza" three_keys_text) [])
             (JStr "QUJD") (JS.num 0) eq_refl eq_refl eq_refl).
  - exact (proj1 (proj2 (analyze_refuses_before_recognition
                           (request_body (JS.num 42) (JS.num 1))
                           (model_world "pizza" three_keys_text) []))
             (JS.num 42) (JS.num 1) eq_refl eq_refl eq_refl eq_refl).
Defined.

(** ** The tab is read as a number *)

Lemma tab_is_ToNumber tab tab' n :
  JS.ToNumber tab = JS.ToNumber tab' -> tab_is tab n = tab_is tab' n.
Proof. unfold tab_is. now intros ->. Qed.

(** X7: The analyze route reads a tab that is present through [Number(tab)]
    alone: two bodies with the same image whose tabs are both truthy and
    on which [Number] ends alike - with the same number, or by throwing
    the same TypeError, as it does on an object with a [toString] key of
    its own - run alike, request for request and answer for answer.  So the
    text 3 and the number 3 select the same adapter, and [true] selects
    tab 1. *)
Theorem analyze_reads_tab_as_number
  (body body' image tab tab' : value) (w : world) (tr : trace)
  (Himage : JS.get body "image" = Ok image)
  (Htab : JS.get body "tab" = Ok tab)
  (Himage' : JS.get body' "image" = Ok image)
  (Htab' : JS.get body' "tab" = Ok tab')
  (Hpresent : JS.truthy tab = true)
  (Hpresent' : JS.truthy tab' = true)
  (Hnumber : JS.ToNumber tab = JS.ToNumber tab') :
  post_api_analyze_image body w tr = post_api_analyze_image body' w tr.
Proof.
  destruct (JS.truthy image) eqn:Ti.
  - rewrite (post_api_analyze_image_eq body w tr image tab Himage Htab Ti Hpresent),
      (post_api_analyze_image_eq body' w tr image tab' Himage' Htab' Ti Hpresent').
    unfold switch_adapter.
    now rewrite !(tab_is_ToNumber tab tab' _ Hnumber), Hnumber.
  - unfold post_api_analyze_image. run_M.
    rewrite Himage, Htab, Himage', Htab', Ti. reflexivity.
Qed.

(** The tab given as the text 3 and as the number 3; as [true] and as
    the number 1; as an object that cannot be converted and as a list
    holding such an object. *)
Lemma analyze_reads_tab_as_number_witness :
  post_api_analyze_image (request_body (JStr "QUJD") (JStr " 3 ")) (model_world "pizza" three_keys_text) []
  = post_api_analyze_image (request_body (JStr "QUJD") (JS.num 3)) (model_world "pizza" three_keys_text) []
  /\ post_api_analyze_image (request_body (JStr "QUJD") (JBool true)) (model_world "pizza" three_keys_text) []
     = post_api_analyze_image (request_body (JStr "QUJD") (JS.num 1)) (model_world "pizza" three_keys_text) []
  /\ post_api_analyze_image
       (request_body (JStr "QUJD") (JObj [("toString", JS.num 1)]))
       (model_world "pizza" three_keys_text) []
     = post_api_analyze_image
         (request_body (JStr "QUJD") (JArr [JObj [("toString", JNull)]]))
         (model_world "pizza" three_keys_text) [].
Proof.
  split; [|split].
  3:{ exact (analyze_reads_tab_as_number
               (request_body (JStr "QUJD") (JObj [("toString", JS.num 1)]))
               (request_body (JStr "QUJD") (JArr [JObj [("toString", JNull)]]))
               (JStr "QUJD") (JObj [("toString", JS.num 1)])
               (JArr [JObj [("toString", JNull)]])
               (model_world "pizza" three_keys_text) []
               eq_refl eq_refl eq_refl eq_refl eq_refl eq_refl eq_refl). }
  - exact (analyze_reads_tab_as_number
             (request_body (JStr "QUJD") (JStr " 3 ")) (request_body (JStr "QUJD") (JS.num 3))
             (JStr "QUJD") (JStr " 3 ") (JS.num 3) (model_world "pizza" three_keys_text) []
             eq_refl eq_refl eq_refl eq_refl eq_refl eq_refl eq_refl).
  - exact (analyze_reads_tab_as_number
             (request_body (JStr "QUJD") (JBool true)) (request_body (JStr "QUJD") (JS.num 1))
             (JStr "QUJD") (JBool true) (JS.num 1) (model_world "pizza" three_keys_text) []
             eq_refl eq_refl eq_refl eq_refl eq_refl eq_refl eq_refl).
Defined.

(** ** Data URLs *)

Lemma digit_base64 z : base64_char (Base64.digit z) = true.
Proof.
  unfold Base64.digit. generalize (Z.to_nat z). intros n.
  do 64 (destruct n as [|n]; [reflexivity|]). reflexivity.
Qed.

Lemma bytes_by_three (P : list Byte.byte -> Prop) :
  P [] -> (forall x, P [x]) -> (forall x y, P [x; y]) ->
  (forall x y z rest, P rest -> P (x :: y :: z :: rest)) ->
  forall bytes, P bytes.
Proof.
  intros H0 H1 H2 H3 bytes.
  assert (G : P bytes /\ (forall x, P (x :: bytes)) /\ (forall x y, P (x :: y :: bytes))).
  { induction bytes as [|b bytes (IH0 & IH1 & IH2)].
    - auto.
    - repeat split; auto. }
  exact (proj1 G).
Qed.

Lemma encode_bare bytes : bare_base64 (Base64.encode bytes) = true.
Proof.
  induction bytes using bytes_by_three;
    cbn [Base64.encode bare_base64]; rewrite ?digit_base64; cbn [andb];
    try reflexivity; assumption.
Qed.

Lemma encode_length bytes :
  Str.len (Base64.encode bytes) = 4 * ((Z.of_nat (List.length bytes) + 2) / 3).
Proof.
  unfold Str.len. induction bytes as [| x | x y | x y z rest IH] using bytes_by_three;
    try reflexivity.
  cbn [Base64.encode String.length List.length].
  rewrite !Nat2Z.inj_succ.
  replace (Z.succ (Z.succ (Z.succ (Z.of_nat (List.length rest)))) + 2)
    with (Z.of_nat (List.length rest) + 2 + 1 * 3) by lia.
  rewrite Z.div_add by lia. lia.
Qed.

(** X8: Encoding and stripping are inverse: the data URL built from a buffer,
    with any media type or with the default one, is stripped to the base64
    text of the buffer, and stripping that text again changes nothing.  The
    text holds base64 characters only, four for every three bytes, the last
    group padded. *)
Theorem data_url_round_trip (bytes : list Byte.byte) (mime : string)
  (Hmime : comma_free mime = true) :
  stripBase64Prefix (JStr (bufferToDataUrl bytes (JStr mime)))
  = Ok (JStr (Base64.encode bytes))
  /\ stripBase64Prefix (JStr (bufferToDataUrl bytes JUndefined))
     = Ok (JStr (Base64.encode bytes))
  /\ stripBase64Prefix (JStr (Base64.encode bytes)) = Ok (JStr (Base64.encode bytes))
  /\ bare_base64 (Base64.encode bytes) = true
  /\ Str.len (Base64.encode bytes) = 4 * ((Z.of_nat (List.length bytes) + 2) / 3).
Proof.
  unfold bufferToDataUrl. cbn [JS.ToString].
  repeat split.
  - apply (strip_data_url mime _ Hmime).
  - apply (strip_data_url "image/jpeg" _ eq_refl).
  - apply strip_bare, encode_bare.
  - apply encode_bare.
  - apply encode_length.
Qed.

(** The two bytes [AB] as a PNG. *)
Lemma data_url_round_trip_witness :
  stripBase64Prefix (JStr "data:image/png;base64,QUI=") = Ok (JStr "QUI=")
  /\ stripBase64Prefix (JStr "QUI=") = Ok (JStr "QUI=").
Proof.
  pose proof (data_url_round_trip [Byte.x41; Byte.x42] "image/png" eq_refl) as H.
  split; [exact (proj1 H) | exact (proj1 (proj2 (proj2 H)))].
Defined.

(** ** What a lookup costs *)



(** ** Tab 1 accepts every answer *)

Lemma or_object_get_opt data k :
  JS.get_opt (JStr "") k = JUndefined ->
  JS.get_opt (JS.or data (JObj [])) k = JS.get_opt data k.
Proof.
  intros Hk. unfold JS.or. destruct (JS.truthy data) eqn:T; [reflexivity|].
  destruct data as [| |[|]|x|s| |]; try discriminate T; try reflexivity.
  cbn [JS.truthy] in T. apply negb_false_iff, String.eqb_eq in T. subst s.
  now rewrite Hk.
Qed.

Lemma edamam1_record_any data :
  edamam1_record (Ok data) = Ok (edamam1_expected data).
Proof.
  unfold edamam1_record, edamam1_expected. cbn [rbind].
  rewrite !(get_truthy _ _ (or_object_truthy data)). cbn [rbind].
  rewrite !(quantity_eq _ _ (or_object_truthy _)). cbn [rbind].
  rewrite !(or_object_get_opt data) by reflexivity.
  rewrite !(or_object_get_opt (JS.get_opt data "totalNutrients")) by reflexivity.
  reflexivity.
Qed.

(** X10: The adapter of tab 1 has no failure of its own: whatever body the
    nutrition-analysis service answers - an object of any shape, a text, a
    list, null - it returns a record, built from what it finds and zero
    elsewhere.  It fails exactly when the request itself is rejected. *)
Theorem edamam1_fails_only_when_rejected (foodName : value) (w : world) (tr : trace) :
  let r := edamam1_request (config w) foodName in
  (forall data,
      respond w tr r = Ok data ->
      getNutritionEdamam1 foodName w tr
      = ((tr ++ [Called r])%list, Ok (edamam1_expected data)))
  /\ (forall e,
        respond w tr r = Throw e ->
        getNutritionEdamam1 foodName w tr
        = ((tr ++ [Called r;
                   ConsoleError "Edamam Nutrition error:" (response_or_message_or_error e)])%list,
           Throw (Error "Edamam Nutrition failed")))
  /\ ((exists e, snd (getNutritionEdamam1 foodName w tr) = Throw e)
      <-> (exists e, respond w tr r = Throw e)).
Proof.
  cbv zeta. rewrite getNutritionEdamam1_eq.
  destruct (respond w tr _) as [data|e].
  - rewrite edamam1_record_any. cbn [settle snd].
    repeat split; try discriminate.
    + now intros ? [= <-].
    + intros [e H]. discriminate H.
    + intros [e H]. discriminate H.
  - cbn [edamam1_record rbind settle snd]. rewrite <- app_assoc.
    repeat split; try discriminate; eauto.
    now intros ? [= <-].
Qed.

(** A text where an object was expected; a refused connection. *)
Lemma edamam1_fails_only_when_rejected_witness :
  getNutritionEdamam1 (JStr "pizza") (answering (fun _ => Ok (JStr "<html>"))) []
  = ([Called (edamam1_request sample_env (JStr "pizza"))], Ok zero_record)
  /\ getNutritionEdamam1 (JStr "pizza") offline []
     = ([Called (edamam1_request sample_env (JStr "pizza"));
         ConsoleError "Edamam Nutrition error:" (LogValue (JStr "connect ECONNREFUSED"))],
        Throw (Error "Edamam Nutrition failed")).
Proof.
  split.
  - exact (proj1 (edamam1_fails_only_when_rejected (JStr "pizza")
                    (answering (fun _ => Ok (JStr "<html>"))) [])
             (JStr "<html>") eq_refl).
  - exact (proj1 (proj2 (edamam1_fails_only_when_rejected (JStr "pizza") offline []))
             refused eq_refl).
Defined.

(** ** Tab 3 never answers NaN *)

Lemma parsed_or_zero_real serving k v :
  parsed_or_zero serving k = Ok v -> real_number v = true.
Proof.
  unfold parsed_or_zero. destruct (JS.get serving k) as [x|]; [|discriminate].
  cbn [rbind]. destruct (JS.parseFloat x) as [n|]; [|discriminate].
  cbn [rbind]. intros [= <-]. unfold JS.or. cbn [JS.truthy].
  destruct (Num.truthy n) eqn:T; [|reflexivity].
  destruct n; try reflexivity. discriminate T.
Qed.

Lemma fatsecret_record_real answer r :
  fatsecret_record answer = Ok r ->
  forallb (fun k => real_number (JS.get_opt r k)) ["calories"; "protein"; "carbs"; "fat"]
  = true.
Proof.
  unfold fatsecret_record.
  destruct answer as [data|]; [|discriminate]. cbn [rbind].
  destruct (and_get data "food") as [foodDetail|]; [|discriminate]. cbn [rbind].
  destruct (first_serving foodDetail) as [serving|]; [|discriminate]. cbn [rbind].
  destruct (negb (JS.truthy serving)); [discriminate|].
  destruct (parsed_or_zero serving "calories") as [c|] eqn:C; [|discriminate].
  destruct (parsed_or_zero serving "protein") as [p|] eqn:P; [|discriminate].
  destruct (parsed_or_zero serving "carbohydrate") as [b|] eqn:B; [|discriminate].
  destruct (parsed_or_zero serving "fat") as [f|] eqn:F; [|discriminate].
  cbn [rbind]. intros [= <-].
  cbn. now rewrite (parsed_or_zero_real _ _ _ C), (parsed_or_zero_real _ _ _ P),
    (parsed_or_zero_real _ _ _ B), (parsed_or_zero_real _ _ _ F).
Qed.

(** X11: Whenever the adapter of tab 3 returns, whatever the three answers
    were, each of the four fields of its record is a number other than NaN:
    a serving field that is missing, empty or not numeric counts as 0. *)
Theorem fatsecret_fields_are_never_nan
  (foodName : value) (w : world) (tr tr' : trace) (r : value)
  (Hrun : getNutritionFatSecret foodName w tr = (tr', Ok r)) :
  real_number (JS.get_opt r "calories") = true
  /\ real_number (JS.get_opt r "protein") = true
  /\ real_number (JS.get_opt r "carbs") = true
  /\ real_number (JS.get_opt r "fat") = true.
Proof.
  rewrite getNutritionFatSecret_eq in Hrun. unfold fatsecret_stages in Hrun.
  destruct (fatsecret_token _) as [token|]; [|discriminate].
  destruct (fatsecret_food_id _) as [foodId|]; [|discriminate].
  destruct (fatsecret_record _) as [x|] eqn:E; [|discriminate].
  injection Hrun as _ <-. pose proof (fatsecret_record_real _ _ E) as H.
  cbn [forallb] in H.
  repeat (apply andb_true_iff in H; destruct H as [? H]). auto.
Qed.

(** A first serving with calories 266, protein n/a, carbohydrate 33.5 and
    no fat. *)
Lemma fatsecret_fields_are_never_nan_witness :
  snd (getNutritionFatSecret (JStr "pizza") (answering serving_answers) [])
  = Ok (record (JS.num 266) (JS.num 0) (JNum (Num.of_string "33.5")) (JS.num 0))
  /\ real_number (JS.get_opt (record (JS.num 266) (JS.num 0)
                                (JNum (Num.of_string "33.5")) (JS.num 0)) "protein") = true.
Proof.
  split; [vm_compute; reflexivity|].
  refine (proj1 (proj2 (fatsecret_fields_are_never_nan (JStr "pizza")
                          (answering serving_answers) []
                          (fst (getNutritionFatSecret (JStr "pizza")
                                  (answering serving_answers) []))
                          (record (JS.num 266) (JS.num 0)
                             (JNum (Num.of_string "33.5")) (JS.num 0)) _))).
  vm_compute. reflexivity.
Defined.

(** ** The lookup by name *)

Lemma name_nutrition_object answer v :
  name_nutrition answer = Ok v -> is_object v = true.
Proof.
  unfold name_nutrition, rbind.
  destruct answer as [response|]; [|discriminate].
  destruct (first_choice_content response); [|discriminate].
  apply span_json_object.
Qed.



(** X13: What either model adapter returns is a JSON object: the span it
    parses starts with an opening brace, so a text that holds a list, a
    number or a quoted text is never returned as such, and the [nutrition]
    of an answer of tab 6 is never null, a list or a bare value. *)
Theorem model_adapters_return_objects
  (image foodName : value) (w : world) (tr : trace) :
  (forall tr' v,
      getNutritionFromOpenAIImage image w tr = (tr', Ok v) -> is_object v = true)
  /\ (forall tr' v,
        getNutritionFromOpenAIByName foodName w tr = (tr', Ok v) -> is_object v = true).
Proof.
  split; intros tr' v.
  - rewrite getNutritionFromOpenAIImage_eq.
    destruct (stripBase64Prefix image) as [b|e]; cbn [settle]; [|discriminate].
    destruct (image_nutrition _) as [x|e] eqn:E; [|discriminate].
    intros [= _ <-]. exact (image_nutrition_object _ _ E).
  - rewrite getNutritionFromOpenAIByName_eq.
    destruct (name_nutrition _) as [x|e] eqn:E; cbn [settle]; [|discriminate].
    intros [= _ <-]. exact (name_nutrition_object _ _ E).
Qed.

(** The by-name lookup on a text with prose around one object. *)
Lemma model_adapters_return_objects_witness :
  is_object (record (JS.num 250) (JS.num 10) (JS.num 30) (JS.num 8)) = true.
Proof.
  refine (proj2 (model_adapters_return_objects JUndefined (JStr "pizza")
                   (model_world "pizza" prose_text) [])
            (fst (getNutritionFromOpenAIByName (JStr "pizza")
                    (model_world "pizza" prose_text) []))
            _ _).
  vm_compute. reflexivity.
Defined.

(** ** Tab 6 of the analyze route *)

Lemma tab_is_converts tab n :
  tab_is tab n = true -> exists x, JS.ToNumber tab = Ok x.
Proof. unfold tab_is. destruct (JS.ToNumber tab); [eauto|discriminate]. Qed.

Lemma analyzeWithOpenAI_stripped image w tr tr1 name :
  analyzeWithOpenAI image w tr = (tr1, Ok name) ->
  exists b, stripBase64Prefix image = Ok b
            /\ tr1 = (tr ++ [Called (recognition_request b)])%list
            /\ recognized (respond w tr (recognition_request b)) = Ok name.
Proof.
  rewrite analyzeWithOpenAI_eq.
  destruct (stripBase64Prefix image) as [b|e]; cbn [settle]; [|discriminate].
  destruct (recognized _) as [x|e] eqn:R; [|discriminate].
  intros [= <- <-]. now exists b.
Qed.

(** X14: On tab 6, once recognition has returned a name, the image goes to the
    model a second time: the requests of the run are the recognition
    request and the nutrition request, in that order and whatever the
    second answer is; both carry the same image URL, and no other service
    is called. *)
Theorem tab6_sends_the_image_twice
  (body image tab : value) (w : world) (tr tr1 : trace) (name : string)
  (Himage : JS.get body "image" = Ok image)
  (Htab : JS.get body "tab" = Ok tab)
  (Hpresent : JS.truthy image && JS.truthy tab = true)
  (Htab6 : tab_is tab 6 = true)
  (Hname : analyzeWithOpenAI image w tr = (tr1, Ok name)) :
  exists b,
    stripBase64Prefix image = Ok b
    /\ calls (fst (post_api_analyze_image body w tr))
       = (calls tr ++ [recognition_request b; nutrition_request b])%list
    /\ image_url (recognition_request b) = image_url (nutrition_request b)
    /\ forallb chat_request [recognition_request b; nutrition_request b] = true.
Proof.
  apply andb_true_iff in Hpresent. destruct Hpresent as [Ti Tt].
  destruct (analyzeWithOpenAI_stripped image w tr tr1 name Hname) as (b & S & -> & _).
  exists b. repeat split; [exact S|].
  destruct (tab_is_converts tab 6 Htab6) as [x Hx].
  rewrite (post_api_analyze_image_eq body w tr image tab Himage Htab Ti Tt),
    Hname, Hx, Htab6.
  pose proof (getNutritionFromOpenAIImage_calls image w
                (tr ++ [Called (recognition_request b)])) as C.
  rewrite S, calls_app in C. cbn [calls] in C. rewrite <- app_assoc in C. cbn [app] in C.
  destruct (getNutritionFromOpenAIImage image w _) as [tr2 [parsed|e]]; cbn [fst] in C.
  - destruct (default_property parsed "foodName" (JStr name)); cbn [fst];
      [exact C|]. now rewrite analyze_failed_calls.
  - now rewrite analyze_failed_calls.
Qed.

(** The whole flow for tab 6 with a model that answers. *)
Lemma tab6_sends_the_image_twice_witness :
  exists b,
    stripBase64Prefix (JStr "data:image/png;base64,QUJD") = Ok b
    /\ calls (fst (post_api_analyze_image
                     (request_body (JStr "data:image/png;base64,QUJD") (JS.num 6))
                     (model_world "pizza" three_keys_text) []))
       = (calls [] ++ [recognition_request b; nutrition_request b])%list
    /\ image_url (recognition_request b) = image_url (nutrition_request b)
    /\ forallb chat_request [recognition_request b; nutrition_request b] = true.
Proof.
  apply (tab6_sends_the_image_twice
           (request_body (JStr "data:image/png;base64,QUJD") (JS.num 6))
           (JStr "data:image/png;base64,QUJD") (JS.num 6)
           (model_world "pizza" three_keys_text) []
           [Called (recognition_request (JStr "QUJD"))] "pizza");
    reflexivity.
Defined.

(** ** The analyze route and the nutrition route *)

Lemma switch_is_lookup tab :
  tab_is tab 6 = false -> switch_adapter tab = lookup_adapter tab.
Proof. unfold switch_adapter, lookup_adapter. now intros ->. Qed.

Lemma lookup_adapter_throws tab adapter q w tr tr2 e :
  lookup_adapter tab = Some adapter ->
  adapter q w tr = (tr2, Throw e) -> message e <> "".
Proof.
  unfold lookup_adapter. intros H R.
  repeat match type of H with
         | (if ?b then _ else _) = _ => destruct b
         end;
    try discriminate H; injection H as <-.
  - rewrite getNutritionEdamam1_eq in R. apply settle_throws in R.
    destruct R as [? ->]. discriminate.
  - rewrite getNutritionEdamam2_eq in R. apply settle_throws in R.
    destruct R as [? ->]. discriminate.
  - rewrite getNutritionFatSecret_eq in R. apply settle_throws in R.
    destruct R as [? ->]. discriminate.
  - rewrite getNutritionOpenFoodFacts_eq in R. apply settle_throws in R.
    destruct R as [? ->]. discriminate.
  - rewrite getNutritionSpoonacular_eq in R. apply settle_throws in R.
    destruct R as [cause ->].
    destruct (spoonacular_failed_cases cause) as [[detail ->]|[-> _]]; discriminate.
  - rewrite getNutritionFromOpenAIByName_eq in R. apply settle_throws in R.
    destruct R as [? ->]. discriminate.
Qed.

(** X15: For a tab from 1 to 5 the analyze route is recognition followed by
    the nutrition route: once recognition has returned a name, it sends the
    requests and gives the answer - status and body, on success and on
    failure - that the nutrition route gives for that tab and that name.
    Tab 6 is the exception: the analyze route asks the model about the
    image, the nutrition route asks it about the name. *)
Theorem analyze_is_recognition_then_lookup
  (body image tab : value) (params_tab : string) (w : world) (tr tr1 : trace)
  (name : string)
  (Himage : JS.get body "image" = Ok image)
  (Htab : JS.get body "tab" = Ok tab)
  (Hpresent : JS.truthy image && JS.truthy tab = true)
  (Hsame : JS.ToNumber tab = JS.ToNumber (JStr params_tab))
  (Hrange : tab_in_range tab = true)
  (Hnot6 : tab_is tab 6 = false)
  (Hname : analyzeWithOpenAI image w tr = (tr1, Ok name)) :
  snd (post_api_analyze_image body w tr)
  = snd (get_api_nutrition params_tab (JStr name) w tr1)
  /\ calls (fst (post_api_analyze_image body w tr))
     = calls (fst (get_api_nutrition params_tab (JStr name) w tr1)).
Proof.
  apply andb_true_iff in Hpresent. destruct Hpresent as [Ti Tt].
  assert (Hx : exists x, JS.ToNumber tab = Ok x).
  { rewrite Hsame. unfold JS.ToNumber. cbn [JS.convertible]. eauto. }
  destruct Hx as [x Hx].
  rewrite (post_api_analyze_image_eq body w tr image tab Himage Htab Ti Tt), Hname, Hnot6.
  rewrite Hx.
  rewrite get_api_nutrition_eq, (analyzeWithOpenAI_name image w tr tr1 name Hname).
  cbn [negb]. rewrite (switch_is_lookup tab Hnot6).
  assert (L : lookup_adapter (JStr params_tab) = lookup_adapter tab).
  { unfold lookup_adapter. now rewrite !(tab_is_ToNumber tab (JStr params_tab) _ Hsame). }
  rewrite L.
  destruct (lookup_adapter tab) as [adapter|] eqn:A.
  - destruct (adapter (JStr name) w tr1) as [tr2 [nutrition|e]] eqn:R.
    + split; reflexivity.
    + pose proof (lookup_adapter_throws tab adapter _ w tr1 tr2 e A R) as M.
      unfold analyze_failed, lookup_failed. cbn [fst snd].
      rewrite !(message_kept _ _ M), !calls_app. split; reflexivity.
  - exfalso. unfold tab_in_range in Hrange. unfold lookup_adapter in A.
    repeat match type of A with
           | (if ?b then _ else _) = _ => destruct b
           end; discriminate.
Qed.

(** The whole flow for tab 2 and the lookup of [pizza] at tab 2, answered
    with one hint. *)
Lemma analyze_is_recognition_then_lookup_witness :
  snd (post_api_analyze_image (request_body (JStr "QUJD") (JS.num 2))
         (answering (fun r => if chat_request r then Ok (completion (JStr "pizza"))
                              else Ok hint_only)) [])
  = snd (get_api_nutrition "2" (JStr "pizza")
           (answering (fun r => if chat_request r then Ok (completion (JStr "pizza"))
                                else Ok hint_only))
           [Called (recognition_request (JStr "QUJD"))]).
Proof.
  exact (proj1 (analyze_is_recognition_then_lookup
                  (request_body (JStr "QUJD") (JS.num 2)) (JStr "QUJD") (JS.num 2) "2"
                  (answering (fun r => if chat_request r then Ok (completion (JStr "pizza"))
                                       else Ok hint_only))
                  [] [Called (recognition_request (JStr "QUJD"))] "pizza"
                  eq_refl eq_refl eq_refl eq_refl eq_refl eq_refl eq_refl)).
Defined.

(** ** Where the prefix ends *)

Lemma starts_with_split needle s :
  Str.starts_with needle s = true -> exists post, s = needle ++ post.
Proof.
  revert s. induction needle as [|a needle IH]; intros s H.
  - now exists s.
  - destruct s as [|c s]; [discriminate|].
    cbn [Str.starts_with] in H. apply andb_true_iff in H. destruct H as [E H].
    apply Ascii.eqb_eq in E. subst c.
    destruct (IH s H) as [post ->]. now exists post.
Qed.

Lemma indexOf_split needle s :
  0 <= Str.indexOf needle s ->
  exists pre post, s = pre ++ needle ++ post /\ Str.len pre = Str.indexOf needle s.
Proof.
  induction s as [|c s IH].
  - cbn [Str.indexOf]. destruct (Str.starts_with needle "") eqn:E; [|lia].
    intros _. destruct (starts_with_split _ _ E) as [post ->].
    now exists "", post.
  - change (Str.indexOf needle (String c s))
      with (if Str.starts_with needle (String c s) then 0
            else let i := Str.indexOf needle s in if i <? 0 then -1 else i + 1).
    destruct (Str.starts_with needle (String c s)) eqn:E.
    + intros _. destruct (starts_with_split _ _ E) as [post ->]. now exists "", post.
    + cbv zeta. destruct (Z.ltb_spec (Str.indexOf needle s) 0) as [|Hi]; [lia|].
      intros _. destruct (IH Hi) as (pre & post & -> & L).
      exists (String c pre), post. split; [reflexivity|].
      unfold Str.len in *. cbn [String.length]. lia.
Qed.

Lemma strip_without_marker s :
  Str.indexOf "base64," s < 0 -> stripBase64Prefix (JStr s) = Ok (JStr s).
Proof.
  intros H. unfold stripBase64Prefix.
  destruct (JS.truthy (JStr s)); cbn [negb]; [|reflexivity].
  cbn [JS.call_indexOf rbind].
  destruct (Z.leb_spec 0 (Str.indexOf "base64," s)); [lia|reflexivity].
Qed.

Lemma strip_at_marker s :
  0 <= Str.indexOf "base64," s ->
  exists pre payload,
    s = pre ++ "base64," ++ payload
    /\ Str.len pre = Str.indexOf "base64," s
    /\ stripBase64Prefix (JStr s) = Ok (JStr payload).
Proof.
  intros H. destruct (indexOf_split _ _ H) as (pre & payload & E & L).
  exists pre, payload. repeat split; [exact E|exact L|].
  unfold stripBase64Prefix.
  assert (T : JS.truthy (JStr s) = true).
  { rewrite E. destruct pre; reflexivity. }
  rewrite T. cbn [negb JS.call_indexOf rbind].
  destruct (Z.leb_spec 0 (Str.indexOf "base64," s)); [|lia].
  cbn [JS.call_slice_from]. rewrite <- L. rewrite E at 1.
  rewrite <- append_assoc.
  replace (Str.len pre + 7) with (Str.len (pre ++ "base64,"))
    by (rewrite len_app; reflexivity).
  now rewrite slice_from_app.
Qed.

(** X16: On a text, stripping never fails and returns an end of the text: the
    whole text when it does not hold [base64,], and otherwise what follows
    the first occurrence of [base64,], whatever precedes it.  A falsy value
    is returned as it is, and a number, a boolean or an object makes the
    function throw. *)
Theorem strip_cuts_after_first_marker (s : string) (v : value) :
  (Str.indexOf "base64," s < 0 -> stripBase64Prefix (JStr s) = Ok (JStr s))
  /\ (0 <= Str.indexOf "base64," s ->
      exists pre payload,
        s = pre ++ "base64," ++ payload
        /\ Str.len pre = Str.indexOf "base64," s
        /\ stripBase64Prefix (JStr s) = Ok (JStr payload))
  /\ (JS.truthy v = false -> stripBase64Prefix v = Ok v)
  /\ (JS.truthy v = true -> no_indexOf v = true ->
      exists e, stripBase64Prefix v = Throw e).
Proof.
  split; [apply strip_without_marker|].
  split; [apply strip_at_marker|].
  split.
  - intros T. unfold stripBase64Prefix. now rewrite T.
  - apply strip_no_indexOf.
Qed.

(** A data URL whose parameters hold the marker once before the real
    one. *)
Lemma strip_cuts_after_first_marker_witness :
  exists pre payload,
    "data:image/png;name=base64,.png;base64,QUJD" = pre ++ "base64," ++ payload
    /\ Str.len pre = Str.indexOf "base64," "data:image/png;name=base64,.png;base64,QUJD"
    /\ stripBase64Prefix (JStr "data:image/png;name=base64,.png;base64,QUJD")
       = Ok (JStr payload).
Proof.
  apply (proj1 (proj2 (strip_cuts_after_first_marker
                         "data:image/png;name=base64,.png;base64,QUJD" JUndefined))).
  vm_compute. discriminate.
Defined.

(** ** The vision route *)

Lemma strip_text s : exists t, stripBase64Prefix (JStr s) = Ok (JStr t).
Proof.
  destruct (Z.ltb_spec (Str.indexOf "base64," s) 0) as [H|H].
  - exists s. now apply strip_without_marker.
  - destruct (strip_at_marker s H) as (pre & payload & _ & _ & E).
    now exists payload.
Qed.

(** X17: Without a file the vision route answers 400 and sends nothing.  With
    a file - whatever its bytes and content type - it sends exactly one
    request, the recognition request; the name recognition returns is
    answered 200, and a failure of recognition is answered 500 with the
    message "OpenAI Vision failed: ..." of the error it throws. *)
Theorem vision_route_recognizes_the_upload (file : upload) (w : world) (tr : trace) :
  post_api_openai_vision None w tr = (tr, Ok missing_file)
  /\ exists payload,
       let image :=
         JStr (bufferToDataUrl (buffer file) (JS.or (mimetype file) (JStr "image/jpeg"))) in
       let r := recognition_request (JStr payload) in
       stripBase64Prefix image = Ok (JStr payload)
       /\ calls (fst (post_api_openai_vision (Some file) w tr)) = (calls tr ++ [r])%list
       /\ (forall name,
              recognized (respond w tr r) = Ok name ->
              post_api_openai_vision (Some file) w tr
              = ((tr ++ [Called r])%list, Ok (named name)))
       /\ (forall e,
              recognized (respond w tr r) = Throw e ->
              post_api_openai_vision (Some file) w tr
              = vision_route_failed
                  (tr ++ [Called r; ConsoleError "OpenAI Vision error:" (message_or_error e)])
                  (vision_failed e)).
Proof.
  split; [reflexivity|].
  destruct (strip_text (bufferToDataUrl (buffer file)
                          (JS.or (mimetype file) (JStr "image/jpeg")))) as [payload S].
  exists payload. cbv zeta. split; [exact S|].
  rewrite post_api_openai_vision_calls, analyzeWithOpenAI_calls, S.
  split; [reflexivity|].
  unfold post_api_openai_vision, vision_route_failed, named. run_M.
  rewrite analyzeWithOpenAI_eq, S.
  split.
  - intros name ->. reflexivity.
  - intros e ->. cbn [settle]. rewrite <- !app_assoc. reflexivity.
Qed.

(** A PNG of three bytes, recognized as pizza. *)
Lemma vision_route_recognizes_the_upload_witness :
  post_api_openai_vision None (model_world "pizza" three_keys_text) []
  = ([], Ok missing_file)
  /\ post_api_openai_vision
       (Some (mkUpload [Byte.x41; Byte.x42; Byte.x43] (JStr "image/png")))
       (model_world "pizza" three_keys_text) []
     = ([Called (recognition_request (JStr "QUJD"))], Ok (named "pizza")).
Proof.
  destruct (vision_route_recognizes_the_upload
              (mkUpload [Byte.x41; Byte.x42; Byte.x43] (JStr "image/png"))
              (model_world "pizza" three_keys_text) [])
    as (Hnone & payload & S & _ & Hok & _).
  split; [exact Hnone|].
  vm_compute in S. injection S as <-.
  exact (Hok "pizza" eq_refl).
Defined.

(** ** What recognition returns *)



(** ** The first nutrient that matches *)

Lemma includes_empty key : key <> "" -> Str.includes key "" = false.
Proof. destruct key; [contradiction|reflexivity]. Qed.

Lemma find_named_skips key y rest :
  key <> "" -> examinable y = true -> names_nutrient key y = false ->
  find_named key (y :: rest) = find_named key rest.
Proof.
  intros K E N. unfold examinable in E. apply andb_true_iff in E. destruct E as [O E].
  destruct y as [| | | | | |fields]; try discriminate O.
  unfold names_nutrient in N. cbn [JS.get_opt JS.get] in E, N.
  cbn [find_named JS.get rbind].
  destruct (JS.lookup "name" fields) as [| | | |n| |]; try discriminate E;
    try reflexivity.
  cbn [JS.truthy]. destruct (String.eqb_spec n "") as [->|]; cbn [negb]; [reflexivity|].
  cbn [JS.call_toLowerCase rbind JS.truthy]. now rewrite N.
Qed.

Lemma find_named_hits key x rest :
  key <> "" -> is_object x = true -> names_nutrient key x = true ->
  find_named key (x :: rest) = Ok x.
Proof.
  intros K O N. destruct x as [| | | | | |fields]; try discriminate O.
  unfold names_nutrient in N. cbn [JS.get_opt JS.get] in N.
  cbn [find_named JS.get rbind].
  destruct (JS.lookup "name" fields) as [| | | |n| |]; try discriminate N.
  cbn [JS.truthy]. destruct (String.eqb_spec n "") as [->|].
  - cbn [Str.toLowerCase] in N. now rewrite (includes_empty key K) in N.
  - cbn [negb JS.call_toLowerCase rbind JS.truthy]. now rewrite N.
Qed.

Lemma find_named_first key pre x post :
  key <> "" ->
  forallb examinable pre = true ->
  forallb (fun y => negb (names_nutrient key y)) pre = true ->
  is_object x = true -> names_nutrient key x = true ->
  find_named key (pre ++ x :: post) = Ok x.
Proof.
  intros K E N O H. induction pre as [|y pre IH]; cbn [app].
  - now apply find_named_hits.
  - cbn [forallb] in E, N.
    apply andb_true_iff in E, N. destruct E as [Ey E], N as [Ny N].
    apply negb_true_iff in Ny.
    rewrite (find_named_skips key y _ K Ey Ny). now apply IH.
Qed.

Lemma find_named_none key items :
  key <> "" ->
  forallb examinable items = true ->
  forallb (fun y => negb (names_nutrient key y)) items = true ->
  find_named key items = Ok JUndefined.
Proof.
  intros K E N. induction items as [|y items IH]; [reflexivity|].
  cbn [forallb] in E, N.
  apply andb_true_iff in E, N. destruct E as [Ey E], N as [Ny N].
  apply negb_true_iff in Ny.
  rewrite (find_named_skips key y _ K Ey Ny). now apply IH.
Qed.

(** X19: The fallback of tab 5 reads, for each of its four keys, the first
    entry of the nutrient list whose name holds the key, upper or lower
    case alike, and takes that entry's [amount]; entries after it are not
    looked at.  So a list in which Saturated Fat precedes Fat gives the
    saturated fat as the fat.  When no entry matches, the value is 0. *)
Theorem spoonacular_find_takes_first_match
  (key : string) (pre post : list value) (x : value)
  (Hkey : In key ["calories"; "protein"; "carbohydrate"; "fat"])
  (Hpre : forallb examinable pre = true)
  (Hnone : forallb (fun y => negb (names_nutrient key y)) pre = true) :
  (is_object x = true -> names_nutrient key x = true ->
   find (JArr (pre ++ x :: post)) key = Ok (JS.get_opt x "amount")
   /\ found_or_zero (JArr (pre ++ x :: post)) key
      = Ok (zero_filled (JS.get_opt x "amount")))
  /\ find (JArr pre) key = Ok (JS.num 0).
Proof.
  assert (K : key <> "").
  { destruct Hkey as [<-|[<-|[<-|[<-|[]]]]]; discriminate. }
  split.
  - intros O N. unfold found_or_zero, find. cbn [JS.or JS.truthy].
    rewrite (find_named_first key pre x post K Hpre Hnone O N). cbn [rbind].
    destruct x as [| | | | | |fields]; try discriminate O.
    cbn [JS.truthy JS.get JS.get_opt rbind]. split; reflexivity.
  - unfold find. cbn [JS.or JS.truthy].
    now rewrite (find_named_none key pre K Hpre Hnone).
Qed.

(** The key [fat] on a list with calories, saturated fat and fat, in that
    order. *)
Lemma spoonacular_find_takes_first_match_witness :
  find fats_list "fat" = Ok (JS.num 4)
  /\ found_or_zero fats_list "fat" = Ok (JS.num 4).
Proof.
  refine (proj1 (spoonacular_find_takes_first_match "fat"
                   [JObj [("name", JStr "Calories"); ("amount", JS.num 266)]]
                   [JObj [("name", JStr "Fat"); ("amount", JS.num 10)]]
                   (JObj [("name", JStr "Saturated Fat"); ("amount", JS.num 4)])
                   _ eq_refl eq_refl) eq_refl eq_refl).
  cbn [In]. auto.
Defined.

(** ** Search hits of FatSecret *)

Lemma fatsecret_food_id_first data hit rest :
  hits_of data = JArr (hit :: rest) \/ hits_of data = hit ->
  is_object hit = true ->
  fatsecret_food_id (Ok data) = Ok (hit_id hit).
Proof.
  intros S O. destruct hit as [| | | | | |fields]; try discriminate O.
  assert (Th : JS.truthy (hits_of data) = true) by (destruct S as [-> | ->]; reflexivity).
  unfold hits_of in S, Th.
  pose proof (get_opt_truthy _ _ Th) as Tf. pose proof (get_opt_truthy _ _ Tf) as Td.
  unfold fatsecret_food_id, found_foods, first_of_foods. cbn [rbind].
  rewrite Td, (get_truthy data "foods" Td). cbn [rbind]. rewrite Tf. cbn [rbind].
  rewrite Tf, (get_truthy _ "food" Tf). cbn [rbind].
  assert (F : (if isArray (JS.get_opt (JS.get_opt data "foods") "food")
               then JS.get (JS.get_opt (JS.get_opt data "foods") "food") "0"
               else if JS.truthy (JS.get_opt (JS.get_opt data "foods") "food")
                    then Ok (JS.get_opt (JS.get_opt data "foods") "food")
                    else JS.get (JS.get_opt data "foods") "0")
              = Ok (JObj fields)).
  { destruct S as [-> | ->]; [|reflexivity].
    cbn [isArray]. rewrite (get_truthy (JArr (JObj fields :: rest)) "0" eq_refl).
    reflexivity. }
  rewrite F. cbn [rbind JS.truthy negb].
  unfold food_id_of, hit_id, JS.or. rewrite !(get_truthy (JObj fields) _ eq_refl).
  cbn [rbind]. destruct (JS.truthy (JS.get_opt (JObj fields) "food_id")); reflexivity.
Qed.

(** X20: The search of tab 3 may list its hits or, when there is one, give the
    hit itself in place of the list, next to whatever other fields the
    answer carries.  In both cases the detail request asks for the first
    hit, by its [food_id] or, without one, its [id], and the run sends its
    three requests.  The token is one that the first stage accepted:
    truthy, and convertible to the text of the [Authorization] header. *)
Theorem fatsecret_details_the_first_hit
  (foodName token hit data : value) (rest : list value) (w : world) (tr : trace)
  (Htoken : fatsecret_token (respond w tr (token_request (config w))) = Ok token)
  (Hhits : respond w (tr ++ [Called (token_request (config w))])
             (search_request token foodName) = Ok data)
  (Hshape : hits_of data = JArr (hit :: rest) \/ hits_of data = hit)
  (Hhit : is_object hit = true) :
  calls (fst (getNutritionFatSecret foodName w tr))
  = (calls tr ++ [token_request (config w);
                  search_request token foodName;
                  detail_request token (hit_id hit)])%list
  /\ JS.truthy token && JS.convertible token = true.
Proof.
  split.
  - rewrite getNutritionFatSecret_eq, settle_calls. unfold fatsecret_stages.
    rewrite Htoken, Hhits, (fatsecret_food_id_first data hit rest Hshape Hhit).
    cbn [fst]. rewrite !calls_app. cbn [calls]. now rewrite <- !app_assoc.
  - revert Htoken. unfold fatsecret_token, JS.ToString.
    destruct (respond w tr _) as [d|]; [|discriminate]. cbn [rbind].
    destruct (and_get d "access_token") as [t|]; [|discriminate]. cbn [rbind].
    destruct (JS.truthy t) eqn:T; cbn [negb]; [|discriminate].
    destruct (JS.convertible t) eqn:C; cbn [rbind]; [|discriminate].
    intros [= <-]. now rewrite T, C.
Qed.

(** A search answer with paging fields, once with its hit in a list and once
    with the hit itself. *)
Lemma fatsecret_details_the_first_hit_witness :
  calls (fst (getNutritionFatSecret (JStr "pizza")
                (answering (paged_answers (JArr [pizza_hit]))) []))
  = [token_request sample_env;
     search_request (JStr "t0") (JStr "pizza");
     detail_request (JStr "t0") (JStr "41")]
  /\ calls (fst (getNutritionFatSecret (JStr "pizza")
                   (answering (paged_answers pizza_hit)) []))
     = [token_request sample_env;
        search_request (JStr "t0") (JStr "pizza");
        detail_request (JStr "t0") (JStr "41")].
Proof.
  split.
  - exact (proj1 (fatsecret_details_the_first_hit (JStr "pizza") (JStr "t0") pizza_hit
                    (JObj [("foods", JObj [("max_results", JStr "20");
                                           ("page_number", JStr "0");
                                           ("total_results", JStr "1");
                                           ("food", JArr [pizza_hit])])])
                    [] (answering (paged_answers (JArr [pizza_hit]))) []
                    eq_refl eq_refl (or_introl eq_refl) eq_refl)).
  - exact (proj1 (fatsecret_details_the_first_hit (JStr "pizza") (JStr "t0") pizza_hit
                    (JObj [("foods", JObj [("max_results", JStr "20");
                                           ("page_number", JStr "0");
                                           ("total_results", JStr "1");
                                           ("food", pizza_hit)])])
                    [] (answering (paged_answers pizza_hit)) []
                    eq_refl eq_refl (or_intror eq_refl) eq_refl)).
Defined.

(** ** Answers are read without failing *)

Lemma and_get_ok a k : exists v, and_get a k = Ok v.
Proof. destruct (and_get_opt a k) as (v & E & _). now exists v. Qed.

Lemma first_food_ok lst : exists v, first_food lst = Ok v.
Proof.
  unfold first_food. destruct (and_get_ok lst "0") as [entry ->]. cbn [rbind].
  apply and_get_ok.
Qed.

Lemma edamam2_record_guarded data :
  (exists r, edamam2_record (Ok data) = Ok r)
  \/ edamam2_record (Ok data) = Throw (Error "Food not found in Edamam Food DB").
Proof.
  unfold edamam2_record, edamam2_food. cbn [rbind].
  rewrite !(get_truthy _ _ (or_object_truthy data)). cbn [rbind].
  destruct (first_food_ok (JS.get_opt (JS.or data (JObj [])) "parsed")) as [p ->].
  cbn [rbind].
  destruct (JS.truthy p) eqn:Tp.
  - cbn [rbind]. rewrite Tp. cbn [negb].
    left. rewrite (nutrients_record_found p Tp). eauto.
  - destruct (first_food_ok (JS.get_opt (JS.or data (JObj [])) "hints")) as [h ->].
    cbn [rbind]. destruct (JS.truthy h) eqn:Th; cbn [negb].
    + left. rewrite (nutrients_record_found h Th). eauto.
    + now right.
Qed.

Lemma fatsecret_token_guarded data :
  (exists token, fatsecret_token (Ok data) = Ok token)
  \/ fatsecret_token (Ok data) = Throw (Error "FatSecret token failed")
  \/ fatsecret_token (Ok data) = Throw JS.cannot_convert.
Proof.
  unfold fatsecret_token. cbn [rbind].
  destruct (and_get_ok data "access_token") as [t ->]. cbn [rbind].
  destruct (JS.truthy t); cbn [negb]; [|eauto].
  unfold JS.ToString. destruct (JS.convertible t); cbn [rbind]; eauto.
Qed.

Lemma found_foods_ok data : exists foods, found_foods data = Ok foods.
Proof.
  unfold found_foods. destruct (JS.truthy data) eqn:T; [|eauto].
  rewrite !(get_truthy data _ T). cbn [rbind].
  destruct (JS.truthy (JS.get_opt data "foods")); eauto.
Qed.

Lemma first_of_foods_ok foods : exists f, first_of_foods foods = Ok f.
Proof.
  unfold first_of_foods. destruct (JS.truthy foods) eqn:T; [|eauto].
  rewrite !(get_truthy foods _ T). cbn [rbind].
  destruct (isArray (JS.get_opt foods "food")) eqn:A.
  - destruct (JS.get_opt foods "food") as [| | | | |items|]; try discriminate A.
    rewrite (get_truthy (JArr items) "0" eq_refl). eauto.
  - destruct (JS.truthy (JS.get_opt foods "food")); eauto.
Qed.

Lemma fatsecret_food_id_guarded data :
  (exists foodId, fatsecret_food_id (Ok data) = Ok foodId)
  \/ fatsecret_food_id (Ok data) = Throw (Error "FatSecret: no food found").
Proof.
  unfold fatsecret_food_id. cbn [rbind].
  destruct (found_foods_ok data) as [foods ->]. cbn [rbind].
  destruct (first_of_foods_ok foods) as [f ->]. cbn [rbind].
  destruct (JS.truthy f) eqn:T; cbn [negb]; [|now right].
  left. unfold food_id_of. rewrite !(get_truthy f _ T). cbn [rbind].
  destruct (JS.truthy (JS.get_opt f "food_id")); eauto.
Qed.

Lemma first_serving_ok d : exists s, first_serving d = Ok s.
Proof.
  unfold first_serving. destruct (JS.truthy d) eqn:T; [|eauto].
  rewrite (get_truthy d _ T). cbn [rbind].
  destruct (and_get_ok (JS.get_opt d "servings") "serving") as [l ->]. cbn [rbind].
  apply and_get_ok.
Qed.

Lemma parsed_or_zero_guarded serving k :
  JS.truthy serving = true ->
  (exists v, parsed_or_zero serving k = Ok v)
  \/ parsed_or_zero serving k = Throw JS.cannot_convert.
Proof.
  intros T. unfold parsed_or_zero, JS.parseFloat.
  rewrite (get_truthy serving k T). cbn [rbind].
  destruct (JS.convertible _); cbn [rbind]; eauto.
Qed.

Lemma fatsecret_record_guarded data :
  (exists r, fatsecret_record (Ok data) = Ok r)
  \/ fatsecret_record (Ok data) = Throw (Error "FatSecret: no serving info")
  \/ fatsecret_record (Ok data) = Throw JS.cannot_convert.
Proof.
  unfold fatsecret_record. cbn [rbind].
  destruct (and_get_ok data "food") as [d ->]. cbn [rbind].
  destruct (first_serving_ok d) as [s ->]. cbn [rbind].
  destruct (JS.truthy s) eqn:T; cbn [negb]; [|eauto].
  destruct (parsed_or_zero_guarded s "calories" T) as [[c ->]| ->]; cbn [rbind]; [|eauto].
  destruct (parsed_or_zero_guarded s "protein" T) as [[p ->]| ->]; cbn [rbind]; [|eauto].
  destruct (parsed_or_zero_guarded s "carbohydrate" T) as [[b ->]| ->]; cbn [rbind];
    [|eauto].
  destruct (parsed_or_zero_guarded s "fat" T) as [[f ->]| ->]; cbn [rbind]; eauto.
Qed.

Lemma off_record_guarded data :
  (exists r, off_record (Ok data) = Ok r)
  \/ off_record (Ok data) = Throw (Error "OpenFoodFacts: not found").
Proof.
  destruct (JS.truthy (first_product data)) eqn:T.
  - left. rewrite (off_record_found data T). eauto.
  - right. now apply off_record_missing.
Qed.

(** X21: The adapters of tabs 1 to 4 read an answer through guards.  When
    every call is answered, tab 1 returns whatever the answer is; tabs 2
    and 4 either return or fail for the reason of their own, which they
    write to the console: food not found; not found.  Tab 3 either returns
    or writes one of four reasons: no token, no food found, no serving
    info, or - the one reading its guards do not cover - the TypeError of a
    token or a serving figure that is an object with a [toString] key of
    its own, which cannot be converted to text. *)
Theorem answers_are_read_without_failing (foodName : value) (w : world) (tr : trace)
  (Hanswered : all_answered w) :
  (exists tr' r, getNutritionEdamam1 foodName w tr = (tr', Ok r))
  /\ (forall tr' e,
        getNutritionEdamam2 foodName w tr = (tr', Throw e) ->
        reason_logged "Edamam FoodDB error:" "Food not found in Edamam Food DB" tr')
  /\ (forall tr' e,
        getNutritionFatSecret foodName w tr = (tr', Throw e) ->
        reason_logged "FatSecret error:" "FatSecret token failed" tr'
        \/ reason_logged "FatSecret error:" "FatSecret: no food found" tr'
        \/ reason_logged "FatSecret error:" "FatSecret: no serving info" tr'
        \/ reason_logged "FatSecret error:" "Cannot convert object to primitive value" tr')
  /\ (forall tr' e,
        getNutritionOpenFoodFacts foodName w tr = (tr', Throw e) ->
        reason_logged "OpenFoodFacts error:" "OpenFoodFacts: not found" tr').
Proof.
  repeat split.
  - rewrite getNutritionEdamam1_eq.
    destruct (Hanswered tr (edamam1_request (config w) foodName)) as [data ->].
    rewrite edamam1_record_any. cbn [settle]. eauto.
  - intros tr' e. rewrite getNutritionEdamam2_eq.
    destruct (Hanswered tr (edamam2_request (config w) foodName)) as [data ->].
    destruct (edamam2_record_guarded data) as [[r ->]| ->]; cbn [settle];
      [discriminate|].
    intros [= <- _]. now eexists.
  - intros tr' e. rewrite getNutritionFatSecret_eq. unfold fatsecret_stages.
    destruct (Hanswered tr (token_request (config w))) as [d1 ->].
    destruct (fatsecret_token_guarded d1) as [[token ->]|[->| ->]]; cbn [settle];
      [|intros [= <- _]; left; now eexists
       |intros [= <- _]; do 3 right; now eexists].
    destruct (Hanswered (tr ++ [Called (token_request (config w))])%list
                (search_request token foodName)) as [d2 ->].
    destruct (fatsecret_food_id_guarded d2) as [[foodId ->]| ->]; cbn [settle];
      [|intros [= <- _]; right; left; now eexists].
    destruct (Hanswered ((tr ++ [Called (token_request (config w))])
                           ++ [Called (search_request token foodName)])%list
                (detail_request token foodId)) as [d3 ->].
    destruct (fatsecret_record_guarded d3) as [[r ->]|[->| ->]]; cbn [settle];
      [discriminate| |]; intros [= <- _].
    + right; right; left. now eexists.
    + do 3 right. now eexists.
  - intros tr' e. rewrite getNutritionOpenFoodFacts_eq.
    destruct (Hanswered tr (off_request foodName)) as [data ->].
    destruct (off_record_guarded data) as [[r ->]| ->]; cbn [settle];
      [discriminate|].
    intros [= <- _]. now eexists.
Qed.

(** A token that cannot be converted stops tab 3 before its search: the
    TypeError is what the console shows. *)
Lemma unreadable_token_is_logged :
  getNutritionFatSecret (JStr "pizza") unreadable_token_world []
  = ([Called (token_request sample_env);
      ConsoleError "FatSecret error:"
        (LogValue (JStr "Cannot convert object to primitive value"))],
     Throw (Error "FatSecret failed")).
Proof. vm_compute. reflexivity. Qed.

(** Every service answers an empty object: tab 2 finds no food.  Every
    service answers a token that cannot be converted: tab 3 writes one of
    its four reasons. *)
Lemma answers_are_read_without_failing_witness :
  reason_logged "Edamam FoodDB error:" "Food not found in Edamam Food DB"
    (fst (getNutritionEdamam2 (JStr "xyzzy") empty_world []))
  /\ (reason_logged "FatSecret error:" "FatSecret token failed"
        (fst (getNutritionFatSecret (JStr "pizza") unreadable_token_world []))
      \/ reason_logged "FatSecret error:" "FatSecret: no food found"
           (fst (getNutritionFatSecret (JStr "pizza") unreadable_token_world []))
      \/ reason_logged "FatSecret error:" "FatSecret: no serving info"
           (fst (getNutritionFatSecret (JStr "pizza") unreadable_token_world []))
      \/ reason_logged "FatSecret error:" "Cannot convert object to primitive value"
           (fst (getNutritionFatSecret (JStr "pizza") unreadable_token_world []))).
Proof.
  split.
  - refine (proj1 (proj2 (answers_are_read_without_failing (JStr "xyzzy") empty_world [] _))
              _ (Error "Edamam FoodDB failed") _).
    + intros tr r. now exists (JObj []).
    + reflexivity.
  - refine (proj1 (proj2 (proj2 (answers_are_read_without_failing (JStr "pizza")
                                   unreadable_token_world [] _)))
              _ (Error "FatSecret failed") _).
    + intros tr r. now eexists.
    + vm_compute. reflexivity.
Defined.

(** ** White space around the name *)

Lemma ws_head_le s : (Str.ws_head s <= String.length s)%nat.
Proof.
  destruct s as [|c1 [|c2 [|c3 s]]]; cbn [Str.ws_head String.length];
    repeat match goal with |- context [if ?b then _ else _] => destruct b end; lia.
Qed.

Lemma ws_last_le r : (Str.ws_last r <= String.length r)%nat.
Proof.
  destruct r as [|c1 [|c2 [|c3 r]]]; cbn [Str.ws_last String.length];
    repeat match goal with |- context [if ?b then _ else _] => destruct b end; lia.
Qed.

Lemma length_drop n s : String.length (Str.drop n s) = (String.length s - n)%nat.
Proof.
  revert s. induction n as [|n IH]; intros s; cbn [Str.drop]; [lia|].
  destruct s; cbn [String.length]; [reflexivity|]. now rewrite IH.
Qed.

Lemma trimStart_fuel_head fuel s :
  (String.length s <= fuel)%nat -> Str.ws_head (Str.trimStart_fuel fuel s) = 0%nat.
Proof.
  revert s. induction fuel as [|fuel IH]; intros s L.
  - destruct s; [reflexivity|]. cbn [String.length] in L. lia.
  - cbn [Str.trimStart_fuel]. destruct (Str.ws_head s) as [|n] eqn:E; [exact E|].
    apply IH. rewrite length_drop. pose proof (ws_head_le s). lia.
Qed.

Lemma trimEnd_fuel_last fuel r :
  (String.length r <= fuel)%nat -> Str.ws_last (Str.trimEnd_fuel fuel r) = 0%nat.
Proof.
  revert r. induction fuel as [|fuel IH]; intros r L.
  - destruct r; [reflexivity|]. cbn [String.length] in L. lia.
  - cbn [Str.trimEnd_fuel]. destruct (Str.ws_last r) as [|n] eqn:E; [exact E|].
    apply IH. rewrite length_drop. pose proof (ws_last_le r). lia.
Qed.

Lemma trimEnd_fuel_drop fuel r : exists k, Str.trimEnd_fuel fuel r = Str.drop k r.
Proof.
  revert r. induction fuel as [|fuel IH]; intros r.
  - now exists 0%nat.
  - cbn [Str.trimEnd_fuel]. destruct (Str.ws_last r) as [|n]; [now exists 0%nat|].
    destruct (IH (Str.drop (S n) r)) as [k ->]. exists (k + S n)%nat.
    clear. generalize (S n). intros m. revert r. induction m as [|m IHm]; intros r.
    + now rewrite Nat.add_0_r.
    + rewrite Nat.add_succ_r. destruct r; cbn [Str.drop].
      * now destruct k.
      * apply IHm.
Qed.

Lemma rev_onto_app s acc : Str.rev_onto s acc = Str.rev_onto s "" ++ acc.
Proof.
  revert acc. induction s as [|c s IH]; intros acc; cbn [Str.rev_onto]; [reflexivity|].
  rewrite IH, (IH (String c "")). now rewrite append_assoc.
Qed.

Lemma rev_cons c s : Str.rev (String c s) = Str.rev s ++ String c "".
Proof. unfold Str.rev. cbn [Str.rev_onto]. apply rev_onto_app. Qed.

Lemma append_empty s : s ++ "" = s.
Proof. induction s as [|c s IH]; cbn [append]; [reflexivity|now rewrite IH]. Qed.

Lemma rev_app a b : Str.rev (a ++ b) = Str.rev b ++ Str.rev a.
Proof.
  induction a as [|c a IH]; cbn [append].
  - now rewrite append_empty.
  - now rewrite !rev_cons, IH, append_assoc.
Qed.

Lemma rev_involutive s : Str.rev (Str.rev s) = s.
Proof.
  induction s as [|c s IH]; [reflexivity|].
  rewrite rev_cons, rev_app, IH. reflexivity.
Qed.

Lemma length_append a b : String.length (a ++ b) = (String.length a + String.length b)%nat.
Proof. induction a as [|c a IH]; cbn [append String.length]; [reflexivity|now rewrite IH]. Qed.

Lemma length_rev s : String.length (Str.rev s) = String.length s.
Proof.
  induction s as [|c s IH]; [reflexivity|].
  rewrite rev_cons, length_append, IH. cbn [String.length]. lia.
Qed.

Lemma take_drop n s : Str.take n s ++ Str.drop n s = s.
Proof.
  revert s. induction n as [|n IH]; intros s; [reflexivity|].
  destruct s as [|c s]; [reflexivity|]. cbn [Str.take Str.drop append]. now rewrite IH.
Qed.

Lemma drop_all n s : (String.length s <= n)%nat -> Str.drop n s = "".
Proof.
  revert s. induction n as [|n IH]; intros s L.
  - destruct s; [reflexivity|]. cbn [String.length] in L. lia.
  - destruct s as [|c s]; [reflexivity|]. cbn [Str.drop]. apply IH.
    cbn [String.length] in L. lia.
Qed.

Lemma rev_drop_rev k t : exists m, Str.rev (Str.drop k (Str.rev t)) = Str.take m t.
Proof.
  destruct (Nat.le_gt_cases k (String.length t)) as [L|L].
  - exists (String.length t - k)%nat.
    remember (String.length t - k)%nat as m eqn:Hm.
    assert (K : k = String.length (Str.rev (Str.drop m t)))
      by (rewrite length_rev, length_drop; lia).
    rewrite <- (take_drop m t) at 1.
    rewrite rev_app, K, drop_app. apply rev_involutive.
  - exists 0%nat. rewrite drop_all by (rewrite length_rev; lia). reflexivity.
Qed.

Lemma ws_head_take m t : Str.ws_head t = 0%nat -> Str.ws_head (Str.take m t) = 0%nat.
Proof.
  destruct t as [|c1 [|c2 [|c3 t]]], m as [|[|[|m]]];
    cbn [Str.take Str.ws_head]; try reflexivity;
    repeat match goal with |- context [if ?b then _ else _] => destruct b end;
    try reflexivity; try discriminate.
Qed.

Lemma trim_head s : Str.ws_head (Str.trim s) = 0%nat.
Proof.
  unfold Str.trim, Str.trimEnd.
  destruct (trimEnd_fuel_drop (String.length (Str.trimStart s)) (Str.rev (Str.trimStart s)))
    as [k ->].
  destruct (rev_drop_rev k (Str.trimStart s)) as [m ->].
  apply ws_head_take. unfold Str.trimStart. now apply trimStart_fuel_head.
Qed.

Lemma trim_last s : Str.ws_last (Str.rev (Str.trim s)) = 0%nat.
Proof.
  unfold Str.trim, Str.trimEnd. rewrite rev_involutive.
  apply trimEnd_fuel_last. now rewrite length_rev.
Qed.

Lemma trim_trimmed s :
  Str.ws_head s = 0%nat -> Str.ws_last (Str.rev s) = 0%nat -> Str.trim s = s.
Proof.
  intros H L. unfold Str.trim, Str.trimStart.
  assert (E : Str.trimStart_fuel (String.length s) s = s).
  { destruct (String.length s); [reflexivity|]. cbn [Str.trimStart_fuel]. now rewrite H. }
  rewrite E. unfold Str.trimEnd.
  assert (F : Str.trimEnd_fuel (String.length s) (Str.rev s) = Str.rev s).
  { destruct (String.length s); [reflexivity|]. cbn [Str.trimEnd_fuel]. now rewrite L. }
  rewrite F. apply rev_involutive.
Qed.

Lemma trim_idempotent s : Str.trim (Str.trim s) = Str.trim s.
Proof. apply trim_trimmed; [apply trim_head|apply trim_last]. Qed.

Lemma recognized_trimmed answer name :
  recognized answer = Ok name -> exists text, name = Str.trim text.
Proof.
  unfold recognized.
  destruct answer as [response|]; [|discriminate]. cbn [rbind].
  destruct (first_choice_content response) as [content|]; [|discriminate]. cbn [rbind].
  destruct (JS.or content (JStr "")) as [| | | |text| |]; try discriminate.
  cbn [JS.call_trim rbind].
  destruct (negb (JS.truthy (JStr (Str.trim text)))); [discriminate|].
  intros [= <-]. now exists text.
Qed.

(** X22: A name that recognition returns has no white space at either end -
    spaces, tabs, line ends and the Unicode spaces alike - so that trimming
    it again changes nothing; and it is not empty. *)
Theorem recognition_name_is_trimmed
  (image : value) (w : world) (tr tr' : trace) (name : string)
  (Hrun : analyzeWithOpenAI image w tr = (tr', Ok name)) :
  Str.trim name = name
  /\ Str.ws_head name = 0%nat
  /\ Str.ws_last (Str.rev name) = 0%nat
  /\ name <> "".
Proof.
  pose proof (analyzeWithOpenAI_name image w tr tr' name Hrun) as N.
  destruct (analyzeWithOpenAI_stripped image w tr tr' name Hrun) as (b & _ & _ & R).
  destruct (recognized_trimmed _ _ R) as [text ->].
  repeat split.
  - apply trim_idempotent.
  - apply trim_head.
  - apply trim_last.
  - intros E. rewrite E in N. discriminate N.
Qed.

(** The model answers the name between spaces. *)
Lemma recognition_name_is_trimmed_witness :
  Str.trim "Margherita pizza" = "Margherita pizza"
  /\ Str.ws_head "Margherita pizza" = 0%nat
  /\ Str.ws_last (Str.rev "Margherita pizza") = 0%nat
  /\ "Margherita pizza" <> "".
Proof.
  exact (recognition_name_is_trimmed (JStr "QUJD")
           (answering (fun _ => Ok (completion (JStr "  Margherita pizza ")))) []
           [Called (recognition_request (JStr "QUJD"))] "Margherita pizza" eq_refl).
Defined.
